(** * Vector-Whiteboard: the room/session state machine of the relay server

    The repository ships two server programs in [src/server.js]:

    - the single-professor server (lines 1-834), embedded in [Module Simple];
    - the multi-professor server with the 30 s grace period (lines 2317-2955),
      embedded in [Module Robust].

    Both keep two process-wide registries, [rooms] and [userSessions], and react
    to socket.io events.  Every handler runs to completion, so a handler is a
    function from the state before to the state after, together with the list
    of messages it hands to the transport.

    What is left out, everywhere: console output, the debug log
    ([debugSessionLog], [logActivity]) and the [/debug] HTTP endpoints (among
    them the one that forces a Session's role to professor), the
    [userAgent]/[isMobile]/[attemptNumber] diagnostics carried by some
    payloads, the [ping] echo, and the browser client (lines 835-2316) apart
    from its join form ([Module Client]).  All reads of [Date.now()] within
    one handler run are given the same value [now].  A payload is an object
    whose fields are arbitrary JSON values; connection identities are the
    non-empty strings socket.io hands out.

    The built-in [String.prototype.toUpperCase] is a parameter of the
    handlers (class [UpperCasing]).  A theorem that needs a property of it
    says so in its statement; the examples are run with [ascii_case], which
    is what the built-in does on the ASCII room keys they use
    ([simple_run_ascii], [robust_run_ascii]). *)

From Stdlib Require Import ZArith List Ascii Bool Lia.
From stdpp Require Import gmap strings list fin_maps.

#[local] Set Warnings "-clear-no-such-hyp".

(** ** JavaScript values and strings *)

Module Js.

(** Payload fields arrive as arbitrary JSON values.  Numbers are kept as
    integers: the server only forwards them or tests them for truthiness. *)
Unset Elimination Schemes.
Inductive jsval :=
| Undefined
| Null
| Bool (b : bool)
| Num (n : Z)
| Str (s : string)
| Arr (items : list jsval)
| Obj (fields : list (string * jsval)).
Set Elimination Schemes.

Definition is_empty (s : string) : bool :=
  match s with EmptyString => true | String _ _ => false end.

(** [!v] is [negb (truthy v)]. *)
Definition truthy (v : jsval) : bool :=
  match v with
  | Undefined | Null => false
  | Bool b => b
  | Num n => negb (n =? 0)%Z
  | Str s => negb (is_empty s)
  | Arr _ | Obj _ => true
  end.

(** The string held by a value that is known to be a string. *)
Definition str_of (v : jsval) : string :=
  match v with
  | Str s => s
  | _ => EmptyString
  end.

(** [a || b] on values. *)
Definition or_else (a b : jsval) : jsval := if truthy a then a else b.

(** Strings are sequences of 8-bit code units.  The white space of [trim] is
    TAB, LF, VT, FF, CR, SPACE and NBSP. *)
Definition is_space (c : ascii) : bool :=
  let n := N_of_ascii c in
  ((9 <=? n) && (n <=? 13) || (n =? 32) || (n =? 160))%N.

(** The character class [[A-Z0-9]]. *)
Definition is_upper_alnum (c : ascii) : bool :=
  let n := N_of_ascii c in
  ((48 <=? n) && (n <=? 57) || (65 <=? n) && (n <=? 90))%N.

(** The character class [[A-Za-z0-9]]. *)
Definition is_alnum (c : ascii) : bool :=
  let n := N_of_ascii c in
  ((48 <=? n) && (n <=? 57) || (65 <=? n) && (n <=? 90)
   || (97 <=? n) && (n <=? 122))%N.

Fixpoint trimStart (s : string) : string :=
  match s with
  | EmptyString => EmptyString
  | String c s' => if is_space c then trimStart s' else s
  end.

Fixpoint trimEnd (s : string) : string :=
  match s with
  | EmptyString => EmptyString
  | String c s' =>
      let t := trimEnd s' in
      if is_space c && is_empty t then EmptyString else String c t
  end.

Definition trim (s : string) : string := trimEnd (trimStart s).

Fixpoint all_chars (p : ascii -> bool) (s : string) : bool :=
  match s with
  | EmptyString => true
  | String c s' => p c && all_chars p s'
  end.

(** [String.prototype.toUpperCase] is a built-in of the JavaScript engine, not
    code of the servers.  It follows the Unicode case mappings: it turns [a]
    into [A], but also an e with acute accent into its capital and a sharp s
    into two letters S, so it can change the length of a string.  The servers
    only call it; the handlers below take it as a parameter, and every
    theorem names the properties of it that it relies on.  (Strings whose
    upper-casing needs a code unit above 255 are outside the model, like
    strings that hold such a code unit.) *)
Class UpperCasing := { toUpperCase : string → string }.

(** What the built-in does to ASCII text: [a]-[z] become [A]-[Z], every other
    character stays. *)
Definition upper_char (c : ascii) : ascii :=
  let n := N_of_ascii c in
  if ((97 <=? n) && (n <=? 122))%N then ascii_of_N (n - 32) else c.

Fixpoint asciiUpperCase (s : string) : string :=
  match s with
  | EmptyString => EmptyString
  | String c s' => String (upper_char c) (asciiUpperCase s')
  end.

Definition is_ascii (s : string) : bool :=
  all_chars (λ c, (N_of_ascii c <? 128)%N) s.

Definition ascii_val (v : jsval) : bool :=
  match v with
  | Str s => is_ascii s
  | _ => true
  end.

(** The upper-casing used to run the servers on examples whose room keys are
    ASCII text. *)
Definition ascii_case : UpperCasing := {| toUpperCase := asciiUpperCase |}.

Section UpperCasingLaws.
Context {U : UpperCasing}.

(** Upper-casing an upper-cased string changes nothing. *)
Definition upper_idempotent : Prop :=
  ∀ s, toUpperCase (toUpperCase s) = toUpperCase s.

(** On ASCII text the built-in is [asciiUpperCase]. *)
Definition upper_on_ascii : Prop :=
  ∀ s, is_ascii s = true → toUpperCase s = asciiUpperCase s.

(** White space has no case and nothing upper-cases to white space, so
    trimming and upper-casing commute. *)
Definition upper_trim : Prop :=
  ∀ s, toUpperCase (trim s) = trim (toUpperCase s).

(** Only the empty string upper-cases to the empty string. *)
Definition upper_empty : Prop :=
  ∀ s, is_empty (toUpperCase s) = is_empty s.

End UpperCasingLaws.

(** [/^[A-Z0-9]+$/.test(s)] *)
Definition matches_upper_alnum (s : string) : bool :=
  negb (is_empty s) && all_chars is_upper_alnum s.

(** [id.substring(0, 8)] *)
Definition short_id (id : string) : string := String.substring 0 8 id.

(** Property read [v.k] on a value that is neither null nor undefined. *)
Fixpoint field_lookup (fields : list (string * jsval)) (k : string) : jsval :=
  match fields with
  | [] => Undefined
  | (k', v) :: rest => if bool_decide (k' = k) then v else field_lookup rest k
  end.

Definition get_field (v : jsval) (k : string) : jsval :=
  match v with
  | Obj fields => field_lookup fields k
  | _ => Undefined
  end.

(** Assignment of a property: an existing key keeps its place, a new key goes
    last (the order of an object literal with a spread). *)
Fixpoint field_set (fields : list (string * jsval)) (k : string) (v : jsval)
  : list (string * jsval) :=
  match fields with
  | [] => [(k, v)]
  | (k', v') :: rest =>
      if bool_decide (k' = k) then (k', v) :: rest
      else (k', v') :: field_set rest k v
  end.

(** [arr.slice(-n)]: the last [n] entries, all of them when there are fewer. *)
Definition slice_last {A : Type} (n : nat) (l : list A) : list A :=
  drop (length l - n) l.

End Js.

(** ** Insertion-ordered collections ([Set] and [Map] of JavaScript) *)

Module Ordered.

(** [set.add(x)] *)
Definition set_add (x : string) (l : list string) : list string :=
  if bool_decide (x ∈ l) then l else l ++ [x].

(** [set.delete(x)] *)
Definition set_delete (x : string) (l : list string) : list string :=
  filter (λ y, y ≠ x) l.

Section Map.
Context {V : Type}.

Fixpoint map_get (k : string) (m : list (string * V)) : option V :=
  match m with
  | [] => None
  | (k', v) :: rest => if bool_decide (k' = k) then Some v else map_get k rest
  end.

(** [map.set(k, v)] *)
Fixpoint map_set (k : string) (v : V) (m : list (string * V))
  : list (string * V) :=
  match m with
  | [] => [(k, v)]
  | (k', v') :: rest =>
      if bool_decide (k' = k) then (k', v) :: rest
      else (k', v') :: map_set k v rest
  end.

(** [map.delete(k)] *)
Definition map_delete (k : string) (m : list (string * V))
  : list (string * V) :=
  filter (λ p, p.1 ≠ k) m.

Definition map_has (k : string) (m : list (string * V)) : Prop :=
  is_Some (map_get k m).

End Map.

End Ordered.

(** ** The transport: socket.io rooms and the three ways to emit *)

Module Transport.

(** [socket.emit], [io.to(room).emit] and [socket.to(room).emit]
    (also written [socket.broadcast.to(room).emit]). *)
Inductive Effect (E : Type) :=
| ToSocket (sid : string) (ev : E)
| ToRoom (room : string) (ev : E)
| ToRoomExcept (room : string) (sender : string) (ev : E).

Arguments ToSocket {E} sid ev.
Arguments ToRoom {E} room ev.
Arguments ToRoomExcept {E} room sender ev.

(** [channels !!! room] is the set of connections subscribed to the socket.io
    room [room]. *)
Definition join_channel (sid room : string)
    (ch : gmap string (gset string)) : gmap string (gset string) :=
  <[room := {[sid]} ∪ ch !!! room]> ch.

(** A connection that goes away has left every socket.io room by the time its
    [disconnect] handler runs. *)
Definition leave_all (sid : string)
    (ch : gmap string (gset string)) : gmap string (gset string) :=
  (λ members, members ∖ {[sid]}) <$> ch.

(** The connections an emit is delivered to. *)
Definition recipients {E : Type} (ch : gmap string (gset string))
    (eff : Effect E) : gset string :=
  match eff with
  | ToSocket sid _ => {[sid]}
  | ToRoom room _ => ch !!! room
  | ToRoomExcept room sender _ => ch !!! room ∖ {[sender]}
  end.

Definition payload {E : Type} (eff : Effect E) : E :=
  match eff with
  | ToSocket _ ev | ToRoom _ ev | ToRoomExcept _ _ ev => ev
  end.

End Transport.

Inductive Role := Professor | Student.

Inductive ErrorCode :=
| MISSING_DATA
| INVALID_NAME
| INVALID_ROOM_KEY
| ROOM_NOT_FOUND
| PROFESSOR_EXISTS
| PROFESSOR_LIMIT_REACHED
| ROOM_FULL
| STUDENT_LIMIT_REACHED
| NO_PROFESSOR
| INTERNAL_ERROR
| ROOM_GONE.

(** An entry of the user lists sent in [user-list-update]. *)
Record UserEntry := { ue_name : string; ue_id : string }.

(** ** The single-professor server (server.js, lines 1-834) *)

Module Simple.
Import Js Ordered Transport.

(** The object pushed on [room.history] by the [draw-command] handler; its
    [type] is always ['draw']. *)
Record DrawCommand := {
  path : jsval;
  color : jsval;
  width : jsval;
  timestamp : Z;
  userId : string;
  professorName : string
}.

(** [{ professor, students, history, userCount, createdAt, createdBy }];
    [professor] is a connection identity or null, so the truthiness tests on
    it are tests for null. *)
Record Room := {
  professor : option string;
  students : list string;
  history : list DrawCommand;
  userCount : nat;
  createdAt : Z;
  createdBy : string
}.

Record Session := {
  role : Role;
  name : string;
  roomKey : string;
  sessionUserId : string;
  joinedAt : Z
}.

Record State := {
  rooms : gmap string Room;
  userSessions : gmap string Session;
  channels : gmap string (gset string)
}.

Definition init : State :=
  {| rooms := ∅; userSessions := ∅; channels := ∅ |}.

Inductive DeniedCode :=
| SESSION_NOT_FOUND
| INSUFFICIENT_PERMISSIONS
| DENIED_ROOM_NOT_FOUND.

Inductive Event :=
| JoinAttemptReceived (time : Z)
| RoomError (code : ErrorCode)
| RoomJoined (key : string) (count : nat) (r : Role) (time : Z)
| RoomHistory (commands : list DrawCommand)
| ProfessorJoined (who : string) (time : Z)
| ProfessorDisconnected (who : string) (time : Z)
| UserListUpdate (total : nat) (prof : option string) (studs : list UserEntry)
| DrawCommandEvent (cmd : DrawCommand)
| CanvasCleared (time : Z) (clearedBy : string)
| PermissionDenied (code : DeniedCode).

Record ProfessorJoinData := {
  pj_professorName : jsval;
  pj_roomKey : jsval;
  pj_createIfNotExists : jsval
}.

Record StudentJoinData := {
  sj_studentName : jsval;
  sj_roomKey : jsval
}.

Record DrawData := {
  dd_path : jsval;
  dd_color : jsval;
  dd_width : jsval
}.

(** [Array.from(room.students).map(studentId => ...)] *)
Definition studentList (sessions : gmap string Session)
    (studs : list string) : list UserEntry :=
  map (λ studentId,
         {| ue_name := match sessions !! studentId with
                       | Some studentSession => name studentSession
                       | None => "Unknown Student"
                       end;
            ue_id := short_id studentId |}) studs.

(** [userSessions.get(room.professor)], with [room.professor] possibly null. *)
Definition professorSession (sessions : gmap string Session)
    (prof : option string) : option Session :=
  match prof with
  | Some p => sessions !! p
  | None => None
  end.

Definition set_professor (p : option string) (n : nat) (r : Room) : Room :=
  {| professor := p; students := students r; history := history r;
     userCount := n; createdAt := createdAt r; createdBy := createdBy r |}.

Definition set_students (s : list string) (n : nat) (r : Room) : Room :=
  {| professor := professor r; students := s; history := history r;
     userCount := n; createdAt := createdAt r; createdBy := createdBy r |}.

Definition set_history (h : list DrawCommand) (r : Room) : Room :=
  {| professor := professor r; students := students r; history := h;
     userCount := userCount r; createdAt := createdAt r;
     createdBy := createdBy r |}.

(** [if (room.history.length > 0) socket.emit('room-history', ...)] *)
Definition replay (sid : string) (h : list DrawCommand)
  : list (Effect Event) :=
  match h with
  | [] => []
  | _ :: _ => [ToSocket sid (RoomHistory h)]
  end.

Section Handlers.
Context {U : UpperCasing}.

(** [socket.on('join-room-as-professor')], lines 218-397.  A name or key that
    is truthy but not a string makes [.trim()] throw; the [catch] block then
    reports INTERNAL_ERROR. *)
Definition on_join_professor (st : State) (sid : string)
    (data : ProfessorJoinData) (now : Z) : State * list (Effect Event) :=
  let ack := ToSocket sid (JoinAttemptReceived now) in
  let fail code := (st, [ack; ToSocket sid (RoomError code)]) in
  if negb (truthy (pj_professorName data)) || negb (truthy (pj_roomKey data))
  then fail MISSING_DATA
  else
    match pj_professorName data, pj_roomKey data with
    | Str rawName, Str rawKey =>
        let professorName := trim rawName in
        let roomKey := toUpperCase (trim rawKey) in
        if (String.length professorName <? 1)
           || (50 <? String.length professorName)
        then fail INVALID_NAME
        else if (String.length roomKey <? 3) || (20 <? String.length roomKey)
        then fail INVALID_ROOM_KEY
        else
          let admitted : ErrorCode + Room :=
            match rooms st !! roomKey with
            | None =>
                if truthy (pj_createIfNotExists data)
                then inr {| professor := Some sid; students := [];
                            history := []; userCount := 1;
                            createdAt := now; createdBy := professorName |}
                else inl ROOM_NOT_FOUND
            | Some room =>
                match professor room with
                | Some other =>
                    if bool_decide (other ≠ sid) then inl PROFESSOR_EXISTS
                    else inr (set_professor (Some sid)
                                (1 + length (students room)) room)
                | None =>
                    inr (set_professor (Some sid)
                           (1 + length (students room)) room)
                end
            end in
          match admitted with
          | inl code => fail code
          | inr room =>
              let sessions :=
                <[sid := {| role := Professor; name := trim professorName;
                            roomKey := roomKey; sessionUserId := sid;
                            joinedAt := now |}]> (userSessions st) in
              ({| rooms := <[roomKey := room]> (rooms st);
                  userSessions := sessions;
                  channels := join_channel sid roomKey (channels st) |},
               [ack;
                ToSocket sid (RoomJoined roomKey (userCount room)
                                Professor now)]
               ++ replay sid (history room)
               ++ [ToRoomExcept roomKey sid (ProfessorJoined professorName now);
                   ToRoom roomKey
                     (UserListUpdate (userCount room) (Some professorName)
                        (studentList sessions (students room)))])
          end
    | _, _ => fail INTERNAL_ERROR
    end.

(** [socket.on('join-room-as-student')], lines 400-527. *)
Definition on_join_student (st : State) (sid : string)
    (data : StudentJoinData) (now : Z) : State * list (Effect Event) :=
  let ack := ToSocket sid (JoinAttemptReceived now) in
  let fail code := (st, [ack; ToSocket sid (RoomError code)]) in
  if negb (truthy (sj_studentName data)) || negb (truthy (sj_roomKey data))
  then fail MISSING_DATA
  else
    match sj_studentName data, sj_roomKey data with
    | Str rawName, Str rawKey =>
        let studentName := trim rawName in
        let roomKey := toUpperCase (trim rawKey) in
        if (String.length studentName <? 1)
           || (50 <? String.length studentName)
        then fail INVALID_NAME
        else
          match rooms st !! roomKey with
          | None => fail ROOM_NOT_FOUND
          | Some room0 =>
              if 100 <=? userCount room0 then fail ROOM_FULL
              else
                let studs := set_add sid (students room0) in
                let room := set_students studs (1 + length studs) room0 in
                let sessions :=
                  <[sid := {| role := Student; name := trim studentName;
                              roomKey := roomKey; sessionUserId := sid;
                              joinedAt := now |}]> (userSessions st) in
                let professorName :=
                  match professorSession sessions (professor room) with
                  | Some s => name s
                  | None => "Unknown Professor"
                  end in
                ({| rooms := <[roomKey := room]> (rooms st);
                    userSessions := sessions;
                    channels := join_channel sid roomKey (channels st) |},
                 [ack;
                  ToSocket sid (RoomJoined roomKey (userCount room)
                                  Student now)]
                 ++ replay sid (history room)
                 ++ [ToRoom roomKey
                       (UserListUpdate (userCount room) (Some professorName)
                          (studentList sessions (students room)))])
          end
    | _, _ => fail INTERNAL_ERROR
    end.

(** [!data.path || !Array.isArray(data.path) || data.path.length === 0]
    is false. *)
Definition valid_path (p : jsval) : bool :=
  match p with
  | Arr (_ :: _) => true
  | _ => false
  end.

(** [room.history.push(drawCommand)] followed by the overflow rule of
    lines 618-620. *)
Definition push_history (cmd : DrawCommand) (h : list DrawCommand)
  : list DrawCommand :=
  let pushed := h ++ [cmd] in
  if 1000 <? length pushed then slice_last 500 pushed else pushed.

(** [socket.on('draw-command')], lines 530-645. *)
Definition on_draw_command (st : State) (sid : string) (data : DrawData)
    (now : Z) : State * list (Effect Event) :=
  match userSessions st !! sid with
  | None => (st, [ToSocket sid (PermissionDenied SESSION_NOT_FOUND)])
  | Some userSession =>
      match role userSession with
      | Student =>
          (st, [ToSocket sid (PermissionDenied INSUFFICIENT_PERMISSIONS)])
      | Professor =>
          let roomKey := roomKey userSession in
          match rooms st !! roomKey with
          | None =>
              (st, [ToSocket sid (PermissionDenied DENIED_ROOM_NOT_FOUND)])
          | Some room =>
              if negb (valid_path (dd_path data)) then (st, [])
              else
                let drawCommand :=
                  {| path := dd_path data;
                     color := or_else (dd_color data) (Str "#2563eb");
                     width := or_else (dd_width data) (Num 2);
                     timestamp := now;
                     userId := sid;
                     professorName := name userSession |} in
                ({| rooms :=
                      <[roomKey :=
                          set_history (push_history drawCommand (history room))
                            room]> (rooms st);
                    userSessions := userSessions st;
                    channels := channels st |},
                 [ToRoomExcept roomKey sid (DrawCommandEvent drawCommand)])
          end
      end
  end.

(** [socket.on('clear-canvas')], lines 648-699. *)
Definition on_clear_canvas (st : State) (sid : string) (now : Z)
  : State * list (Effect Event) :=
  match userSessions st !! sid with
  | None => (st, [ToSocket sid (PermissionDenied SESSION_NOT_FOUND)])
  | Some userSession =>
      match role userSession with
      | Student =>
          (st, [ToSocket sid (PermissionDenied INSUFFICIENT_PERMISSIONS)])
      | Professor =>
          let roomKey := roomKey userSession in
          match rooms st !! roomKey with
          | None => (st, [])
          | Some room =>
              ({| rooms := <[roomKey := set_history [] room]> (rooms st);
                  userSessions := userSessions st;
                  channels := channels st |},
               [ToRoom roomKey (CanvasCleared now (name userSession))])
          end
      end
  end.

(** [socket.on('disconnect')], lines 702-773.  The user list is built while
    the leaving connection still has its entry in [userSessions]. *)
Definition on_disconnect (st : State) (sid : string) (now : Z)
  : State * list (Effect Event) :=
  let ch := leave_all sid (channels st) in
  match userSessions st !! sid with
  | None =>
      ({| rooms := rooms st; userSessions := userSessions st;
          channels := ch |}, [])
  | Some userSession =>
      let roomKey := roomKey userSession in
      let sessions := delete sid (userSessions st) in
      match rooms st !! roomKey with
      | None =>
          ({| rooms := rooms st; userSessions := sessions; channels := ch |},
           [])
      | Some room0 =>
          let notice :=
            match role userSession with
            | Professor =>
                [ToRoomExcept roomKey sid
                   (ProfessorDisconnected (name userSession) now)]
            | Student => []
            end in
          let room :=
            match role userSession with
            | Professor => set_professor None (length (students room0)) room0
            | Student =>
                let studs := set_delete sid (students room0) in
                set_students studs
                  (match professor room0 with Some _ => 1 | None => 0 end
                   + length studs) room0
            end in
          let emptied :=
            match role userSession with
            | Professor => bool_decide (length (students room) = 0)
            | Student =>
                negb (bool_decide (is_Some (professor room)))
                && bool_decide (length (students room) = 0)
            end in
          if emptied
          then ({| rooms := delete roomKey (rooms st);
                   userSessions := sessions; channels := ch |}, notice)
          else
            let professorName :=
              match professorSession (userSessions st) (professor room) with
              | Some s => Some (name s)
              | None => None
              end in
            ({| rooms := <[roomKey := room]> (rooms st);
                userSessions := sessions; channels := ch |},
             notice
             ++ [ToRoom roomKey
                   (UserListUpdate (userCount room) professorName
                      (studentList (userSessions st) (students room)))])
      end
  end.

(** What can happen to the server. *)
Inductive Input :=
| JoinProfessor (sid : string) (data : ProfessorJoinData) (now : Z)
| JoinStudent (sid : string) (data : StudentJoinData) (now : Z)
| Draw (sid : string) (data : DrawData) (now : Z)
| Clear (sid : string) (now : Z)
| Disconnect (sid : string) (now : Z).

Definition handle (st : State) (i : Input) : State * list (Effect Event) :=
  match i with
  | JoinProfessor sid data now => on_join_professor st sid data now
  | JoinStudent sid data now => on_join_student st sid data now
  | Draw sid data now => on_draw_command st sid data now
  | Clear sid now => on_clear_canvas st sid now
  | Disconnect sid now => on_disconnect st sid now
  end.

(** The state after a sequence of inputs, starting from [st]. *)
Definition run_from (st : State) (trace : list Input) : State :=
  fold_left (λ s i, (handle s i).1) trace st.

Definition run (trace : list Input) : State := run_from init trace.

End Handlers.

(** The number of professors and of students a room record holds. *)
Definition professor_count (r : Room) : nat :=
  match professor r with Some _ => 1 | None => 0 end.

Definition student_count (r : Room) : nat := length (students r).

End Simple.

(** ** The multi-professor server (server.js, lines 2317-2955) *)

Module Robust.
Import Js Ordered Transport.

(** The value stored for a connection in [room.professors] or
    [room.students]. *)
Record Member := {
  m_name : string;
  m_socketId : string;
  m_joinedAt : Z;
  m_role : Role
}.

Record Metadata := {
  createdAt : Z;
  lastActivity : Z;
  createdBy : string * string;
  metaRoomKey : string
}.

(** [{ professors: Map, students: Map, commands: [], metadata }] *)
Record Room := {
  professors : list (string * Member);
  students : list (string * Member);
  commands : list jsval;
  metadata : Metadata
}.

Record Session := {
  role : Role;
  name : string;
  roomKey : string;
  userId : string
}.

(** [timers] holds the room keys of the deletion checks scheduled with
    [setTimeout] that have not run yet. *)
Record State := {
  rooms : gmap string Room;
  userSessions : gmap string Session;
  channels : gmap string (gset string);
  timers : list string
}.

Definition init : State :=
  {| rooms := ∅; userSessions := ∅; channels := ∅; timers := [] |}.

Inductive DeniedMessage :=
| SessionNotFound
| OnlyProfessorsCanDraw
| OnlyProfessorsCanClear.

Inductive Event :=
| RoomError (code : ErrorCode)
| RoomJoined (key : string) (r : Role) (userName : string)
    (count profs studs : nat)
| RoomHistory (cmds : list jsval) (count : nat)
| UserListUpdate (profs studs : list UserEntry) (total : nat)
| DrawCommandEvent (cmd : jsval)
| CanvasCleared (professorId professorName : string) (time : Z)
| PermissionDenied (message : DeniedMessage).

Record ProfessorJoinData := {
  pj_roomKey : jsval;
  pj_professorName : jsval;
  pj_createIfNotExists : jsval
}.

Record StudentJoinData := {
  sj_roomKey : jsval;
  sj_studentName : jsval
}.

Section Handlers.
Context {U : UpperCasing}.

(** [validateRoomKey], lines 2379-2383. *)
Definition validateRoomKey (key : jsval) : bool :=
  match key with
  | Str s =>
      if is_empty s then false
      else
        let cleanKey := toUpperCase (trim s) in
        (3 <=? String.length cleanKey) && (String.length cleanKey <=? 20)
        && matches_upper_alnum cleanKey
  | _ => false
  end.

Record RoomStats := {
  rs_professors : nat;
  rs_students : nat;
  rs_total : nat;
  rs_exists : bool
}.

(** [getRoomStats], lines 2385-2397 (the two time stamps are left out). *)
Definition getRoomStats (rms : gmap string Room) (roomKey : string)
  : RoomStats :=
  match rms !! roomKey with
  | None => {| rs_professors := 0; rs_students := 0; rs_total := 0;
               rs_exists := false |}
  | Some room =>
      {| rs_professors := length (professors room);
         rs_students := length (students room);
         rs_total := length (professors room) + length (students room);
         rs_exists := true |}
  end.

(** [createRoom], lines 2399-2413. *)
Definition createRoom (rms : gmap string Room) (roomKey : string)
    (creatorInfo : string * string) (now : Z) : gmap string Room :=
  let normalizedKey := toUpperCase roomKey in
  <[normalizedKey :=
      {| professors := []; students := []; commands := [];
         metadata := {| createdAt := now; lastActivity := now;
                        createdBy := creatorInfo;
                        metaRoomKey := normalizedKey |} |}]> rms.

Definition touch (now : Z) (m : Metadata) : Metadata :=
  {| createdAt := createdAt m; lastActivity := now;
     createdBy := createdBy m; metaRoomKey := metaRoomKey m |}.

(** [Array.from(map.values()).map(p => ({ name, id }))] *)
Definition userList (members : list (string * Member)) : list UserEntry :=
  map (λ p, {| ue_name := m_name p.2; ue_id := short_id (m_socketId p.2) |})
    members.

Definition userListUpdate (room : Room) : Event :=
  UserListUpdate (userList (professors room)) (userList (students room))
    (length (professors room) + length (students room)).

Definition replay (sid : string) (cmds : list jsval) : list (Effect Event) :=
  match cmds with
  | [] => []
  | _ :: _ => [ToSocket sid (RoomHistory cmds (length cmds))]
  end.

(** The name test [!n || n.trim().length === 0] of both join handlers:
    [None] when [.trim()] throws, otherwise whether the name is refused. *)
Definition name_refused (n : jsval) : option bool :=
  if negb (truthy n) then Some true
  else match n with
       | Str s => Some (String.length (trim s) =? 0)
       | _ => None
       end.

(** The default of [createIfNotExists = true] in the destructuring. *)
Definition create_flag (v : jsval) : bool :=
  match v with
  | Undefined => true
  | _ => truthy v
  end.

(** [socket.on('join-room-as-professor')], lines 2425-2539.  [gen] is the value
    [generateRoomKey()] returns if it is called. *)
Definition on_join_professor (st : State) (sid : string)
    (data : ProfessorJoinData) (now : Z) (gen : string)
  : State * list (Effect Event) :=
  let fail code := (st, [ToSocket sid (RoomError code)]) in
  match name_refused (pj_professorName data) with
  | None => fail INTERNAL_ERROR
  | Some true => fail INVALID_NAME
  | Some false =>
      let professorName := str_of (pj_professorName data) in
      let createIfNotExists := create_flag (pj_createIfNotExists data) in
      let roomKey :=
        if negb (truthy (pj_roomKey data)) && createIfNotExists
        then Str gen else pj_roomKey data in
      if negb (validateRoomKey roomKey) then fail INVALID_ROOM_KEY
      else
        let normalizedRoomKey := toUpperCase (str_of roomKey) in
        let created : option (gmap string Room) :=
          match rooms st !! normalizedRoomKey with
          | Some _ => Some (rooms st)
          | None =>
              if createIfNotExists
              then Some (createRoom (rooms st) normalizedRoomKey
                           (professorName, sid) now)
              else None
          end in
        match created with
        | None => fail ROOM_NOT_FOUND
        | Some rooms1 =>
            match rooms1 !! normalizedRoomKey with
            | None =>
                ({| rooms := rooms1; userSessions := userSessions st;
                    channels := channels st; timers := timers st |},
                 [ToSocket sid (RoomError INTERNAL_ERROR)])
            | Some room0 =>
                if 3 <=? length (professors room0)
                then ({| rooms := rooms1; userSessions := userSessions st;
                         channels := channels st; timers := timers st |},
                      [ToSocket sid (RoomError PROFESSOR_LIMIT_REACHED)])
                else
                  let professorData :=
                    {| m_name := trim professorName; m_socketId := sid;
                       m_joinedAt := now; m_role := Professor |} in
                  let room :=
                    {| professors :=
                         map_set sid professorData (professors room0);
                       students := students room0;
                       commands := commands room0;
                       metadata := touch now (metadata room0) |} in
                  let rooms2 := <[normalizedRoomKey := room]> rooms1 in
                  let roomStats := getRoomStats rooms2 normalizedRoomKey in
                  ({| rooms := rooms2;
                      userSessions :=
                        <[sid := {| role := Professor;
                                    name := trim professorName;
                                    roomKey := normalizedRoomKey;
                                    userId := sid |}]> (userSessions st);
                      channels :=
                        join_channel sid normalizedRoomKey (channels st);
                      timers := timers st |},
                   [ToSocket sid
                      (RoomJoined normalizedRoomKey Professor
                         (trim professorName) (rs_total roomStats)
                         (rs_professors roomStats) (rs_students roomStats))]
                   ++ replay sid (commands room)
                   ++ [ToRoom normalizedRoomKey (userListUpdate room)])
            end
        end
  end.

(** [socket.on('join-room-as-student')], lines 2542-2653. *)
Definition on_join_student (st : State) (sid : string)
    (data : StudentJoinData) (now : Z) : State * list (Effect Event) :=
  let fail code := (st, [ToSocket sid (RoomError code)]) in
  match name_refused (sj_studentName data) with
  | None => fail INTERNAL_ERROR
  | Some true => fail INVALID_NAME
  | Some false =>
      let studentName := str_of (sj_studentName data) in
      if negb (validateRoomKey (sj_roomKey data)) then fail INVALID_ROOM_KEY
      else
        let normalizedRoomKey := toUpperCase (str_of (sj_roomKey data)) in
        match rooms st !! normalizedRoomKey with
        | None => fail ROOM_NOT_FOUND
        | Some room0 =>
            if length (professors room0) =? 0 then fail NO_PROFESSOR
            else if 100 <=? length (students room0)
            then fail STUDENT_LIMIT_REACHED
            else
              let studentData :=
                {| m_name := trim studentName; m_socketId := sid;
                   m_joinedAt := now; m_role := Student |} in
              let room :=
                {| professors := professors room0;
                   students := map_set sid studentData (students room0);
                   commands := commands room0;
                   metadata := touch now (metadata room0) |} in
              let rooms2 := <[normalizedRoomKey := room]> (rooms st) in
              let roomStats := getRoomStats rooms2 normalizedRoomKey in
              ({| rooms := rooms2;
                  userSessions :=
                    <[sid := {| role := Student;
                                name := trim studentName;
                                roomKey := normalizedRoomKey;
                                userId := sid |}]> (userSessions st);
                  channels :=
                    join_channel sid normalizedRoomKey (channels st);
                  timers := timers st |},
               [ToSocket sid
                  (RoomJoined normalizedRoomKey Student
                     (trim studentName) (rs_total roomStats)
                     (rs_professors roomStats) (rs_students roomStats))]
               ++ replay sid (commands room)
               ++ [ToRoom normalizedRoomKey (userListUpdate room)])
        end
  end.

(** [!command || !command.type || !command.path] is false. *)
Definition valid_command (command : jsval) : bool :=
  truthy command && truthy (get_field command "type")
  && truthy (get_field command "path").

(** The own properties copied by [...command]. *)
Definition spread (command : jsval) : list (string * jsval) :=
  match command with
  | Obj fields => fields
  | _ => []
  end.

(** [{ ...command, professorId, professorName, timestamp, roomKey }] *)
Definition enrich (command : jsval) (sid professorName : string) (now : Z)
    (roomKey : string) : jsval :=
  Obj (field_set
         (field_set
            (field_set
               (field_set (spread command) "professorId" (Str (short_id sid)))
               "professorName" (Str professorName))
            "timestamp" (Num now))
         "roomKey" (Str roomKey)).

(** [room.commands.push(enrichedCommand)] followed by the overflow rule of
    lines 2699-2702. *)
Definition push_command (cmd : jsval) (cmds : list jsval) : list jsval :=
  let pushed := cmds ++ [cmd] in
  if 1000 <? length pushed then slice_last 1000 pushed else pushed.

(** [socket.on('draw-command')], lines 2656-2716; [command] is
    [data.command]. *)
Definition on_draw_command (st : State) (sid : string) (command : jsval)
    (now : Z) : State * list (Effect Event) :=
  match userSessions st !! sid with
  | None => (st, [ToSocket sid (PermissionDenied SessionNotFound)])
  | Some userSession =>
      match role userSession with
      | Student => (st, [ToSocket sid (PermissionDenied OnlyProfessorsCanDraw)])
      | Professor =>
          if negb (valid_command command) then (st, [])
          else
            let roomKey := roomKey userSession in
            match rooms st !! roomKey with
            | None => (st, [ToSocket sid (RoomError ROOM_GONE)])
            | Some room =>
                let enrichedCommand :=
                  enrich command sid (name userSession) now roomKey in
                ({| rooms :=
                      <[roomKey :=
                          {| professors := professors room;
                             students := students room;
                             commands :=
                               push_command enrichedCommand (commands room);
                             metadata := touch now (metadata room) |}]>
                        (rooms st);
                    userSessions := userSessions st;
                    channels := channels st;
                    timers := timers st |},
                 [ToRoomExcept roomKey sid (DrawCommandEvent enrichedCommand)])
            end
      end
  end.

(** [socket.on('clear-canvas')], lines 2719-2752. *)
Definition on_clear_canvas (st : State) (sid : string) (now : Z)
  : State * list (Effect Event) :=
  let denied := (st, [ToSocket sid (PermissionDenied OnlyProfessorsCanClear)]) in
  match userSessions st !! sid with
  | None => denied
  | Some userSession =>
      match role userSession with
      | Student => denied
      | Professor =>
          let roomKey := roomKey userSession in
          match rooms st !! roomKey with
          | None => (st, [ToSocket sid (RoomError ROOM_GONE)])
          | Some room =>
              ({| rooms :=
                    <[roomKey :=
                        {| professors := professors room;
                           students := students room;
                           commands := [];
                           metadata := touch now (metadata room) |}]>
                      (rooms st);
                  userSessions := userSessions st;
                  channels := channels st;
                  timers := timers st |},
               [ToRoom roomKey
                  (CanvasCleared (short_id sid) (name userSession) now)])
          end
      end
  end.

(** [socket.on('disconnect')], lines 2763-2817. *)
Definition on_disconnect (st : State) (sid : string) (now : Z)
  : State * list (Effect Event) :=
  let ch := leave_all sid (channels st) in
  match userSessions st !! sid with
  | None =>
      ({| rooms := rooms st; userSessions := userSessions st;
          channels := ch; timers := timers st |}, [])
  | Some userSession =>
      let roomKey := roomKey userSession in
      let sessions := delete sid (userSessions st) in
      match rooms st !! roomKey with
      | None =>
          ({| rooms := rooms st; userSessions := sessions; channels := ch;
              timers := timers st |}, [])
      | Some room0 =>
          let room :=
            match role userSession with
            | Professor =>
                {| professors := map_delete sid (professors room0);
                   students := students room0;
                   commands := commands room0;
                   metadata := touch now (metadata room0) |}
            | Student =>
                {| professors := professors room0;
                   students := map_delete sid (students room0);
                   commands := commands room0;
                   metadata := touch now (metadata room0) |}
            end in
          let totalUsers := length (professors room) + length (students room) in
          if totalUsers =? 0
          then ({| rooms := <[roomKey := room]> (rooms st);
                   userSessions := sessions; channels := ch;
                   timers := timers st ++ [roomKey] |}, [])
          else ({| rooms := <[roomKey := room]> (rooms st);
                   userSessions := sessions; channels := ch;
                   timers := timers st |},
                [ToRoomExcept roomKey sid (userListUpdate room)])
      end
  end.

(** The callback handed to [setTimeout], lines 2784-2792. *)
Definition deletion_check (rms : gmap string Room) (roomKey : string)
  : gmap string Room :=
  match rms !! roomKey with
  | None => rms
  | Some roomCheck =>
      if (length (professors roomCheck) =? 0)
         && (length (students roomCheck) =? 0)
      then delete roomKey rms else rms
  end.

Fixpoint remove_first (k : string) (l : list string) : list string :=
  match l with
  | [] => []
  | x :: rest => if bool_decide (x = k) then rest else x :: remove_first k rest
  end.

(** A pending deletion check for [roomKey] runs (30 s after it was
    scheduled); without one pending nothing happens. *)
Definition on_timer (st : State) (roomKey : string) : State :=
  if bool_decide (roomKey ∈ timers st)
  then {| rooms := deletion_check (rooms st) roomKey;
          userSessions := userSessions st; channels := channels st;
          timers := remove_first roomKey (timers st) |}
  else st.

Definition maxInactiveTime : Z := 24 * 60 * 60 * 1000.

(** The hourly sweep, lines 2899-2912. *)
Definition on_sweep (st : State) (now : Z) : State :=
  {| rooms :=
       filter (λ kr : string * Room,
                 ¬ ((now - lastActivity (metadata kr.2) > maxInactiveTime)%Z
                    ∧ length (professors kr.2) + length (students kr.2) = 0))
         (rooms st);
     userSessions := userSessions st; channels := channels st;
     timers := timers st |}.

(** [GET /api/rooms/:roomKey], lines 2851-2879: the key that is looked up and
    what is found under it. *)
Definition api_room (st : State) (param : string)
  : string * option (RoomStats * nat) :=
  let roomKey := toUpperCase param in
  match rooms st !! roomKey with
  | None => (roomKey, None)
  | Some room =>
      (roomKey, Some (getRoomStats (rooms st) roomKey, length (commands room)))
  end.

Inductive Input :=
| JoinProfessor (sid : string) (data : ProfessorJoinData) (now : Z)
    (gen : string)
| JoinStudent (sid : string) (data : StudentJoinData) (now : Z)
| Draw (sid : string) (command : jsval) (now : Z)
| Clear (sid : string) (now : Z)
| Disconnect (sid : string) (now : Z)
| TimerFired (roomKey : string)
| Sweep (now : Z).

Definition handle (st : State) (i : Input) : State * list (Effect Event) :=
  match i with
  | JoinProfessor sid data now gen => on_join_professor st sid data now gen
  | JoinStudent sid data now => on_join_student st sid data now
  | Draw sid command now => on_draw_command st sid command now
  | Clear sid now => on_clear_canvas st sid now
  | Disconnect sid now => on_disconnect st sid now
  | TimerFired roomKey => (on_timer st roomKey, [])
  | Sweep now => (on_sweep st now, [])
  end.

Definition run_from (st : State) (trace : list Input) : State :=
  fold_left (λ s i, (handle s i).1) trace st.

Definition run (trace : list Input) : State := run_from init trace.

End Handlers.

End Robust.

(** ** Well-formed states

    A connection occupies the room its Session names.  In a well-formed state
    every Session is backed by the registry: its room exists and lists the
    connection under the Session's role, and the connection is subscribed to
    the room's socket.io channel. *)

Module SimpleInv.
Import Transport Simple.

Definition member_of (r : Role) (sid : string) (room : Room) : Prop :=
  match r with
  | Professor => professor room = Some sid
  | Student => sid ∈ students room
  end.

Definition session_ok (st : State) (sid : string) (s : Session) : Prop :=
  sid ∈ channels st !!! roomKey s
  ∧ ∃ room, rooms st !! roomKey s = Some room ∧ member_of (role s) sid room.

Definition consistent (st : State) : Prop :=
  ∀ sid s, userSessions st !! sid = Some s → session_ok st sid s.

(** The connections that occupy room [k]: those whose Session names it. *)
Definition occupant (st : State) (k sid : string) : Prop :=
  ∃ s, userSessions st !! sid = Some s ∧ roomKey s = k.

(** Room keys are stored upper-cased, in the registry and in the Sessions. *)
Definition normalized {U : Js.UpperCasing} (st : State) : Prop :=
  (∀ k room, rooms st !! k = Some room → Js.toUpperCase k = k)
  ∧ (∀ sid s, userSessions st !! sid = Some s →
       Js.toUpperCase (roomKey s) = roomKey s).

(** The handler told [sid] that it joined room [k] with role [r]. *)
Definition joined (effs : list (Effect Event)) (sid k : string) (r : Role)
  : Prop :=
  ∃ count time, ToSocket sid (RoomJoined k count r time) ∈ effs.

(** The occupancy a message reports, with the room it is about:
    [userCount] of [room-joined], [total] of [user-list-update]. *)
Definition reported_occupancy (eff : Effect Event) : option (string * nat) :=
  match eff with
  | ToSocket _ (RoomJoined k count _ _) => Some (k, count)
  | ToRoom k (UserListUpdate total _ _) => Some (k, total)
  | ToRoomExcept k _ (UserListUpdate total _ _) => Some (k, total)
  | _ => None
  end.

(** No room holds more than 1000 draw commands. *)
Definition bounded (st : State) : Prop :=
  ∀ k room, rooms st !! k = Some room → length (history room) ≤ 1000.

(** The inputs whose room key, if it is a string, is ASCII text. *)
Definition ascii_input (i : Input) : bool :=
  match i with
  | JoinProfessor _ data _ => Js.ascii_val (pj_roomKey data)
  | JoinStudent _ data _ => Js.ascii_val (sj_roomKey data)
  | _ => true
  end.

End SimpleInv.

Module RobustInv.
Import Ordered Transport Robust.

Definition member_of (r : Role) (sid : string) (room : Room) : Prop :=
  match r with
  | Professor => map_has sid (professors room)
  | Student => map_has sid (students room)
  end.

Definition session_ok (st : State) (sid : string) (s : Session) : Prop :=
  sid ∈ channels st !!! roomKey s
  ∧ ∃ room, rooms st !! roomKey s = Some room ∧ member_of (role s) sid room.

Definition consistent (st : State) : Prop :=
  ∀ sid s, userSessions st !! sid = Some s → session_ok st sid s.

Definition occupant (st : State) (k sid : string) : Prop :=
  ∃ s, userSessions st !! sid = Some s ∧ roomKey s = k.

Definition normalized {U : Js.UpperCasing} (st : State) : Prop :=
  (∀ k room, rooms st !! k = Some room → Js.toUpperCase k = k)
  ∧ (∀ sid s, userSessions st !! sid = Some s →
       Js.toUpperCase (roomKey s) = roomKey s).

Definition joined (effs : list (Effect Event)) (sid k : string) (r : Role)
  : Prop :=
  ∃ userName count profs studs,
    ToSocket sid (RoomJoined k r userName count profs studs) ∈ effs.

(** The room lists [sid], under role [r], and nobody else. *)
Definition sole_occupant (room : Room) (r : Role) (sid : string) : Prop :=
  match r with
  | Professor => (professors room).*1 = [sid] ∧ students room = []
  | Student => professors room = [] ∧ (students room).*1 = [sid]
  end.

(** The occupancy a message reports, with the room it is about:
    [userCount] of [room-joined], [total] of [user-list-update]. *)
Definition reported_occupancy (eff : Effect Event) : option (string * nat) :=
  match eff with
  | ToSocket _ (RoomJoined k _ _ count _ _) => Some (k, count)
  | ToRoom k (UserListUpdate _ _ total) => Some (k, total)
  | ToRoomExcept k _ (UserListUpdate _ _ total) => Some (k, total)
  | _ => None
  end.

(** No room holds more than 1000 draw commands. *)
Definition bounded (st : State) : Prop :=
  ∀ k room, rooms st !! k = Some room → length (commands room) ≤ 1000.

(** The registry key a professor join asks for: the key of the payload, or
    the generated one when the payload has none and the room may be created;
    upper-cased. *)
Definition requested_key {U : Js.UpperCasing} (data : ProfessorJoinData)
    (gen : string) : string :=
  Js.toUpperCase
    (Js.str_of
       (if negb (Js.truthy (pj_roomKey data))
           && create_flag (pj_createIfNotExists data)
        then Js.Str gen else pj_roomKey data)).

(** The inputs that leave an empty room [k] alone, its last occupant having
    left at time [left]: every input but a professor join that asks for [k],
    a deletion check for [k], and a sweep more than 24 hours after [left]. *)
Definition spares {U : Js.UpperCasing} (k : string) (left : Z) (i : Input)
  : Prop :=
  match i with
  | JoinProfessor _ data _ gen => requested_key data gen ≠ k
  | TimerFired k' => k' ≠ k
  | Sweep now => (now - left ≤ maxInactiveTime)%Z
  | _ => True
  end.

#[global] Instance spares_dec {U : Js.UpperCasing} k left i :
  Decision (spares k left i).
Proof. destruct i; simpl; apply _. Defined.

(** The inputs whose room key, if it is a string, is ASCII text, as is the
    key that would be generated. *)
Definition ascii_input (i : Input) : bool :=
  match i with
  | JoinProfessor _ data _ gen =>
      Js.ascii_val (pj_roomKey data) && Js.is_ascii gen
  | JoinStudent _ data _ => Js.ascii_val (sj_roomKey data)
  | _ => true
  end.

End RobustInv.

(** ** Concrete sessions used to exercise the handlers *)

Module Examples.
Import Js.

Definition points : jsval := Arr [Arr [Num 1; Num 2]; Arr [Num 3; Num 4]].

(** A class on the single-professor server: Ann opens room MATH101 from
    connection [p1], Bob joins it from [s1]. *)
Definition ann : Simple.ProfessorJoinData :=
  {| Simple.pj_professorName := Str "Ann";
     Simple.pj_roomKey := Str "math101";
     Simple.pj_createIfNotExists := Bool true |}.

Definition bob : Simple.StudentJoinData :=
  {| Simple.sj_studentName := Str "Bob"; Simple.sj_roomKey := Str "MATH101" |}.

Definition cy : Simple.StudentJoinData :=
  {| Simple.sj_studentName := Str "Cy"; Simple.sj_roomKey := Str "Math101" |}.

Definition stroke : Simple.DrawData :=
  {| Simple.dd_path := points; Simple.dd_color := Undefined;
     Simple.dd_width := Num 4 |}.

Definition simple_class : list Simple.Input :=
  [Simple.JoinProfessor "p1" ann 10; Simple.JoinStudent "s1" bob 20].

(** The same class on the multi-professor server. *)
Definition r_ann : Robust.ProfessorJoinData :=
  {| Robust.pj_roomKey := Str "math101";
     Robust.pj_professorName := Str "Ann";
     Robust.pj_createIfNotExists := Undefined |}.

Definition r_bob : Robust.StudentJoinData :=
  {| Robust.sj_roomKey := Str "MATH101"; Robust.sj_studentName := Str "Bob" |}.

Definition r_stroke : jsval :=
  Obj [("type", Str "draw"); ("path", points); ("color", Str "#dc2626")].

Definition robust_class : list Robust.Input :=
  [Robust.JoinProfessor "p1" r_ann 10 "K3Y9XZ"; Robust.JoinStudent "s1" r_bob 20].

(** Ann then draws the same stroke a thousand times. *)
Definition simple_thousand : list Simple.Input :=
  simple_class ++ replicate 1000 (Simple.Draw "p1" stroke 30).

Definition robust_thousand : list Robust.Input :=
  robust_class ++ replicate 1000 (Robust.Draw "p1" r_stroke 30).

(** Ann leaves while Bob stays: the room lives on without a professor. *)
Definition simple_orphaned : list Simple.Input :=
  simple_class ++ [Simple.Disconnect "p1" 30].

(** Ann alone in her room, one stroke on the board. *)
Definition simple_lesson : list Simple.Input :=
  [Simple.JoinProfessor "p1" ann 10; Simple.Draw "p1" stroke 20].

Definition robust_lesson : list Robust.Input :=
  [Robust.JoinProfessor "p1" r_ann 10 "K3Y9XZ"; Robust.Draw "p1" r_stroke 20].

(** A room key with a dash in it. *)
Definition dashed : Simple.ProfessorJoinData :=
  {| Simple.pj_professorName := Str "Ann";
     Simple.pj_roomKey := Str "ab-cd";
     Simple.pj_createIfNotExists := Bool true |}.

Definition dashed_student : Simple.StudentJoinData :=
  {| Simple.sj_studentName := Str "Bob"; Simple.sj_roomKey := Str "AB-CD" |}.

(** Ann, still connected to MATH101, opens a second room. *)
Definition phys : Simple.ProfessorJoinData :=
  {| Simple.pj_professorName := Str "Ann";
     Simple.pj_roomKey := Str "phys202";
     Simple.pj_createIfNotExists := Bool true |}.

Definition r_phys : Robust.ProfessorJoinData :=
  {| Robust.pj_roomKey := Str "phys202";
     Robust.pj_professorName := Str "Ann";
     Robust.pj_createIfNotExists := Undefined |}.

Definition r_dee : Robust.ProfessorJoinData :=
  {| Robust.pj_roomKey := Str "MATH101";
     Robust.pj_professorName := Str "Dee";
     Robust.pj_createIfNotExists := Undefined |}.

(** Ann leaves her room with one stroke on the board; Dee joins it ten
    seconds later and leaves after ten more.  Two deletion checks for MATH101
    are pending then, Ann's due at 32000 and Dee's at 52000. *)
Definition robust_two_checks : list Robust.Input :=
  [Robust.JoinProfessor "p1" r_ann 1000 "K3Y9XZ";
   Robust.Draw "p1" r_stroke 1500;
   Robust.Disconnect "p1" 2000;
   Robust.JoinProfessor "p2" r_dee 12000 "K3Y9XZ";
   Robust.Disconnect "p2" 22000].

(** What happens on the multi-professor server while MATH101 stands empty:
    a professor opens PHYS202 and draws there, the sweep runs, and a deletion
    check for PHYS202 comes due. *)
Definition robust_meanwhile : list Robust.Input :=
  [Robust.JoinProfessor "p3" r_phys 31 "K3Y9XZ";
   Robust.Draw "p3" r_stroke 32;
   Robust.Sweep 33;
   Robust.TimerFired "PHYS202"].

End Examples.

(** ** Answers to requests *)

Module Answers.
Import Transport.



(** The message goes to connection [sid] alone. *)
Definition to_sender {E : Type} (sid : string) (eff : Effect E) : Prop :=
  match eff with
  | ToSocket s _ => s = sid
  | _ => False
  end.

(** The input is a draw or clear request of connection [sid]. *)
Definition simple_request (i : Simple.Input) (sid : string) : Prop :=
  match i with
  | Simple.Draw s _ _ | Simple.Clear s _ => s = sid
  | _ => False
  end.

Definition robust_request (i : Robust.Input) (sid : string) : Prop :=
  match i with
  | Robust.Draw s _ _ | Robust.Clear s _ => s = sid
  | _ => False
  end.

End Answers.

(** ** Room records within their limits *)

Module Limits.

(** At most 100 students, none listed twice, and a [userCount] that is the
    number of students, plus one at most. *)
Definition simple_room_ok (room : Simple.Room) : Prop :=
  NoDup (Simple.students room)
  ∧ length (Simple.students room) ≤ 100
  ∧ length (Simple.students room) ≤ Simple.userCount room
    ≤ S (length (Simple.students room)).

(** At most 3 professors and 100 students, no connection twice in a map. *)
Definition robust_room_ok (room : Robust.Room) : Prop :=
  NoDup (Robust.professors room).*1
  ∧ NoDup (Robust.students room).*1
  ∧ length (Robust.professors room) ≤ 3
  ∧ length (Robust.students room) ≤ 100.

End Limits.

(** ** Requests that rewrite a history *)

Module Rewrites.

(** The input is a draw or clear request from a connection whose Session
    has role professor and names room [k]. *)
Definition simple_rewrites (st : Simple.State) (i : Simple.Input) (k : string)
  : Prop :=
  match i with
  | Simple.Draw sid _ _ | Simple.Clear sid _ =>
      ∃ s, Simple.userSessions st !! sid = Some s
           ∧ Simple.role s = Professor ∧ Simple.roomKey s = k
  | _ => False
  end.

Definition robust_rewrites (st : Robust.State) (i : Robust.Input) (k : string)
  : Prop :=
  match i with
  | Robust.Draw sid _ _ | Robust.Clear sid _ =>
      ∃ s, Robust.userSessions st !! sid = Some s
           ∧ Robust.role s = Professor ∧ Robust.roomKey s = k
  | _ => False
  end.

End Rewrites.

(** ** Inputs that remove a room *)

Module Removal.
Import Ordered.

(** The input is the disconnect of the last connection the record of room
    [k] lists: a professor's when no student is listed, a student's when no
    professor is and no other student. *)
Definition simple_removes (st : Simple.State) (i : Simple.Input) (k : string)
    (room : Simple.Room) : Prop :=
  ∃ sid now s,
    i = Simple.Disconnect sid now
    ∧ Simple.userSessions st !! sid = Some s
    ∧ Simple.roomKey s = k
    ∧ match Simple.role s with
      | Professor => Simple.students room = []
      | Student =>
          Simple.professor room = None
          ∧ set_delete sid (Simple.students room) = []
      end.

(** The input is a pending deletion check for [k], or a sweep more than 24 h
    after the last activity in the room. *)
Definition robust_removes (st : Robust.State) (i : Robust.Input) (k : string)
    (room : Robust.Room) : Prop :=
  (i = Robust.TimerFired k ∧ k ∈ Robust.timers st)
  ∨ ∃ now,
      i = Robust.Sweep now
      ∧ (now - Robust.lastActivity (Robust.metadata room)
         > Robust.maxInactiveTime)%Z.

(** The record lists nobody. *)
Definition simple_vacant (room : Simple.Room) : Prop :=
  Simple.professor room = None ∧ Simple.students room = [].

Definition robust_vacant (room : Robust.Room) : Prop :=
  Robust.professors room = [] ∧ Robust.students room = [].

(** Every vacant room has a deletion check pending. *)
Definition watched (st : Robust.State) : Prop :=
  ∀ k room,
    Robust.rooms st !! k = Some room → robust_vacant room →
    k ∈ Robust.timers st.

End Removal.

(** ** The join form of the browser client *)

(** The client class of the same file (lines 835-2316) is modelled as far as
    it decides what a join request carries: the room and name form
    ([joinRoom]) with its two helpers, and the payload [attemptRoomJoin]
    emits. *)
Module Client.
Import Js.

(** [config.roomSettings], lines 846-850: [keyLength] is 3 to 20 and
    [keyPattern] is [/^[A-Za-z0-9]+$/]. *)
Definition keyPattern (s : string) : bool :=
  negb (is_empty s) && all_chars is_alnum s.

(** [validateRoomKey], lines 1605-1609. *)
Definition validateRoomKey (key : string) : bool :=
  (3 <=? String.length key) && (String.length key <=? 20) && keyPattern key.

Definition chars : string := "ABCDEFGHIJKLMNOPQRSTUVWXYZ0123456789".

(** [s.charAt(i)] *)
Definition charAt (s : string) (i : nat) : string :=
  match String.get i s with
  | Some c => String c EmptyString
  | None => EmptyString
  end.

(** [generateRoomKey], lines 1612-1619.  [picks i] is the value of
    [Math.floor(Math.random() * chars.length)] in round [i] of the loop. *)
Definition generateRoomKey (picks : nat → nat) : string :=
  fold_left (λ result i, String.append result (charAt chars (picks i)))
    (seq 0 6) EmptyString.

Inductive FormError :=
| EnterYourName
| EnterRoomKey
| BadRoomKey.

(** What [joinRoom] leaves in [state.currentRoom] and [state.userName]. *)
Record Credentials := {
  currentRoom : string;
  userName : string
}.

(** [attemptRoomJoin], lines 1270-1293: the event that is emitted, with the
    fields of its payload that a server reads. *)
Inductive Request :=
| JoinRoomAsProfessor (roomKey professorName : string)
    (createIfNotExists : bool)
| JoinRoomAsStudent (roomKey studentName : string).

Definition attemptRoomJoin (userRole : option string) (cred : Credentials)
  : Request :=
  if bool_decide (userRole = Some "professor")
  then JoinRoomAsProfessor (currentRoom cred) (userName cred) true
  else JoinRoomAsStudent (currentRoom cred) (userName cred).

(** The request as it reaches the handlers of the two servers. *)
Definition to_simple (sid : string) (req : Request) (now : Z)
  : Simple.Input :=
  match req with
  | JoinRoomAsProfessor roomKey professorName createIfNotExists =>
      Simple.JoinProfessor sid
        {| Simple.pj_professorName := Str professorName;
           Simple.pj_roomKey := Str roomKey;
           Simple.pj_createIfNotExists := Bool createIfNotExists |} now
  | JoinRoomAsStudent roomKey studentName =>
      Simple.JoinStudent sid
        {| Simple.sj_studentName := Str studentName;
           Simple.sj_roomKey := Str roomKey |} now
  end.

Definition to_robust (sid : string) (req : Request) (now : Z) (gen : string)
  : Robust.Input :=
  match req with
  | JoinRoomAsProfessor roomKey professorName createIfNotExists =>
      Robust.JoinProfessor sid
        {| Robust.pj_roomKey := Str roomKey;
           Robust.pj_professorName := Str professorName;
           Robust.pj_createIfNotExists := Bool createIfNotExists |} now gen
  | JoinRoomAsStudent roomKey studentName =>
      Robust.JoinStudent sid
        {| Robust.sj_roomKey := Str roomKey;
           Robust.sj_studentName := Str studentName |} now
  end.

Section Form.
Context {U : UpperCasing}.

(** [joinRoom], lines 1560-1600, up to the point where the credentials are
    stored.  [userRole] is [state.userRole] ([null] at first), the two inputs
    are the values of the form fields, if the page has them. *)
Definition joinRoom (userRole : option string)
    (roomKeyInput userNameInput : option string) (picks : nat → nat)
  : FormError + Credentials :=
  let roomKey :=
    match roomKeyInput with Some value => trim value | None => EmptyString end in
  let userName :=
    match userNameInput with Some value => trim value | None => EmptyString end in
  if is_empty userName then inl EnterYourName
  else if bool_decide (userRole = Some "student") && is_empty roomKey
  then inl EnterRoomKey
  else if negb (is_empty roomKey) && negb (validateRoomKey roomKey)
  then inl BadRoomKey
  else
    let finalRoomKey :=
      if negb (is_empty roomKey) then roomKey else generateRoomKey picks in
    inr {| currentRoom := toUpperCase finalRoomKey; userName := userName |}.

End Form.

End Client.

(** * Properties *)

(** ** Strings *)

Section StringFacts.
Import Js.

Lemma upper_char_idemp c : upper_char (upper_char c) = upper_char c.
Proof. by destruct c as [[] [] [] [] [] [] [] []]. Qed.

Lemma is_space_upper_char c : is_space (upper_char c) = is_space c.
Proof. by destruct c as [[] [] [] [] [] [] [] []]. Qed.

Lemma is_upper_alnum_upper_char c :
  is_upper_alnum (upper_char c) = is_alnum c.
Proof. by destruct c as [[] [] [] [] [] [] [] []]. Qed.

Lemma asciiUpperCase_idemp s :
  asciiUpperCase (asciiUpperCase s) = asciiUpperCase s.
Proof. induction s as [|c s IH]; simpl; [done|]. by rewrite upper_char_idemp, IH. Qed.

Lemma asciiUpperCase_length s :
  String.length (asciiUpperCase s) = String.length s.
Proof. induction s as [|c s IH]; simpl; [done|]. by rewrite IH. Qed.

Lemma is_empty_asciiUpperCase s : is_empty (asciiUpperCase s) = is_empty s.
Proof. by destruct s. Qed.

Lemma is_empty_length s : is_empty s = (String.length s =? 0).
Proof. by destruct s. Qed.

Lemma trimStart_asciiUpperCase s :
  trimStart (asciiUpperCase s) = asciiUpperCase (trimStart s).
Proof.
  induction s as [|c s IH]; simpl; [done|].
  rewrite is_space_upper_char. by destruct (is_space c).
Qed.

Lemma trimEnd_asciiUpperCase s :
  trimEnd (asciiUpperCase s) = asciiUpperCase (trimEnd s).
Proof.
  induction s as [|c s IH]; simpl; [done|].
  rewrite is_space_upper_char, IH, is_empty_asciiUpperCase.
  by destruct (is_space c && is_empty (trimEnd s)).
Qed.

Lemma trim_asciiUpperCase s :
  trim (asciiUpperCase s) = asciiUpperCase (trim s).
Proof.
  unfold trim. by rewrite trimStart_asciiUpperCase, trimEnd_asciiUpperCase.
Qed.

Lemma all_upper_alnum_asciiUpperCase s :
  all_chars is_upper_alnum (asciiUpperCase s) = all_chars is_alnum s.
Proof.
  induction s as [|c s IH]; simpl; [done|].
  by rewrite is_upper_alnum_upper_char, IH.
Qed.

(** Trimming ASCII text leaves ASCII text. *)
Lemma is_ascii_trimStart s : is_ascii s = true → is_ascii (trimStart s) = true.
Proof.
  unfold is_ascii. induction s as [|c s IH]; simpl; [done|].
  intros [Hc Hs]%andb_true_iff. destruct (is_space c); [by apply IH|].
  simpl. by rewrite Hc, Hs.
Qed.

Lemma is_ascii_trimEnd s : is_ascii s = true → is_ascii (trimEnd s) = true.
Proof.
  unfold is_ascii. induction s as [|c s IH]; simpl; [done|].
  intros [Hc Hs]%andb_true_iff.
  destruct (is_space c && is_empty (trimEnd s)); [done|].
  simpl. by rewrite Hc, IH.
Qed.

Lemma is_ascii_trim s : is_ascii s = true → is_ascii (trim s) = true.
Proof. intros H. by apply is_ascii_trimEnd, is_ascii_trimStart. Qed.

(** [asciiUpperCase] has the four properties asked of the built-in. *)
Lemma ascii_case_idempotent : @upper_idempotent ascii_case.
Proof. intros s. apply asciiUpperCase_idemp. Qed.

Lemma ascii_case_on_ascii : @upper_on_ascii ascii_case.
Proof. by intros s _. Qed.

Lemma ascii_case_trim : @upper_trim ascii_case.
Proof. intros s. symmetry. apply trim_asciiUpperCase. Qed.

Lemma ascii_case_empty : @upper_empty ascii_case.
Proof. intros s. apply is_empty_asciiUpperCase. Qed.

End StringFacts.

Section UpperCasingFacts.
Import Js.
Context {U : UpperCasing}.

Lemma toUpperCase_eq_is_empty s t :
  upper_empty → toUpperCase s = toUpperCase t → is_empty s = is_empty t.
Proof. intros He H. by rewrite <-(He s), H, He. Qed.

Lemma toUpperCase_eq_trim s t :
  upper_trim →
  toUpperCase s = toUpperCase t → toUpperCase (trim s) = toUpperCase (trim t).
Proof. intros Ht H. by rewrite !Ht, H. Qed.

(** Two ASCII spellings that differ in the case of their letters only have
    the same upper-casing. *)
Lemma toUpperCase_ascii_fold s t :
  upper_on_ascii →
  is_ascii s = true → is_ascii t = true →
  asciiUpperCase s = asciiUpperCase t → toUpperCase s = toUpperCase t.
Proof. intros Ha Hs Ht H. by rewrite (Ha s Hs), (Ha t Ht). Qed.

End UpperCasingFacts.

(** ** Ordered collections *)

Section OrderedFacts.
Import Ordered.

Lemma elem_of_set_add x y l : x ∈ set_add y l ↔ x = y ∨ x ∈ l.
Proof.
  unfold set_add. case_bool_decide as Hy.
  - split; [by right|]. intros [->|]; done.
  - rewrite elem_of_app, list_elem_of_singleton. tauto.
Qed.

Lemma elem_of_set_delete x y l : x ∈ set_delete y l ↔ x ≠ y ∧ x ∈ l.
Proof. unfold set_delete. by rewrite list_elem_of_filter. Qed.

Lemma set_nonempty_length (x : string) l : x ∈ l → length l ≠ 0.
Proof. destruct l; [by intros ?%elem_of_nil | done]. Qed.

Context {V : Type}.
Implicit Types m : list (string * V).

Lemma map_get_set_eq k v m : map_get k (map_set k v m) = Some v.
Proof.
  induction m as [|[k' v'] m IH]; simpl.
  - by rewrite bool_decide_eq_true_2.
  - case_bool_decide as Hk; simpl.
    + by rewrite bool_decide_eq_true_2.
    + by rewrite bool_decide_eq_false_2.
Qed.

Lemma map_get_set_ne k k' v m :
  k ≠ k' → map_get k' (map_set k v m) = map_get k' m.
Proof.
  intros Hne. induction m as [|[k0 v0] m IH]; simpl.
  - by rewrite bool_decide_eq_false_2.
  - case_bool_decide as Hk; simpl.
    + subst k0. by rewrite !bool_decide_eq_false_2.
    + by rewrite IH.
Qed.

Lemma map_get_delete_eq k m : map_get k (map_delete k m) = None.
Proof.
  unfold map_delete. induction m as [|[k' v'] m IH]; simpl; [done|].
  rewrite filter_cons. simpl. case_decide as Hk; simpl; [|done].
  by rewrite bool_decide_eq_false_2.
Qed.

Lemma map_get_delete_ne k k' m :
  k ≠ k' → map_get k' (map_delete k m) = map_get k' m.
Proof.
  intros Hne. unfold map_delete.
  induction m as [|[k0 v0] m IH]; simpl; [done|].
  rewrite filter_cons. simpl. case_decide as Hk; simpl.
  - by rewrite IH.
  - subst k0. by rewrite bool_decide_eq_false_2.
Qed.

Lemma map_has_nonempty k m : map_has k m → length m ≠ 0.
Proof. intros [v Hv]. by destruct m. Qed.

Lemma map_has_set k k' v m : map_has k' (map_set k v m) ↔ k' = k ∨ map_has k' m.
Proof.
  unfold map_has. destruct (decide (k = k')) as [->|Hne].
  - rewrite map_get_set_eq. split; [by left | by eexists].
  - rewrite map_get_set_ne by done. split; [by right|]. by intros [->|].
Qed.

Lemma map_has_delete k k' m :
  map_has k' (map_delete k m) ↔ k' ≠ k ∧ map_has k' m.
Proof.
  unfold map_has. destruct (decide (k = k')) as [->|Hne].
  - rewrite map_get_delete_eq. split; [by intros [? ?] | by intros [? ?]].
  - rewrite map_get_delete_ne by done. split; [by split|by intros [? ?]].
Qed.

(** [map.set] on a new key adds one entry; on a present key it adds none. *)
Lemma map_set_length k v m :
  length (map_set k v m)
  = match map_get k m with Some _ => length m | None => S (length m) end.
Proof.
  induction m as [|[k' v'] m IH]; simpl; [done|].
  case_bool_decide; simpl; [done|]. rewrite IH. by destruct (map_get k m).
Qed.

End OrderedFacts.

(** ** Transport *)

Section TransportFacts.
Import Transport.
Implicit Types ch : gmap string (gset string).

Lemma elem_of_join_channel x sid room room' ch :
  x ∈ join_channel sid room ch !!! room'
  ↔ (x = sid ∧ room' = room) ∨ x ∈ ch !!! room'.
Proof.
  unfold join_channel. destruct (decide (room = room')) as [->|Hne].
  - rewrite lookup_total_insert_eq. set_solver.
  - rewrite lookup_total_insert_ne by done. naive_solver.
Qed.

Lemma elem_of_leave_all x sid room ch :
  x ∈ leave_all sid ch !!! room ↔ x ≠ sid ∧ x ∈ ch !!! room.
Proof.
  unfold leave_all. rewrite !lookup_total_alt, lookup_fmap.
  destruct (ch !! room); simpl; set_solver.
Qed.

End TransportFacts.

(** ** The single-professor server keeps its state well formed *)

Section SimpleConsistency.
Import Js Ordered Transport Simple SimpleInv.
Context {U : UpperCasing}.

Lemma simple_consistent_init : consistent init.
Proof. intros sid s Hs. cbn in Hs. by rewrite lookup_empty in Hs. Qed.

(** A join: the room under [k] is replaced, the joiner's Session is set, the
    joiner subscribes to [k]. *)
Lemma simple_consistent_join st sid k room sess :
  consistent st →
  roomKey sess = k →
  member_of (role sess) sid room →
  (∀ sid' s' room0, sid' ≠ sid → userSessions st !! sid' = Some s' →
     roomKey s' = k → rooms st !! k = Some room0 →
     member_of (role s') sid' room0 → member_of (role s') sid' room) →
  consistent {| rooms := <[k := room]> (rooms st);
                userSessions := <[sid := sess]> (userSessions st);
                channels := join_channel sid k (channels st) |}.
Proof.
  intros Hst Hk Hmem Hkeep sid' s' Hs'. unfold session_ok. simpl in *.
  destruct (decide (sid = sid')) as [<-|Hne].
  - rewrite lookup_insert_eq in Hs'. injection Hs' as <-. split.
    + apply elem_of_join_channel. by left.
    + exists room. by rewrite Hk, lookup_insert_eq.
  - rewrite lookup_insert_ne in Hs' by done.
    destruct (Hst _ _ Hs') as [Hch (room0 & Hroom0 & Hm0)]. split.
    + apply elem_of_join_channel. by right.
    + destruct (decide (k = roomKey s')) as [Hkk|Hkk].
      * exists room. rewrite <-Hkk, lookup_insert_eq. split; [done|].
        rewrite <-Hkk in Hroom0. by eapply Hkeep.
      * exists room0. by rewrite lookup_insert_ne.
Qed.

(** Draw and clear: only the history of one room changes. *)
Lemma simple_consistent_set_history st k room h :
  consistent st →
  rooms st !! k = Some room →
  consistent {| rooms := <[k := set_history h room]> (rooms st);
                userSessions := userSessions st;
                channels := channels st |}.
Proof.
  intros Hst Hroom sid s Hs. destruct (Hst _ _ Hs) as [Hch (room0 & Hroom0 & Hm0)].
  split; [done|]. simpl in *.
  destruct (decide (k = roomKey s)) as [Hkk|Hkk].
  - exists (set_history h room). rewrite <-Hkk, lookup_insert_eq. split; [done|].
    rewrite <-Hkk, Hroom in Hroom0. injection Hroom0 as <-.
    by destruct (role s).
  - exists room0. by rewrite lookup_insert_ne.
Qed.

Lemma simple_consistent_join_professor st sid data now :
  consistent st → consistent (on_join_professor st sid data now).1.
Proof.
  intros Hst. unfold on_join_professor.
  destruct (negb (truthy (pj_professorName data))
            || negb (truthy (pj_roomKey data))); [done|].
  destruct (pj_professorName data) as [| | | |rawName| |]; try done.
  destruct (pj_roomKey data) as [| | | |rawKey| |]; try done.
  set (k := toUpperCase (trim rawKey)).
  destruct (_ || _); [done|]. destruct (_ || _); [done|].
  destruct (rooms st !! k) as [room0|] eqn:Hroom0.
  - destruct (professor room0) as [other|] eqn:Hprof.
    + case_bool_decide as Hother; [done|]. subst other.
      simpl. apply simple_consistent_join; [done..|].
      intros sid' s' r0 Hne Hs' Hk' Hr0 Hm. rewrite Hroom0 in Hr0.
      injection Hr0 as <-. destruct (role s'); simpl in *; [congruence|done].
    + simpl. apply simple_consistent_join; [done..|].
      intros sid' s' r0 Hne Hs' Hk' Hr0 Hm. rewrite Hroom0 in Hr0.
      injection Hr0 as <-. destruct (role s'); simpl in *; [congruence|done].
  - destruct (truthy (pj_createIfNotExists data)); [|done].
    simpl. apply simple_consistent_join; [done..|].
    intros sid' s' r0 Hne Hs' Hk' Hr0 Hm. congruence.
Qed.

Lemma simple_consistent_join_student st sid data now :
  consistent st → consistent (on_join_student st sid data now).1.
Proof.
  intros Hst. unfold on_join_student.
  destruct (negb (truthy (sj_studentName data))
            || negb (truthy (sj_roomKey data))); [done|].
  destruct (sj_studentName data) as [| | | |rawName| |]; try done.
  destruct (sj_roomKey data) as [| | | |rawKey| |]; try done.
  set (k := toUpperCase (trim rawKey)).
  destruct (_ || _); [done|].
  destruct (rooms st !! k) as [room0|] eqn:Hroom0; [|done].
  destruct (100 <=? userCount room0); [done|].
  simpl. apply simple_consistent_join; [done|done| |].
  - simpl. apply elem_of_set_add. by left.
  - intros sid' s' r0 Hne Hs' Hk' Hr0 Hm. rewrite Hroom0 in Hr0.
    injection Hr0 as <-. destruct (role s'); simpl in *; [done|].
    apply elem_of_set_add. by right.
Qed.

Lemma simple_consistent_draw st sid data now :
  consistent st → consistent (on_draw_command st sid data now).1.
Proof.
  intros Hst. unfold on_draw_command.
  destruct (userSessions st !! sid) as [s|]; [|done].
  destruct (role s); [|done].
  destruct (rooms st !! roomKey s) as [room|] eqn:Hroom; [|done].
  destruct (negb (valid_path (dd_path data))); [done|].
  by apply simple_consistent_set_history.
Qed.

Lemma simple_consistent_clear st sid now :
  consistent st → consistent (on_clear_canvas st sid now).1.
Proof.
  intros Hst. unfold on_clear_canvas.
  destruct (userSessions st !! sid) as [s|]; [|done].
  destruct (role s); [|done].
  destruct (rooms st !! roomKey s) as [room|] eqn:Hroom; [|done].
  by apply simple_consistent_set_history.
Qed.

End SimpleConsistency.

Section SimpleConsistencyDisconnect.
Import Js Ordered Transport Simple SimpleInv.
Context {U : UpperCasing}.

(** Sessions of other connections survive a disconnect of [sid] as long as
    their room does. *)
Lemma simple_consistent_leave st sid rooms' :
  consistent st →
  (∀ sid' s' room0, sid' ≠ sid → userSessions st !! sid' = Some s' →
     rooms st !! roomKey s' = Some room0 → member_of (role s') sid' room0 →
     ∃ room, rooms' !! roomKey s' = Some room ∧ member_of (role s') sid' room) →
  consistent {| rooms := rooms';
                userSessions := delete sid (userSessions st);
                channels := leave_all sid (channels st) |}.
Proof.
  intros Hst Hkeep sid' s' Hs'. simpl in Hs'.
  apply lookup_delete_Some in Hs' as [Hne Hs'].
  destruct (Hst _ _ Hs') as [Hch (room0 & Hroom0 & Hm0)]. split; simpl.
  - apply elem_of_leave_all. by split.
  - by eapply Hkeep.
Qed.

Lemma simple_consistent_disconnect st sid now :
  consistent st → consistent (on_disconnect st sid now).1.
Proof.
  intros Hst. unfold on_disconnect.
  destruct (userSessions st !! sid) as [s|] eqn:Hs.
  - destruct (Hst _ _ Hs) as [_ (room0 & Hroom0 & Hm0)]. rewrite Hroom0.
    match goal with |- context [if ?b then _ else _] => destruct b eqn:Hemptied end;
      simpl; apply simple_consistent_leave; try done;
      intros sid' s' r0 Hne Hs' Hr0 Hm;
      (destruct (decide (roomKey s = roomKey s')) as [Hk|Hk];
       [ rewrite <-Hk in *; rewrite Hroom0 in Hr0; injection Hr0 as <-
       | ]).
    + exfalso. destruct (role s); simpl in *.
      * apply bool_decide_eq_true_1 in Hemptied.
        destruct (role s'); simpl in *; [congruence|].
        by apply set_nonempty_length in Hm.
      * apply andb_true_iff in Hemptied as [Hp Hl].
        apply bool_decide_eq_true_1 in Hl. apply negb_true_iff in Hp.
        apply bool_decide_eq_false_1 in Hp.
        destruct (role s'); simpl in *.
        -- apply Hp. by rewrite Hm.
        -- eapply (set_nonempty_length sid'); [|done].
           apply elem_of_set_delete. by split.
    + exists r0. by rewrite lookup_delete_ne.
    + eexists. rewrite lookup_insert_eq. split; [done|].
      destruct (role s), (role s'); simpl in *; try done; try congruence.
      apply elem_of_set_delete. by split.
    + exists r0. by rewrite lookup_insert_ne.
  - intros sid' s' Hs'. simpl in Hs'.
    destruct (Hst _ _ Hs') as [Hch Hroom]. split; simpl; [|done].
    apply elem_of_leave_all. split; [|done]. intros ->. congruence.
Qed.

Lemma simple_consistent_handle st i :
  consistent st → consistent (handle st i).1.
Proof.
  destruct i; simpl;
    auto using simple_consistent_join_professor, simple_consistent_join_student,
      simple_consistent_draw, simple_consistent_clear,
      simple_consistent_disconnect.
Qed.

Lemma simple_consistent_run_from st trace :
  consistent st → consistent (run_from st trace).
Proof.
  revert st. induction trace as [|i trace IH]; intros st Hst; [done|].
  apply IH. by apply simple_consistent_handle.
Qed.

(** Every state the server can reach is well formed. *)
Lemma simple_consistent_run trace : consistent (run trace).
Proof. apply simple_consistent_run_from, simple_consistent_init. Qed.

End SimpleConsistencyDisconnect.

(** ** The multi-professor server keeps its state well formed *)

Section RobustConsistency.
Import Js Ordered Transport Robust RobustInv.
Context {U : UpperCasing}.
Hypothesis Hidem : upper_idempotent.

Lemma robust_consistent_init : consistent init.
Proof. intros sid s Hs. cbn in Hs. by rewrite lookup_empty in Hs. Qed.

(** The registry changes, Sessions and subscriptions stay. *)
Lemma robust_consistent_rooms st rooms' tm :
  consistent st →
  (∀ sid s room0, userSessions st !! sid = Some s →
     rooms st !! roomKey s = Some room0 → member_of (role s) sid room0 →
     ∃ room, rooms' !! roomKey s = Some room ∧ member_of (role s) sid room) →
  consistent {| rooms := rooms'; userSessions := userSessions st;
                channels := channels st; timers := tm |}.
Proof.
  intros Hst Hkeep sid s Hs.
  destruct (Hst _ _ Hs) as [Hch (room0 & Hroom0 & Hm0)].
  split; [done|]. by eapply Hkeep.
Qed.

Lemma robust_consistent_join st sid k room sess rooms' tm :
  consistent st →
  roomKey sess = k →
  rooms' !! k = Some room →
  (∀ k', k' ≠ k → rooms' !! k' = rooms st !! k') →
  member_of (role sess) sid room →
  (∀ sid' s' room0, sid' ≠ sid → userSessions st !! sid' = Some s' →
     roomKey s' = k → rooms st !! k = Some room0 →
     member_of (role s') sid' room0 → member_of (role s') sid' room) →
  consistent {| rooms := rooms';
                userSessions := <[sid := sess]> (userSessions st);
                channels := join_channel sid k (channels st);
                timers := tm |}.
Proof.
  intros Hst Hk Hroom Hframe Hmem Hkeep sid' s' Hs'. unfold session_ok.
  simpl in *. destruct (decide (sid = sid')) as [<-|Hne].
  - rewrite lookup_insert_eq in Hs'. injection Hs' as <-. split.
    + apply elem_of_join_channel. by left.
    + exists room. by rewrite Hk.
  - rewrite lookup_insert_ne in Hs' by done.
    destruct (Hst _ _ Hs') as [Hch (room0 & Hroom0 & Hm0)]. split.
    + apply elem_of_join_channel. by right.
    + destruct (decide (k = roomKey s')) as [Hkk|Hkk].
      * exists room. rewrite <-Hkk. split; [done|].
        rewrite <-Hkk in Hroom0. by eapply Hkeep.
      * exists room0. by rewrite Hframe.
Qed.

Lemma createRoom_lookup rms key info now k :
  toUpperCase key = key →
  createRoom rms key info now !! k
  = if decide (key = k)
    then Some {| professors := []; students := []; commands := [];
                 metadata := {| createdAt := now; lastActivity := now;
                                createdBy := info; metaRoomKey := key |} |}
    else rms !! k.
Proof. intros Hkey. unfold createRoom. rewrite Hkey. apply lookup_insert. Qed.

Lemma robust_consistent_join_professor st sid data now gen :
  consistent st → consistent (on_join_professor st sid data now gen).1.
Proof.
  intros Hst. unfold on_join_professor.
  destruct (name_refused (pj_professorName data)) as [[]|]; try done.
  destruct (negb (validateRoomKey _)); [done|].
  set (professorName := str_of (pj_professorName data)).
  set (k := toUpperCase (str_of _)).
  assert (Hk : toUpperCase k = k) by apply Hidem.
  destruct (rooms st !! k) as [room0|] eqn:Hroom0.
  - rewrite Hroom0. destruct (3 <=? length (professors room0)).
    { simpl. apply robust_consistent_rooms; [done|]. eauto. }
    simpl. eapply robust_consistent_join;
      [done | done | apply lookup_insert_eq | | | ].
    + intros k' Hk'. by rewrite lookup_insert_ne.
    + simpl. apply map_has_set. by left.
    + intros sid' s' r0 Hne Hs' Hk' Hr0 Hm. rewrite Hroom0 in Hr0.
      injection Hr0 as <-. destruct (role s'); simpl in *; [|done].
      apply map_has_set. by right.
  - destruct (create_flag (pj_createIfNotExists data)); [|done].
    rewrite createRoom_lookup by done. rewrite decide_True by done. simpl.
    eapply robust_consistent_join;
      [done | done | apply lookup_insert_eq | | | ].
    + intros k' Hk'. rewrite lookup_insert_ne by done.
      rewrite createRoom_lookup by done. by rewrite decide_False.
    + cbn. apply (map_has_set sid sid _ []). by left.
    + intros sid' s' r0 Hne Hs' Hk' Hr0 Hm. congruence.
Qed.

Lemma robust_consistent_join_student st sid data now :
  consistent st → consistent (on_join_student st sid data now).1.
Proof.
  intros Hst. unfold on_join_student.
  destruct (name_refused (sj_studentName data)) as [[]|]; try done.
  destruct (negb (validateRoomKey _)); [done|].
  set (k := toUpperCase (str_of _)).
  destruct (rooms st !! k) as [room0|] eqn:Hroom0; [|done].
  destruct (length (professors room0) =? 0); [done|].
  destruct (100 <=? length (students room0)); [done|].
  simpl. eapply robust_consistent_join;
    [done | done | apply lookup_insert_eq | | | ].
  - intros k' Hk'. by rewrite lookup_insert_ne.
  - simpl. apply map_has_set. by left.
  - intros sid' s' r0 Hne Hs' Hk' Hr0 Hm. rewrite Hroom0 in Hr0.
    injection Hr0 as <-. destruct (role s'); simpl in *; [done|].
    apply map_has_set. by right.
Qed.

(** Replacing a room by one with the same members. *)
Lemma robust_consistent_same_members st k room room' tm :
  consistent st →
  rooms st !! k = Some room →
  professors room' = professors room →
  students room' = students room →
  consistent {| rooms := <[k := room']> (rooms st);
                userSessions := userSessions st;
                channels := channels st; timers := tm |}.
Proof.
  intros Hst Hroom Hp Hs. apply robust_consistent_rooms; [done|].
  intros sid s r0 Hsess Hr0 Hm. destruct (decide (k = roomKey s)) as [Hk|Hk].
  - exists room'. rewrite <-Hk, lookup_insert_eq. split; [done|].
    rewrite <-Hk, Hroom in Hr0. injection Hr0 as <-.
    unfold member_of in *. by rewrite Hp, Hs.
  - exists r0. by rewrite lookup_insert_ne.
Qed.

Lemma robust_consistent_draw st sid command now :
  consistent st → consistent (on_draw_command st sid command now).1.
Proof.
  intros Hst. unfold on_draw_command.
  destruct (userSessions st !! sid) as [s|]; [|done].
  destruct (role s); [|done].
  destruct (negb (valid_command command)); [done|].
  destruct (rooms st !! roomKey s) as [room|] eqn:Hroom; [|done].
  by eapply robust_consistent_same_members.
Qed.

Lemma robust_consistent_clear st sid now :
  consistent st → consistent (on_clear_canvas st sid now).1.
Proof.
  intros Hst. unfold on_clear_canvas.
  destruct (userSessions st !! sid) as [s|]; [|done].
  destruct (role s); [|done].
  destruct (rooms st !! roomKey s) as [room|] eqn:Hroom; [|done].
  by eapply robust_consistent_same_members.
Qed.

End RobustConsistency.

Section RobustConsistencyTeardown.
Import Js Ordered Transport Robust RobustInv.
Context {U : UpperCasing}.
Hypothesis Hidem : upper_idempotent.

Lemma robust_member_nonempty r sid room :
  member_of r sid room →
  length (professors room) + length (students room) ≠ 0.
Proof.
  destruct r; simpl; intros H%map_has_nonempty; lia.
Qed.

Lemma robust_consistent_leave st sid rooms' tm :
  consistent st →
  (∀ sid' s' room0, sid' ≠ sid → userSessions st !! sid' = Some s' →
     rooms st !! roomKey s' = Some room0 → member_of (role s') sid' room0 →
     ∃ room, rooms' !! roomKey s' = Some room ∧ member_of (role s') sid' room) →
  consistent {| rooms := rooms';
                userSessions := delete sid (userSessions st);
                channels := leave_all sid (channels st); timers := tm |}.
Proof.
  intros Hst Hkeep sid' s' Hs'. simpl in Hs'.
  apply lookup_delete_Some in Hs' as [Hne Hs'].
  destruct (Hst _ _ Hs') as [Hch (room0 & Hroom0 & Hm0)]. split; simpl.
  - apply elem_of_leave_all. by split.
  - by eapply Hkeep.
Qed.

Lemma robust_consistent_disconnect st sid now :
  consistent st → consistent (on_disconnect st sid now).1.
Proof.
  intros Hst. unfold on_disconnect.
  destruct (userSessions st !! sid) as [s|] eqn:Hs.
  - destruct (Hst _ _ Hs) as [_ (room0 & Hroom0 & Hm0)]. rewrite Hroom0.
    match goal with |- context [if ?b then _ else _] => destruct b end;
      simpl; apply robust_consistent_leave; try done;
      intros sid' s' r0 Hne Hs' Hr0 Hm;
      (destruct (decide (roomKey s = roomKey s')) as [Hk|Hk];
       [ rewrite <-Hk in *; rewrite Hroom0 in Hr0; injection Hr0 as <-;
         eexists; rewrite lookup_insert_eq; (split; [done|]);
         destruct (role s), (role s'); simpl in *; try done;
         apply map_has_delete; by split
       | exists r0; by rewrite lookup_insert_ne ]).
  - intros sid' s' Hs'. simpl in Hs'.
    destruct (Hst _ _ Hs') as [Hch Hroom]. split; simpl; [|done].
    apply elem_of_leave_all. split; [|done]. intros ->. congruence.
Qed.

(** The deletion check spares every room that a Session still names. *)
Lemma deletion_check_lookup rms k k' room r sid :
  rms !! k' = Some room → member_of r sid room →
  deletion_check rms k !! k' = Some room.
Proof.
  intros Hroom Hm. unfold deletion_check.
  destruct (rms !! k) as [roomCheck|] eqn:Hcheck; [|done].
  destruct (_ && _) eqn:Hempty; [|done].
  destruct (decide (k = k')) as [<-|Hne]; [|by rewrite lookup_delete_ne].
  rewrite Hroom in Hcheck. injection Hcheck as <-.
  apply robust_member_nonempty in Hm.
  apply andb_true_iff in Hempty as [?%Nat.eqb_eq ?%Nat.eqb_eq]. lia.
Qed.

Lemma robust_consistent_timer st k :
  consistent st → consistent (on_timer st k).
Proof.
  intros Hst. unfold on_timer. case_bool_decide; [|done].
  apply robust_consistent_rooms; [done|].
  intros sid s room0 Hs Hroom0 Hm. exists room0. split; [|done].
  by eapply deletion_check_lookup.
Qed.

Lemma robust_consistent_sweep st now :
  consistent st → consistent (on_sweep st now).
Proof.
  intros Hst. unfold on_sweep. apply robust_consistent_rooms; [done|].
  intros sid s room0 Hs Hroom0 Hm. exists room0. split; [|done].
  apply map_lookup_filter_Some. split; [done|]. simpl.
  apply robust_member_nonempty in Hm. tauto.
Qed.

Lemma robust_consistent_handle st i :
  consistent st → consistent (handle st i).1.
Proof.
  destruct i; simpl;
    auto using robust_consistent_join_professor, robust_consistent_join_student,
      robust_consistent_draw, robust_consistent_clear,
      robust_consistent_disconnect, robust_consistent_timer,
      robust_consistent_sweep.
Qed.

Lemma robust_consistent_run_from st trace :
  consistent st → consistent (run_from st trace).
Proof.
  revert st. induction trace as [|i trace IH]; intros st Hst; [done|].
  apply IH. by apply robust_consistent_handle.
Qed.

Lemma robust_consistent_run trace : consistent (run trace).
Proof. apply robust_consistent_run_from, robust_consistent_init. Qed.

End RobustConsistencyTeardown.

(** ** Runs on ASCII room keys

    The examples below are evaluated with [ascii_case].  Their room keys are
    ASCII text, and on such inputs the servers do the same with every
    upper-casing that is [asciiUpperCase] on ASCII text. *)

Section AsciiRuns.
Import Js Ordered Transport.
Context {U : UpperCasing}.
Hypothesis Hascii : upper_on_ascii.

Lemma upper_char_ascii c :
  (N_of_ascii c <? 128)%N = true → (N_of_ascii (upper_char c) <? 128)%N = true.
Proof. by destruct c as [[] [] [] [] [] [] [] []]. Qed.

Lemma is_ascii_asciiUpperCase s :
  is_ascii s = true → is_ascii (asciiUpperCase s) = true.
Proof.
  unfold is_ascii. induction s as [|c s IH]; simpl; [done|].
  intros [Hc Hs]%andb_true_iff. by rewrite upper_char_ascii, IH.
Qed.

Lemma simple_handle_ascii st i :
  SimpleInv.ascii_input i = true →
  Simple.handle st i = @Simple.handle ascii_case st i.
Proof.
  destruct i as [sid data now|sid data now|sid data now|sid now|sid now];
    simpl; try done; intros Hkey.
  - unfold Simple.on_join_professor.
    destruct (Simple.pj_roomKey data) as [| | | |rawKey| |];
      destruct (Simple.pj_professorName data); try reflexivity.
    simpl in Hkey. by rewrite (Hascii (trim rawKey)) by by apply is_ascii_trim.
  - unfold Simple.on_join_student.
    destruct (Simple.sj_roomKey data) as [| | | |rawKey| |];
      destruct (Simple.sj_studentName data); try reflexivity.
    simpl in Hkey. by rewrite (Hascii (trim rawKey)) by by apply is_ascii_trim.
Qed.

Lemma simple_run_ascii trace :
  forallb SimpleInv.ascii_input trace = true →
  Simple.run trace = @Simple.run ascii_case trace.
Proof.
  unfold Simple.run. generalize Simple.init.
  induction trace as [|i trace IH]; intros st; simpl; [done|].
  intros [Hi Htrace]%andb_true_iff.
  unfold Simple.run_from in *. simpl.
  by rewrite (simple_handle_ascii st i Hi), IH.
Qed.

Lemma validateRoomKey_ascii_case v :
  ascii_val v = true →
  Robust.validateRoomKey v = @Robust.validateRoomKey ascii_case v.
Proof.
  destruct v as [| | | |s| |]; try done. simpl. intros Hs.
  by rewrite (Hascii (trim s)) by by apply is_ascii_trim.
Qed.

Lemma robust_handle_ascii st i :
  RobustInv.ascii_input i = true →
  Robust.handle st i = @Robust.handle ascii_case st i.
Proof.
  destruct i as [sid data now gen|sid data now|sid command now|sid now|sid now
                |key|now]; simpl; try done.
  - intros [Hkey Hgen]%andb_true_iff.
    unfold Robust.on_join_professor, Robust.createRoom.
    destruct (Robust.name_refused _) as [[]|]; try done.
    match goal with |- context [Robust.validateRoomKey ?v] =>
      set (roomKey := v)
    end.
    assert (Hrk : ascii_val roomKey = true).
    { subst roomKey. by destruct (_ && _). }
    rewrite (validateRoomKey_ascii_case _ Hrk).
    assert (Hstr : is_ascii (str_of roomKey) = true).
    { by destruct roomKey. }
    rewrite (Hascii (str_of roomKey) Hstr).
    by rewrite (Hascii (asciiUpperCase (str_of roomKey)))
      by by apply is_ascii_asciiUpperCase.
  - intros Hkey. unfold Robust.on_join_student.
    destruct (Robust.name_refused _) as [[]|]; try done.
    rewrite (validateRoomKey_ascii_case _ Hkey).
    assert (Hstr : is_ascii (str_of (Robust.sj_roomKey data)) = true).
    { by destruct (Robust.sj_roomKey data). }
    by rewrite (Hascii _ Hstr).
Qed.

Lemma robust_run_ascii trace :
  forallb RobustInv.ascii_input trace = true →
  Robust.run trace = @Robust.run ascii_case trace.
Proof.
  unfold Robust.run. generalize Robust.init.
  induction trace as [|i trace IH]; intros st; simpl; [done|].
  intros [Hi Htrace]%andb_true_iff.
  unfold Robust.run_from in *. simpl.
  by rewrite (robust_handle_ascii st i Hi), IH.
Qed.

(** Every example session below has ASCII room keys. *)
Lemma examples_ascii :
  forallb SimpleInv.ascii_input
    (Examples.simple_thousand ++ Examples.simple_orphaned
     ++ Examples.simple_lesson
     ++ [Simple.Disconnect "p1" 30; Simple.JoinProfessor "p2" Examples.ann 31;
         Simple.JoinProfessor "p1" Examples.dashed 10;
         Simple.JoinStudent "s1" Examples.dashed_student 20;
         Simple.JoinStudent "s2" Examples.cy 40;
         Simple.JoinProfessor "p1" Examples.phys 30]) = true
  ∧ forallb RobustInv.ascii_input
      (Examples.robust_thousand ++ Examples.robust_lesson
       ++ Examples.robust_meanwhile ++ Examples.robust_two_checks
       ++ [Robust.JoinProfessor "p2" Examples.r_ann 40 "K3Y9XZ";
           Robust.JoinProfessor "p1" Examples.r_phys 30 "K3Y9XZ"]) = true.
Proof. split; by vm_compute. Qed.

End AsciiRuns.

(** ** Authorization of draw commands *)

(** C1.  A [draw-command] from a connection whose Session has role student
    is refused on both servers: the handler returns the state it was given,
    so no room history changes, and its only message is [permission-denied],
    sent to the sender alone; nothing goes to the room. *)
Theorem C1_student_draw_denied :
  (∀ (st : Simple.State) sid s data now,
     Simple.userSessions st !! sid = Some s →
     Simple.role s = Student →
     Simple.on_draw_command st sid data now
     = (st, [Transport.ToSocket sid
               (Simple.PermissionDenied Simple.INSUFFICIENT_PERMISSIONS)]))
  ∧ (∀ (st : Robust.State) sid s command now,
       Robust.userSessions st !! sid = Some s →
       Robust.role s = Student →
       Robust.on_draw_command st sid command now
       = (st, [Transport.ToSocket sid
                 (Robust.PermissionDenied Robust.OnlyProfessorsCanDraw)])).
Proof.
  split.
  - intros st sid s data now Hs Hrole. unfold Simple.on_draw_command.
    by rewrite Hs, Hrole.
  - intros st sid s command now Hs Hrole. unfold Robust.on_draw_command.
    by rewrite Hs, Hrole.
Qed.

Section DrawDeniedExample.
#[local] Existing Instance Js.ascii_case.

(** Bob, a student, tries to draw in Ann's class. *)
Lemma C1_student_draw_denied_witness :
  Simple.on_draw_command (Simple.run Examples.simple_class) "s1"
    Examples.stroke 30
  = (Simple.run Examples.simple_class,
     [Transport.ToSocket "s1"
        (Simple.PermissionDenied Simple.INSUFFICIENT_PERMISSIONS)])
  ∧ Robust.on_draw_command (Robust.run Examples.robust_class) "s1"
      Examples.r_stroke 30
    = (Robust.run Examples.robust_class,
       [Transport.ToSocket "s1"
          (Robust.PermissionDenied Robust.OnlyProfessorsCanDraw)]).
Proof.
  split.
  - apply (proj1 C1_student_draw_denied _ _
             {| Simple.role := Student; Simple.name := "Bob";
                Simple.roomKey := "MATH101"; Simple.sessionUserId := "s1";
                Simple.joinedAt := 20 |}); reflexivity.
  - apply (proj2 C1_student_draw_denied _ _
             {| Robust.role := Student; Robust.name := "Bob";
                Robust.roomKey := "MATH101"; Robust.userId := "s1" |});
      reflexivity.
Defined.

End DrawDeniedExample.

(** ** Drawing and clearing by a professor *)

Section BoundedHistory.
Import Js Transport.

Lemma slice_last_length {A} n (l : list A) :
  length (slice_last n l) = Nat.min n (length l).
Proof. unfold slice_last. rewrite length_drop. lia. Qed.

(** Below capacity a push is a plain append. *)
Lemma simple_push_history_below cmd h :
  length h < 1000 → Simple.push_history cmd h = h ++ [cmd].
Proof.
  intros Hlen. unfold Simple.push_history.
  rewrite length_app. simpl.
  destruct (1000 <? length h + 1) eqn:Hlt; [|done].
  apply Nat.ltb_lt in Hlt. lia.
Qed.

Lemma robust_push_command_below cmd cmds :
  length cmds < 1000 → Robust.push_command cmd cmds = cmds ++ [cmd].
Proof.
  intros Hlen. unfold Robust.push_command.
  rewrite length_app. simpl.
  destruct (1000 <? length cmds + 1) eqn:Hlt; [|done].
  apply Nat.ltb_lt in Hlt. lia.
Qed.

(** The new entry is always the last one of the stored history. *)
Lemma simple_push_history_last cmd h :
  last (Simple.push_history cmd h) = Some cmd.
Proof.
  unfold Simple.push_history, slice_last. rewrite length_app. simpl.
  destruct (1000 <? length h + 1) eqn:Hlt; [|apply last_snoc].
  apply Nat.ltb_lt in Hlt.
  rewrite drop_app_le by lia. apply last_snoc.
Qed.

Lemma robust_push_command_last cmd cmds :
  last (Robust.push_command cmd cmds) = Some cmd.
Proof.
  unfold Robust.push_command, slice_last. rewrite length_app. simpl.
  destruct (1000 <? length cmds + 1) eqn:Hlt; [|apply last_snoc].
  apply Nat.ltb_lt in Hlt.
  rewrite drop_app_le by lia. apply last_snoc.
Qed.

Lemma simple_push_history_full cmd h :
  length h = 1000 →
  Simple.push_history cmd h = drop 501 (h ++ [cmd])
  ∧ length (Simple.push_history cmd h) = 500.
Proof.
  intros Hlen. unfold Simple.push_history, slice_last.
  rewrite length_app, Hlen. simpl. split; [done|].
  rewrite length_drop, length_app, Hlen. done.
Qed.

Lemma robust_push_command_full cmd cmds :
  length cmds = 1000 →
  Robust.push_command cmd cmds = drop 1 (cmds ++ [cmd])
  ∧ length (Robust.push_command cmd cmds) = 1000.
Proof.
  intros Hlen. unfold Robust.push_command, slice_last.
  rewrite length_app, Hlen. simpl. split; [done|].
  rewrite length_drop, length_app, Hlen. done.
Qed.

Lemma field_lookup_set_eq fields k v :
  field_lookup (field_set fields k v) k = v.
Proof.
  induction fields as [|[k' v'] fields IH]; simpl.
  - by rewrite bool_decide_eq_true_2.
  - case_bool_decide as Hk; simpl.
    + by rewrite bool_decide_eq_true_2.
    + by rewrite bool_decide_eq_false_2.
Qed.

Lemma field_lookup_set_ne fields k k' v :
  k ≠ k' → field_lookup (field_set fields k v) k' = field_lookup fields k'.
Proof.
  intros Hne. induction fields as [|[k0 v0] fields IH]; simpl.
  - by rewrite bool_decide_eq_false_2.
  - case_bool_decide as Hk; simpl.
    + subst k0. by rewrite !bool_decide_eq_false_2.
    + by rewrite IH.
Qed.

(** What [enrich] adds to a command, and what it keeps. *)
Lemma enrich_fields command sid name now k :
  let enriched := Robust.enrich command sid name now k in
  get_field enriched "professorId" = Str (short_id sid)
  ∧ get_field enriched "professorName" = Str name
  ∧ get_field enriched "timestamp" = Num now
  ∧ get_field enriched "roomKey" = Str k
  ∧ (∀ f, f ∉ ["professorId"; "professorName"; "timestamp"; "roomKey"] →
          get_field enriched f = get_field command f).
Proof.
  unfold Robust.enrich. cbn [get_field].
  repeat split.
  - by rewrite !field_lookup_set_ne, field_lookup_set_eq by done.
  - by rewrite !field_lookup_set_ne, field_lookup_set_eq by done.
  - by rewrite !field_lookup_set_ne, field_lookup_set_eq by done.
  - by rewrite field_lookup_set_eq.
  - intros f Hf. rewrite !not_elem_of_cons in Hf.
    destruct Hf as (H1 & H2 & H3 & H4 & _).
    rewrite !field_lookup_set_ne by done. by destruct command.
Qed.

(** One accepted stroke. *)
Lemma simple_draw_step st sid s data now room :
  Simple.userSessions st !! sid = Some s →
  Simple.role s = Professor →
  Simple.valid_path (Simple.dd_path data) = true →
  Simple.rooms st !! Simple.roomKey s = Some room →
  let cmd := {| Simple.path := Simple.dd_path data;
                Simple.color := or_else (Simple.dd_color data) (Str "#2563eb");
                Simple.width := or_else (Simple.dd_width data) (Num 2);
                Simple.timestamp := now; Simple.userId := sid;
                Simple.professorName := Simple.name s |} in
  Simple.on_draw_command st sid data now
  = ({| Simple.rooms :=
          <[Simple.roomKey s :=
              Simple.set_history
                (Simple.push_history cmd (Simple.history room)) room]>
            (Simple.rooms st);
        Simple.userSessions := Simple.userSessions st;
        Simple.channels := Simple.channels st |},
     [ToRoomExcept (Simple.roomKey s) sid (Simple.DrawCommandEvent cmd)]).
Proof.
  intros Hs Hrole Hvalid Hroom. unfold Simple.on_draw_command.
  by rewrite Hs, Hrole, Hroom, Hvalid.
Qed.

Lemma robust_draw_step st sid s command now room :
  Robust.userSessions st !! sid = Some s →
  Robust.role s = Professor →
  Robust.valid_command command = true →
  Robust.rooms st !! Robust.roomKey s = Some room →
  let enriched :=
    Robust.enrich command sid (Robust.name s) now (Robust.roomKey s) in
  Robust.on_draw_command st sid command now
  = ({| Robust.rooms :=
          <[Robust.roomKey s :=
              {| Robust.professors := Robust.professors room;
                 Robust.students := Robust.students room;
                 Robust.commands :=
                   Robust.push_command enriched (Robust.commands room);
                 Robust.metadata :=
                   Robust.touch now (Robust.metadata room) |}]>
            (Robust.rooms st);
        Robust.userSessions := Robust.userSessions st;
        Robust.channels := Robust.channels st;
        Robust.timers := Robust.timers st |},
     [ToRoomExcept (Robust.roomKey s) sid (Robust.DrawCommandEvent enriched)]).
Proof.
  intros Hs Hrole Hvalid Hroom. unfold Robust.on_draw_command.
  by rewrite Hs, Hrole, Hvalid, Hroom.
Qed.

End BoundedHistory.

Section SimpleBounded.
Import Js Ordered Transport Simple SimpleInv.
Context {U : UpperCasing}.

Lemma simple_push_history_bounded cmd h :
  length h ≤ 1000 → length (push_history cmd h) ≤ 1000.
Proof.
  intros Hlen. unfold push_history.
  destruct (1000 <? length (h ++ [cmd])) eqn:Hlt.
  - rewrite slice_last_length. lia.
  - by apply Nat.ltb_ge in Hlt.
Qed.

Lemma simple_bounded_insert (rms : gmap string Room) k room :
  (∀ k' r, rms !! k' = Some r → length (history r) ≤ 1000) →
  length (history room) ≤ 1000 →
  ∀ k' r, <[k := room]> rms !! k' = Some r → length (history r) ≤ 1000.
Proof.
  intros Hrms Hroom k' r. destruct (decide (k = k')) as [<-|Hne].
  - rewrite lookup_insert_eq. by intros [= <-].
  - rewrite lookup_insert_ne by done. apply Hrms.
Qed.

Lemma simple_bounded_delete (rms : gmap string Room) k :
  (∀ k' r, rms !! k' = Some r → length (history r) ≤ 1000) →
  ∀ k' r, delete k rms !! k' = Some r → length (history r) ≤ 1000.
Proof. intros Hrms k' r [_ H]%lookup_delete_Some. by eapply Hrms. Qed.

Lemma simple_bounded_handle st i : bounded st → bounded (handle st i).1.
Proof.
  intros Hst.
  destruct i as [sid data now|sid data now|sid data now|sid now|sid now];
    simpl;
    [ unfold on_join_professor | unfold on_join_student
    | unfold on_draw_command | unfold on_clear_canvas
    | unfold on_disconnect ];
    repeat match goal with
    | |- context [match ?x with _ => _ end] => destruct x eqn:?
    end;
    repeat match goal with
    | H : context [match ?x with _ => _ end] |- _ => destruct x eqn:?
    end; simplify_eq; try done; unfold bounded; simpl;
    first [ apply simple_bounded_insert | apply simple_bounded_delete ];
    try done; simpl; try apply Nat.le_0_l;
    try apply simple_push_history_bounded; eapply Hst; eassumption.
Qed.

(** No reachable state holds a history of more than 1000 commands. *)
Lemma simple_bounded_run trace : bounded (run trace).
Proof.
  unfold run.
  assert (Hinit : bounded init)
    by (intros ? ? H; cbn in H; by rewrite lookup_empty in H).
  revert Hinit. generalize init.
  induction trace as [|i trace IH]; intros st Hst; [done|].
  apply IH. by apply simple_bounded_handle.
Qed.

End SimpleBounded.

Section RobustBounded.
Import Js Ordered Transport Robust RobustInv.
Context {U : UpperCasing}.

Lemma robust_push_command_bounded cmd cmds :
  length cmds ≤ 1000 → length (push_command cmd cmds) ≤ 1000.
Proof.
  intros Hlen. unfold push_command.
  destruct (1000 <? length (cmds ++ [cmd])) eqn:Hlt.
  - rewrite slice_last_length. lia.
  - by apply Nat.ltb_ge in Hlt.
Qed.

Lemma robust_bounded_insert (rms : gmap string Room) k room :
  (∀ k' r, rms !! k' = Some r → length (commands r) ≤ 1000) →
  length (commands room) ≤ 1000 →
  ∀ k' r, <[k := room]> rms !! k' = Some r → length (commands r) ≤ 1000.
Proof.
  intros Hrms Hroom k' r. destruct (decide (k = k')) as [<-|Hne].
  - rewrite lookup_insert_eq. by intros [= <-].
  - rewrite lookup_insert_ne by done. apply Hrms.
Qed.

Lemma robust_bounded_delete (rms : gmap string Room) k :
  (∀ k' r, rms !! k' = Some r → length (commands r) ≤ 1000) →
  ∀ k' r, delete k rms !! k' = Some r → length (commands r) ≤ 1000.
Proof. intros Hrms k' r [_ H]%lookup_delete_Some. by eapply Hrms. Qed.

Lemma robust_bounded_createRoom rms key info now :
  (∀ k' r, rms !! k' = Some r → length (commands r) ≤ 1000) →
  ∀ k' r, createRoom rms key info now !! k' = Some r →
    length (commands r) ≤ 1000.
Proof.
  intros Hrms. unfold createRoom. apply robust_bounded_insert; [done|].
  simpl. lia.
Qed.

Lemma robust_bounded_deletion_check rms key :
  (∀ k' r, rms !! k' = Some r → length (commands r) ≤ 1000) →
  ∀ k' r, deletion_check rms key !! k' = Some r → length (commands r) ≤ 1000.
Proof.
  intros Hrms. unfold deletion_check.
  destruct (rms !! key); [|done]. destruct (_ && _); [|done].
  by apply robust_bounded_delete.
Qed.

Lemma robust_bounded_handle st i : bounded st → bounded (handle st i).1.
Proof.
  intros Hst.
  destruct i as [sid data now gen|sid data now|sid command now|sid now|sid now
                |key|now];
    simpl;
    [ unfold on_join_professor | unfold on_join_student
    | unfold on_draw_command | unfold on_clear_canvas
    | unfold on_disconnect | unfold on_timer | unfold on_sweep ];
    repeat match goal with
    | |- context [match ?x with _ => _ end] => destruct x eqn:?
    end;
    repeat match goal with
    | H : context [match ?x with _ => _ end] |- _ => destruct x eqn:?
    end; simplify_eq; try done; unfold bounded; simpl;
    repeat first
      [ apply robust_bounded_insert | apply robust_bounded_delete
      | apply robust_bounded_createRoom | apply robust_bounded_deletion_check
      | apply robust_push_command_bounded
      | exact (Nat.le_0_l _)
      | exact Hst
      | by (eapply Hst; eassumption)
      | by (eapply robust_bounded_createRoom; [exact Hst|eassumption])
      | by (intros k' x [H _]%map_lookup_filter_Some; eapply Hst; eassumption)
      | progress simpl ].
Qed.

Lemma robust_bounded_run trace : bounded (run trace).
Proof.
  unfold run.
  assert (Hinit : bounded init)
    by (intros ? ? H; cbn in H; by rewrite lookup_empty in H).
  revert Hinit. generalize init.
  induction trace as [|i trace IH]; intros st Hst; [done|].
  apply IH. by apply robust_bounded_handle.
Qed.

End RobustBounded.

Section SimpleDrawClear.
Import Js Transport Simple SimpleInv.
Context {U : UpperCasing}.

Lemma simple_occupant_subscribed st k o :
  consistent st → occupant st k o → o ∈ channels st !!! k.
Proof. intros Hst (s & Hs & <-). by destruct (Hst _ _ Hs). Qed.

Lemma simple_professor_draw trace sid s data now :
  let st := run trace in
  userSessions st !! sid = Some s →
  role s = Professor →
  valid_path (dd_path data) = true →
  let k := roomKey s in
  let cmd := {| path := dd_path data;
                color := or_else (dd_color data) (Str "#2563eb");
                width := or_else (dd_width data) (Num 2);
                timestamp := now; userId := sid;
                professorName := name s |} in
  let sent := ToRoomExcept k sid (DrawCommandEvent cmd) in
  let st' := (on_draw_command st sid data now).1 in
  ∃ room room',
    rooms st !! k = Some room
    ∧ rooms st' !! k = Some room'
    ∧ history room' = push_history cmd (history room)
    ∧ last (history room') = Some cmd
    ∧ length (history room) ≤ 1000
    ∧ (length (history room) < 1000 → history room' = history room ++ [cmd])
    ∧ (length (history room) = 1000 →
       history room' = drop 501 (history room ++ [cmd]))
    ∧ professor room' = professor room
    ∧ students room' = students room
    ∧ userCount room' = userCount room
    ∧ (∀ A, A ≠ k → rooms st' !! A = rooms st !! A)
    ∧ userSessions st' = userSessions st
    ∧ channels st' = channels st
    ∧ (on_draw_command st sid data now).2 = [sent]
    ∧ (sid ∉ recipients (channels st) sent)
    ∧ (∀ o, o ≠ sid → occupant st k o → o ∈ recipients (channels st) sent).
Proof.
  intros st Hs Hrole Hvalid k cmd sent st'.
  pose proof (simple_consistent_run trace) as Hst. fold st in Hst.
  pose proof (simple_bounded_run trace) as Hbound. fold st in Hbound.
  destruct (Hst _ _ Hs) as [_ (room & Hroom & _)].
  subst st'.
  rewrite (simple_draw_step st sid s data now room Hs Hrole Hvalid Hroom).
  fold k cmd sent. cbn [fst snd rooms userSessions channels].
  exists room. eexists. split; [done|].
  split; [apply lookup_insert_eq|]. cbn [history set_history].
  split; [done|]. split; [apply simple_push_history_last|].
  split; [by eapply Hbound|].
  split; [apply simple_push_history_below|].
  split; [intros Hfull; by apply simple_push_history_full|].
  do 3 (split; [done|]).
  split; [intros A HA; by rewrite lookup_insert_ne|].
  do 3 (split; [done|]).
  split; [subst sent; set_solver|].
  intros o Hne Ho. apply elem_of_difference. split.
  - by apply simple_occupant_subscribed.
  - set_solver.
Qed.

Lemma simple_professor_clear trace sid s now :
  let st := run trace in
  userSessions st !! sid = Some s →
  role s = Professor →
  ∃ room,
    rooms st !! roomKey s = Some room
    ∧ on_clear_canvas st sid now
      = ({| rooms := <[roomKey s := set_history [] room]> (rooms st);
            userSessions := userSessions st;
            channels := channels st |},
         [ToRoom (roomKey s) (CanvasCleared now (name s))])
    ∧ history (set_history [] room) = []
    ∧ sid ∈ recipients (channels st)
              (ToRoom (roomKey s) (CanvasCleared now (name s)))
    ∧ (∀ o, occupant st (roomKey s) o →
            o ∈ recipients (channels st)
                  (ToRoom (roomKey s) (CanvasCleared now (name s)))).
Proof.
  intros st Hs Hrole.
  pose proof (simple_consistent_run trace) as Hst. fold st in Hst.
  destruct (Hst _ _ Hs) as [Hch (room & Hroom & _)].
  exists room. split; [done|]. split.
  { unfold on_clear_canvas. by rewrite Hs, Hrole, Hroom. }
  repeat split; try done.
  intros o Ho. by apply simple_occupant_subscribed.
Qed.

End SimpleDrawClear.

Section RobustDrawClear.
Import Js Transport Robust RobustInv.
Context {U : UpperCasing}.
Hypothesis Hidem : upper_idempotent.

Lemma robust_occupant_subscribed st k o :
  consistent st → occupant st k o → o ∈ channels st !!! k.
Proof. intros Hst (s & Hs & <-). by destruct (Hst _ _ Hs). Qed.

Lemma robust_professor_draw trace sid s command now :
  let st := run trace in
  userSessions st !! sid = Some s →
  role s = Professor →
  valid_command command = true →
  let k := roomKey s in
  let enriched := enrich command sid (name s) now k in
  let sent := ToRoomExcept k sid (DrawCommandEvent enriched) in
  let st' := (on_draw_command st sid command now).1 in
  ∃ room room',
    rooms st !! k = Some room
    ∧ rooms st' !! k = Some room'
    ∧ commands room' = push_command enriched (commands room)
    ∧ last (commands room') = Some enriched
    ∧ length (commands room) ≤ 1000
    ∧ (length (commands room) < 1000 →
       commands room' = commands room ++ [enriched])
    ∧ (length (commands room) = 1000 →
       commands room' = drop 1 (commands room ++ [enriched]))
    ∧ professors room' = professors room
    ∧ students room' = students room
    ∧ (∀ A, A ≠ k → rooms st' !! A = rooms st !! A)
    ∧ userSessions st' = userSessions st
    ∧ channels st' = channels st
    ∧ (on_draw_command st sid command now).2 = [sent]
    ∧ (sid ∉ recipients (channels st) sent)
    ∧ (∀ o, o ≠ sid → occupant st k o → o ∈ recipients (channels st) sent).
Proof.
  intros st Hs Hrole Hvalid k enriched sent st'.
  pose proof (robust_consistent_run Hidem trace) as Hst. fold st in Hst.
  pose proof (robust_bounded_run trace) as Hbound. fold st in Hbound.
  destruct (Hst _ _ Hs) as [_ (room & Hroom & _)].
  subst st'.
  rewrite (robust_draw_step st sid s command now room Hs Hrole Hvalid Hroom).
  fold k enriched sent. cbn [fst snd rooms userSessions channels].
  exists room. eexists. split; [done|].
  split; [apply lookup_insert_eq|]. cbn [commands professors students].
  split; [done|]. split; [apply robust_push_command_last|].
  split; [by eapply Hbound|].
  split; [apply robust_push_command_below|].
  split; [intros Hfull; by apply robust_push_command_full|].
  do 2 (split; [done|]).
  split; [intros A HA; by rewrite lookup_insert_ne|].
  do 3 (split; [done|]).
  split; [subst sent; set_solver|].
  intros o Hne Ho. apply elem_of_difference. split.
  - by apply robust_occupant_subscribed.
  - set_solver.
Qed.

Lemma robust_professor_clear trace sid s now :
  let st := run trace in
  userSessions st !! sid = Some s →
  role s = Professor →
  ∃ room,
    let cleared := CanvasCleared (short_id sid) (name s) now in
    rooms st !! roomKey s = Some room
    ∧ on_clear_canvas st sid now
      = ({| rooms :=
              <[roomKey s :=
                  {| professors := professors room;
                     students := students room;
                     commands := [];
                     metadata := touch now (metadata room) |}]> (rooms st);
            userSessions := userSessions st;
            channels := channels st;
            timers := timers st |},
         [ToRoom (roomKey s) cleared])
    ∧ sid ∈ recipients (channels st) (ToRoom (roomKey s) cleared)
    ∧ (∀ o, occupant st (roomKey s) o →
            o ∈ recipients (channels st) (ToRoom (roomKey s) cleared)).
Proof.
  intros st Hs Hrole.
  pose proof (robust_consistent_run Hidem trace) as Hst. fold st in Hst.
  destruct (Hst _ _ Hs) as [Hch (room & Hroom & _)].
  exists room. simpl. split; [done|]. split.
  { unfold on_clear_canvas. by rewrite Hs, Hrole, Hroom. }
  split; [done|]. intros o Ho. by apply robust_occupant_subscribed.
Qed.

End RobustDrawClear.

Section DrawAndClearClaims.
Import Js Transport.
Context {U : UpperCasing}.

(** C5.  In every state the server can reach, a valid [draw-command] from a
    connection whose Session has role professor pushes exactly one entry, the
    enriched command, on the history of the Session's room, and hands that
    same command to the transport for everyone in the room but the sender.

    The room stored under the Session's key afterwards has the members it
    had, and its history is the old one with the command pushed: the command
    is its last entry; the old history never has more than 1000 entries;
    with fewer than 1000 the new history is the old one followed by the
    command; with exactly 1000 the overflow cut follows the push, leaving the
    last 500 entries (single-professor server) or the last 1000
    (multi-professor server) of the extended sequence.  No other room, no
    Session and no subscription changes.

    The enriched command is, on the single-professor server, the record of
    type [draw] with the path of the payload, its colour and width (or the
    defaults), the time, the sender's identity and the professor's name; on
    the multi-professor server it is the payload's command with
    [professorId], [professorName], [timestamp] and [roomKey] set, every
    other field kept.

    The only message of the handler carries that command; the sender is not
    among its recipients, every other connection whose Session names the
    room is.  A command is valid when its path is a non-empty array
    (single-professor server), respectively when it has a type and a path
    (multi-professor server).  The multi-professor half relies on
    upper-casing being idempotent. *)
Theorem C5_professor_draw_appends_and_broadcasts :
  (∀ trace sid s data now,
     let st := Simple.run trace in
     Simple.userSessions st !! sid = Some s →
     Simple.role s = Professor →
     Simple.valid_path (Simple.dd_path data) = true →
     let k := Simple.roomKey s in
     let cmd :=
       {| Simple.path := Simple.dd_path data;
          Simple.color := or_else (Simple.dd_color data) (Str "#2563eb");
          Simple.width := or_else (Simple.dd_width data) (Num 2);
          Simple.timestamp := now; Simple.userId := sid;
          Simple.professorName := Simple.name s |} in
     let sent := ToRoomExcept k sid (Simple.DrawCommandEvent cmd) in
     let st' := (Simple.on_draw_command st sid data now).1 in
     ∃ room room',
       Simple.rooms st !! k = Some room
       ∧ Simple.rooms st' !! k = Some room'
       ∧ Simple.history room'
         = Simple.push_history cmd (Simple.history room)
       ∧ last (Simple.history room') = Some cmd
       ∧ length (Simple.history room) ≤ 1000
       ∧ (length (Simple.history room) < 1000 →
          Simple.history room' = Simple.history room ++ [cmd])
       ∧ (length (Simple.history room) = 1000 →
          Simple.history room' = drop 501 (Simple.history room ++ [cmd]))
       ∧ Simple.professor room' = Simple.professor room
       ∧ Simple.students room' = Simple.students room
       ∧ Simple.userCount room' = Simple.userCount room
       ∧ (∀ A, A ≠ k → Simple.rooms st' !! A = Simple.rooms st !! A)
       ∧ Simple.userSessions st' = Simple.userSessions st
       ∧ Simple.channels st' = Simple.channels st
       ∧ (Simple.on_draw_command st sid data now).2 = [sent]
       ∧ (sid ∉ recipients (Simple.channels st) sent)
       ∧ (∀ o, o ≠ sid → SimpleInv.occupant st k o →
               o ∈ recipients (Simple.channels st) sent))
  ∧ (upper_idempotent →
     ∀ trace sid s command now,
       let st := Robust.run trace in
       Robust.userSessions st !! sid = Some s →
       Robust.role s = Professor →
       Robust.valid_command command = true →
       let k := Robust.roomKey s in
       let enriched := Robust.enrich command sid (Robust.name s) now k in
       let sent := ToRoomExcept k sid (Robust.DrawCommandEvent enriched) in
       let st' := (Robust.on_draw_command st sid command now).1 in
       (get_field enriched "professorId" = Str (short_id sid)
        ∧ get_field enriched "professorName" = Str (Robust.name s)
        ∧ get_field enriched "timestamp" = Num now
        ∧ get_field enriched "roomKey" = Str k
        ∧ (∀ f, f ∉ ["professorId"; "professorName"; "timestamp"; "roomKey"] →
                get_field enriched f = get_field command f))
       ∧ ∃ room room',
           Robust.rooms st !! k = Some room
           ∧ Robust.rooms st' !! k = Some room'
           ∧ Robust.commands room'
             = Robust.push_command enriched (Robust.commands room)
           ∧ last (Robust.commands room') = Some enriched
           ∧ length (Robust.commands room) ≤ 1000
           ∧ (length (Robust.commands room) < 1000 →
              Robust.commands room' = Robust.commands room ++ [enriched])
           ∧ (length (Robust.commands room) = 1000 →
              Robust.commands room'
              = drop 1 (Robust.commands room ++ [enriched]))
           ∧ Robust.professors room' = Robust.professors room
           ∧ Robust.students room' = Robust.students room
           ∧ (∀ A, A ≠ k → Robust.rooms st' !! A = Robust.rooms st !! A)
           ∧ Robust.userSessions st' = Robust.userSessions st
           ∧ Robust.channels st' = Robust.channels st
           ∧ (Robust.on_draw_command st sid command now).2 = [sent]
           ∧ (sid ∉ recipients (Robust.channels st) sent)
           ∧ (∀ o, o ≠ sid → RobustInv.occupant st k o →
                   o ∈ recipients (Robust.channels st) sent)).
Proof.
  split.
  - intros trace sid s data now st Hs Hrole Hvalid.
    apply (simple_professor_draw trace sid s data now Hs Hrole Hvalid).
  - intros Hidem trace sid s command now st Hs Hrole Hvalid k enriched sent st'.
    split; [apply enrich_fields|].
    apply (robust_professor_draw Hidem trace sid s command now Hs Hrole Hvalid).
Qed.

(** C6.  In every state the server can reach, a [clear-canvas] from a
    connection whose Session has role professor replaces the history of the
    Session's room by the empty sequence and hands [canvas-cleared] to the
    transport for the whole room: the sender is among the recipients, and so
    is every connection whose Session names the room.  Both servers; the
    multi-professor half relies on upper-casing being idempotent. *)
Theorem C6_professor_clear_empties_and_notifies_all :
  (∀ trace sid s now,
     let st := Simple.run trace in
     Simple.userSessions st !! sid = Some s →
     Simple.role s = Professor →
     ∃ room,
       let k := Simple.roomKey s in
       let sent := ToRoom k (Simple.CanvasCleared now (Simple.name s)) in
       Simple.rooms st !! k = Some room
       ∧ Simple.on_clear_canvas st sid now
         = ({| Simple.rooms :=
                 <[k := Simple.set_history [] room]> (Simple.rooms st);
               Simple.userSessions := Simple.userSessions st;
               Simple.channels := Simple.channels st |}, [sent])
       ∧ Simple.history (Simple.set_history [] room) = []
       ∧ sid ∈ recipients (Simple.channels st) sent
       ∧ (∀ o, SimpleInv.occupant st k o →
               o ∈ recipients (Simple.channels st) sent))
  ∧ (upper_idempotent →
     ∀ trace sid s now,
       let st := Robust.run trace in
       Robust.userSessions st !! sid = Some s →
       Robust.role s = Professor →
       ∃ room,
         let k := Robust.roomKey s in
         let sent :=
           ToRoom k (Robust.CanvasCleared (short_id sid) (Robust.name s) now) in
         Robust.rooms st !! k = Some room
         ∧ Robust.on_clear_canvas st sid now
           = ({| Robust.rooms :=
                   <[k := {| Robust.professors := Robust.professors room;
                             Robust.students := Robust.students room;
                             Robust.commands := [];
                             Robust.metadata :=
                               Robust.touch now (Robust.metadata room) |}]>
                     (Robust.rooms st);
                 Robust.userSessions := Robust.userSessions st;
                 Robust.channels := Robust.channels st;
                 Robust.timers := Robust.timers st |}, [sent])
         ∧ sid ∈ recipients (Robust.channels st) sent
         ∧ (∀ o, RobustInv.occupant st k o →
                 o ∈ recipients (Robust.channels st) sent)).
Proof.
  split.
  - intros trace sid s now st Hs Hrole.
    destruct (simple_professor_clear trace sid s now Hs Hrole) as (room & H).
    by exists room.
  - intros Hidem trace sid s now st Hs Hrole.
    destruct (robust_professor_clear Hidem trace sid s now Hs Hrole)
      as (room & H).
    by exists room.
Qed.

End DrawAndClearClaims.

Section DrawAndClearExamples.
Import Js Transport.
#[local] Existing Instance Js.ascii_case.

(** Ann draws a stroke in her class: it is the one entry of the history
    afterwards; Bob receives it, Ann does not. *)
Lemma C5_professor_draw_witness :
  (∃ cmd room',
     (Simple.on_draw_command (Simple.run Examples.simple_class) "p1"
        Examples.stroke 30).2
     = [ToRoomExcept "MATH101" "p1" (Simple.DrawCommandEvent cmd)]
     ∧ Simple.rooms
         (Simple.on_draw_command (Simple.run Examples.simple_class) "p1"
            Examples.stroke 30).1 !! "MATH101" = Some room'
     ∧ Simple.history room' = [cmd]
     ∧ "s1" ∈ recipients (Simple.channels (Simple.run Examples.simple_class))
                (ToRoomExcept "MATH101" "p1" (Simple.DrawCommandEvent cmd)))
  ∧ (∃ cmd room',
       (Robust.on_draw_command (Robust.run Examples.robust_class) "p1"
          Examples.r_stroke 30).2
       = [ToRoomExcept "MATH101" "p1" (Robust.DrawCommandEvent cmd)]
       ∧ Robust.rooms
           (Robust.on_draw_command (Robust.run Examples.robust_class) "p1"
              Examples.r_stroke 30).1 !! "MATH101" = Some room'
       ∧ Robust.commands room' = [cmd]
       ∧ get_field cmd "professorName" = Str "Ann"
       ∧ get_field cmd "path" = Examples.points
       ∧ "s1" ∈ recipients
                  (Robust.channels (Robust.run Examples.robust_class))
                  (ToRoomExcept "MATH101" "p1" (Robust.DrawCommandEvent cmd))).
Proof.
  split.
  - destruct (proj1 (@C5_professor_draw_appends_and_broadcasts ascii_case)
                Examples.simple_class "p1"
                {| Simple.role := Professor; Simple.name := "Ann";
                   Simple.roomKey := "MATH101"; Simple.sessionUserId := "p1";
                   Simple.joinedAt := 10 |} Examples.stroke 30%Z
                eq_refl eq_refl eq_refl)
      as (room & room' & Hroom & Hroom' & _ & _ & _ & Hbelow & _ & _ & _ & _
          & _ & _ & _ & Hsent & _ & Hothers).
    eexists _, room'. split; [exact Hsent|]. split; [exact Hroom'|].
    split.
    + eassert (Simple.rooms (Simple.run Examples.simple_class) !! "MATH101"
               = Some _) as Hfound by reflexivity.
      cbn [Simple.roomKey] in Hroom. rewrite Hfound in Hroom.
      injection Hroom as <-. apply Hbelow. simpl. lia.
    + apply Hothers; [done|]. eexists. split; reflexivity.
  - destruct (proj2 (@C5_professor_draw_appends_and_broadcasts ascii_case)
                ascii_case_idempotent
                Examples.robust_class "p1"
                {| Robust.role := Professor; Robust.name := "Ann";
                   Robust.roomKey := "MATH101"; Robust.userId := "p1" |}
                Examples.r_stroke 30%Z eq_refl eq_refl eq_refl)
      as ((_ & Hname & _ & _ & Hkept)
          & room & room' & Hroom & Hroom' & _ & _ & _ & Hbelow & _ & _ & _ & _
          & _ & _ & Hsent & _ & Hothers).
    eexists _, room'. split; [exact Hsent|]. split; [exact Hroom'|].
    split; [|split; [exact Hname|split]].
    + eassert (Robust.rooms (Robust.run Examples.robust_class) !! "MATH101"
               = Some _) as Hfound by reflexivity.
      cbn [Robust.roomKey] in Hroom. rewrite Hfound in Hroom.
      injection Hroom as <-. apply Hbelow. simpl. lia.
    + rewrite Hkept; [reflexivity|]. rewrite !not_elem_of_cons.
      repeat split; try done. apply not_elem_of_nil.
    + apply Hothers; [done|]. eexists. split; reflexivity.
Defined.

(** Ann clears the board of her class; both Ann and Bob are told. *)
Lemma C6_professor_clear_witness :
  (let st := Simple.run Examples.simple_class in
   (Simple.on_clear_canvas st "p1" 40).2
   = [ToRoom "MATH101" (Simple.CanvasCleared 40 "Ann")]
   ∧ "p1" ∈ recipients (Simple.channels st)
              (ToRoom "MATH101" (Simple.CanvasCleared 40 "Ann"))
   ∧ "s1" ∈ recipients (Simple.channels st)
              (ToRoom "MATH101" (Simple.CanvasCleared 40 "Ann")))
  ∧ (let st := Robust.run Examples.robust_class in
     (Robust.on_clear_canvas st "p1" 40).2
     = [ToRoom "MATH101" (Robust.CanvasCleared "p1" "Ann" 40)]
     ∧ "p1" ∈ recipients (Robust.channels st)
                (ToRoom "MATH101" (Robust.CanvasCleared "p1" "Ann" 40))
     ∧ "s1" ∈ recipients (Robust.channels st)
                (ToRoom "MATH101" (Robust.CanvasCleared "p1" "Ann" 40))).
Proof.
  split.
  - destruct (proj1 (@C6_professor_clear_empties_and_notifies_all ascii_case)
                Examples.simple_class "p1"
                {| Simple.role := Professor; Simple.name := "Ann";
                   Simple.roomKey := "MATH101"; Simple.sessionUserId := "p1";
                   Simple.joinedAt := 10 |} 40%Z eq_refl eq_refl)
      as (room & _ & Heq & _ & Hsender & Hall).
    simpl. split; [by rewrite Heq|]. split; [exact Hsender|].
    apply Hall. eexists. split; reflexivity.
  - destruct (proj2 (@C6_professor_clear_empties_and_notifies_all ascii_case)
                ascii_case_idempotent Examples.robust_class "p1"
                {| Robust.role := Professor; Robust.name := "Ann";
                   Robust.roomKey := "MATH101"; Robust.userId := "p1" |}
                40%Z eq_refl eq_refl)
      as (room & _ & Heq & Hsender & Hall).
    simpl. split; [by rewrite Heq|]. split; [exact Hsender|].
    apply Hall. eexists. split; reflexivity.
Defined.

End DrawAndClearExamples.

(** ** The bound on the history *)

Section RepeatedDraws.
Import Js Transport.
Context {U : UpperCasing}.

Lemma simple_run_from_app st a b :
  Simple.run_from st (a ++ b) = Simple.run_from (Simple.run_from st a) b.
Proof. apply fold_left_app. Qed.

Lemma robust_run_from_app st a b :
  Robust.run_from st (a ++ b) = Robust.run_from (Robust.run_from st a) b.
Proof. apply fold_left_app. Qed.

(** [n] strokes in a row, while the history has room for them. *)
Lemma simple_draw_n n : ∀ st sid s data now room,
  Simple.userSessions st !! sid = Some s →
  Simple.role s = Professor →
  Simple.valid_path (Simple.dd_path data) = true →
  Simple.rooms st !! Simple.roomKey s = Some room →
  length (Simple.history room) + n ≤ 1000 →
  let st' := Simple.run_from st (replicate n (Simple.Draw sid data now)) in
  let cmd := {| Simple.path := Simple.dd_path data;
                Simple.color := or_else (Simple.dd_color data) (Str "#2563eb");
                Simple.width := or_else (Simple.dd_width data) (Num 2);
                Simple.timestamp := now; Simple.userId := sid;
                Simple.professorName := Simple.name s |} in
  Simple.userSessions st' = Simple.userSessions st
  ∧ Simple.rooms st' !! Simple.roomKey s
    = Some (Simple.set_history (Simple.history room ++ replicate n cmd) room).
Proof.
  induction n as [|n IH];
    intros st sid s data now room Hs Hrole Hvalid Hroom Hlen st' cmd.
  - subst st'. simpl. split; [done|]. rewrite app_nil_r, Hroom. by destruct room.
  - subst st'.
    change (replicate (S n) (Simple.Draw sid data now))
      with (Simple.Draw sid data now :: replicate n (Simple.Draw sid data now)).
    change (Simple.run_from st (Simple.Draw sid data now :: ?l))
      with (Simple.run_from (Simple.on_draw_command st sid data now).1 l).
    rewrite (simple_draw_step st sid s data now room Hs Hrole Hvalid Hroom).
    fold cmd. rewrite simple_push_history_below by lia.
    cbn [fst].
    match goal with |- context [Simple.run_from ?st1 _] =>
      edestruct (IH st1 sid s data now
                   (Simple.set_history (Simple.history room ++ [cmd]) room)
                   Hs Hrole Hvalid) as [IH1 IH2]
    end.
    { cbn. apply lookup_insert_eq. }
    { cbn. rewrite length_app. simpl. lia. }
    split; [exact IH1|]. rewrite IH2. fold cmd. cbn.
    by rewrite <-app_assoc.
Qed.

Lemma robust_draw_n n : ∀ st sid s command now room,
  Robust.userSessions st !! sid = Some s →
  Robust.role s = Professor →
  Robust.valid_command command = true →
  Robust.rooms st !! Robust.roomKey s = Some room →
  length (Robust.commands room) + n ≤ 1000 →
  let st' := Robust.run_from st (replicate n (Robust.Draw sid command now)) in
  let enriched :=
    Robust.enrich command sid (Robust.name s) now (Robust.roomKey s) in
  Robust.userSessions st' = Robust.userSessions st
  ∧ ∃ room', Robust.rooms st' !! Robust.roomKey s = Some room'
             ∧ Robust.commands room'
               = Robust.commands room ++ replicate n enriched.
Proof.
  induction n as [|n IH];
    intros st sid s command now room Hs Hrole Hvalid Hroom Hlen st' enriched.
  - subst st'. simpl. split; [done|]. exists room. by rewrite app_nil_r.
  - subst st'.
    change (replicate (S n) (Robust.Draw sid command now))
      with (Robust.Draw sid command now
            :: replicate n (Robust.Draw sid command now)).
    change (Robust.run_from st (Robust.Draw sid command now :: ?l))
      with (Robust.run_from (Robust.on_draw_command st sid command now).1 l).
    rewrite (robust_draw_step st sid s command now room Hs Hrole Hvalid Hroom).
    fold enriched. rewrite robust_push_command_below by lia.
    cbn [fst].
    match goal with |- context [Robust.run_from ?st1 _] =>
      edestruct (IH st1 sid s command now
                   {| Robust.professors := Robust.professors room;
                      Robust.students := Robust.students room;
                      Robust.commands := Robust.commands room ++ [enriched];
                      Robust.metadata :=
                        Robust.touch now (Robust.metadata room) |}
                   Hs Hrole Hvalid) as [IH1 (room' & IH2 & IH3)]
    end.
    { cbn. apply lookup_insert_eq. }
    { cbn. rewrite length_app. simpl. lia. }
    split; [exact IH1|]. exists room'. split; [exact IH2|].
    rewrite IH3. fold enriched. cbn. by rewrite <-app_assoc.
Qed.

End RepeatedDraws.

Section HistoryBoundClaims.
Import Js Transport.
#[local] Existing Instance Js.ascii_case.

(** The class after Ann's thousand strokes: her Session is in place and the
    room's history holds exactly 1000 commands. *)
Lemma simple_thousand_state :
  let st := Simple.run Examples.simple_thousand in
  let s := {| Simple.role := Professor; Simple.name := "Ann";
              Simple.roomKey := "MATH101"; Simple.sessionUserId := "p1";
              Simple.joinedAt := 10 |} in
  Simple.userSessions st !! "p1" = Some s
  ∧ ∃ room, Simple.rooms st !! "MATH101" = Some room
            ∧ length (Simple.history room) = 1000.
Proof.
  intros st s. subst st. unfold Simple.run, Examples.simple_thousand.
  rewrite simple_run_from_app.
  edestruct (simple_draw_n 1000 (Simple.run_from Simple.init Examples.simple_class)
               "p1" s Examples.stroke 30) as [H1 H2];
    [reflexivity | reflexivity | reflexivity | reflexivity | simpl; lia |].
  split; [by rewrite H1|].
  eexists. split; [exact H2|]. cbn [Simple.history Simple.set_history].
  rewrite length_app, length_replicate. reflexivity.
Qed.

Lemma robust_thousand_state :
  let st := Robust.run Examples.robust_thousand in
  let s := {| Robust.role := Professor; Robust.name := "Ann";
              Robust.roomKey := "MATH101"; Robust.userId := "p1" |} in
  Robust.userSessions st !! "p1" = Some s
  ∧ ∃ room, Robust.rooms st !! "MATH101" = Some room
            ∧ length (Robust.commands room) = 1000.
Proof.
  intros st s. subst st. unfold Robust.run, Examples.robust_thousand.
  rewrite robust_run_from_app.
  edestruct (robust_draw_n 1000 (Robust.run_from Robust.init Examples.robust_class)
               "p1" s Examples.r_stroke 30) as [H1 (room' & H2 & H3)];
    [reflexivity | reflexivity | reflexivity | reflexivity | simpl; lia |].
  split; [by rewrite H1|].
  exists room'. split; [exact H2|]. rewrite H3.
  rewrite length_app, length_replicate. reflexivity.
Qed.

(** C2, as it stands, fails on the multi-professor server: after a thousand
    strokes the room holds 1000 commands, and one more stroke leaves it with
    1000, not 500. *)
Lemma C2_multi_professor_keeps_1000 :
  ∃ room room',
    Robust.rooms (Robust.run Examples.robust_thousand) !! "MATH101" = Some room
    ∧ length (Robust.commands room) = 1000
    ∧ Robust.rooms
        (Robust.on_draw_command (Robust.run Examples.robust_thousand) "p1"
           Examples.r_stroke 31).1 !! "MATH101" = Some room'
    ∧ length (Robust.commands room') = 1000
    ∧ length (Robust.commands room') ≠ 500.
Proof.
  destruct robust_thousand_state as [Hs (room & Hroom & Hlen)].
  exists room. eexists. split; [done|]. split; [done|].
  rewrite (robust_draw_step _ "p1" _ Examples.r_stroke 31 room Hs
             eq_refl eq_refl Hroom).
  cbn [fst Robust.rooms Robust.roomKey]. rewrite lookup_insert_eq.
  split; [done|]. cbn [Robust.commands].
  match goal with |- context [Robust.push_command ?e ?c] =>
    destruct (robust_push_command_full e c Hlen) as [_ ->]
  end.
  split; [done|lia].
Qed.

(** C2, amended.  When the history of a professor's room holds 1000 commands,
    one more valid stroke leaves the last 500 entries of the extended
    sequence, in their order, on the single-professor server, and the last
    1000 of them (the oldest entry is dropped) on the multi-professor
    server. *)
Theorem C2_overflow_truncation :
  (∀ (st : Simple.State) sid s data now room,
     Simple.userSessions st !! sid = Some s →
     Simple.role s = Professor →
     Simple.valid_path (Simple.dd_path data) = true →
     Simple.rooms st !! Simple.roomKey s = Some room →
     length (Simple.history room) = 1000 →
     ∃ cmd room',
       Simple.rooms (Simple.on_draw_command st sid data now).1
         !! Simple.roomKey s = Some room'
       ∧ Simple.path cmd = Simple.dd_path data
       ∧ Simple.history room' = drop 501 (Simple.history room ++ [cmd])
       ∧ length (Simple.history room') = 500)
  ∧ (∀ (st : Robust.State) sid s command now room,
       Robust.userSessions st !! sid = Some s →
       Robust.role s = Professor →
       Robust.valid_command command = true →
       Robust.rooms st !! Robust.roomKey s = Some room →
       length (Robust.commands room) = 1000 →
       ∃ room',
         let enriched :=
           Robust.enrich command sid (Robust.name s) now (Robust.roomKey s) in
         Robust.rooms (Robust.on_draw_command st sid command now).1
           !! Robust.roomKey s = Some room'
         ∧ Robust.commands room'
           = drop 1 (Robust.commands room ++ [enriched])
         ∧ length (Robust.commands room') = 1000).
Proof.
  split.
  - intros st sid s data now room Hs Hrole Hvalid Hroom Hlen.
    rewrite (simple_draw_step st sid s data now room Hs Hrole Hvalid Hroom).
    exists {| Simple.path := Simple.dd_path data;
              Simple.color := or_else (Simple.dd_color data) (Str "#2563eb");
              Simple.width := or_else (Simple.dd_width data) (Num 2);
              Simple.timestamp := now; Simple.userId := sid;
              Simple.professorName := Simple.name s |}.
    eexists. cbn [fst Simple.rooms]. rewrite lookup_insert_eq.
    split; [done|]. split; [done|]. cbn [Simple.history Simple.set_history].
    by apply simple_push_history_full.
  - intros st sid s command now room Hs Hrole Hvalid Hroom Hlen.
    rewrite (robust_draw_step st sid s command now room Hs Hrole Hvalid Hroom).
    eexists. cbn [fst Robust.rooms]. rewrite lookup_insert_eq.
    split; [done|]. cbn [Robust.commands].
    by apply robust_push_command_full.
Qed.

(** Stroke 1001 of Ann's class. *)
Lemma C2_overflow_truncation_witness :
  (∃ room',
     Simple.rooms
       (Simple.on_draw_command (Simple.run Examples.simple_thousand) "p1"
          Examples.stroke 31).1 !! "MATH101" = Some room'
     ∧ length (Simple.history room') = 500)
  ∧ (∃ room',
       Robust.rooms
         (Robust.on_draw_command (Robust.run Examples.robust_thousand) "p1"
            Examples.r_stroke 31).1 !! "MATH101" = Some room'
       ∧ length (Robust.commands room') = 1000).
Proof.
  split.
  - destruct simple_thousand_state as [Hs (room & Hroom & Hlen)].
    destruct (proj1 C2_overflow_truncation _ "p1" _ Examples.stroke 31%Z room
                Hs eq_refl eq_refl Hroom Hlen)
      as (cmd & room' & Hroom' & _ & _ & Hlen').
    exists room'. by split.
  - destruct robust_thousand_state as [Hs (room & Hroom & Hlen)].
    destruct (proj2 C2_overflow_truncation _ "p1" _ Examples.r_stroke 31%Z
                room Hs eq_refl eq_refl Hroom Hlen)
      as (room' & Hroom' & _ & Hlen').
    exists room'. by split.
Defined.

End HistoryBoundClaims.

(** ** Reported occupancy *)

Section ReportedOccupancy.
Import Js Transport.
Context {U : UpperCasing}.

(** C3 holds of the multi-professor server: whenever a handler reports an
    occupancy for a room, it is the number of professors plus the number of
    students the room holds once the handler is done. *)
Lemma robust_reported_occupancy st i eff k n :
  eff ∈ (Robust.handle st i).2 →
  RobustInv.reported_occupancy eff = Some (k, n) →
  ∃ room, Robust.rooms (Robust.handle st i).1 !! k = Some room
          ∧ n = length (Robust.professors room)
                + length (Robust.students room).
Proof.
  destruct i as [sid data now gen|sid data now|sid command now|sid now|sid now
                |key|now]; simpl.
  - unfold Robust.on_join_professor.
    repeat match goal with
    | |- context [match ?x with _ => _ end] => destruct x eqn:?
    end; simpl;
    rewrite ?elem_of_cons, ?elem_of_app, ?elem_of_nil;
    unfold Robust.replay;
    try (destruct (Robust.commands _));
    rewrite ?elem_of_cons, ?elem_of_nil;
    intros Hin Hrep; destruct_or?; subst; try done;
    simpl in Hrep; injection Hrep as <- <-;
    unfold Robust.getRoomStats; rewrite lookup_insert_eq; simpl; eauto.
  - unfold Robust.on_join_student.
    repeat match goal with
    | |- context [match ?x with _ => _ end] => destruct x eqn:?
    end; simpl;
    rewrite ?elem_of_cons, ?elem_of_app, ?elem_of_nil;
    unfold Robust.replay;
    try (destruct (Robust.commands _));
    rewrite ?elem_of_cons, ?elem_of_nil;
    intros Hin Hrep; destruct_or?; subst; try done;
    simpl in Hrep; injection Hrep as <- <-;
    unfold Robust.getRoomStats; rewrite lookup_insert_eq; simpl; eauto.
  - unfold Robust.on_draw_command.
    repeat match goal with
    | |- context [match ?x with _ => _ end] => destruct x eqn:?
    end; simpl; rewrite ?elem_of_cons, ?elem_of_nil;
    intros Hin Hrep; destruct_or?; subst; done.
  - unfold Robust.on_clear_canvas.
    repeat match goal with
    | |- context [match ?x with _ => _ end] => destruct x eqn:?
    end; simpl; rewrite ?elem_of_cons, ?elem_of_nil;
    intros Hin Hrep; destruct_or?; subst; done.
  - unfold Robust.on_disconnect.
    repeat match goal with
    | |- context [match ?x with _ => _ end] => destruct x eqn:?
    end; simpl; rewrite ?elem_of_cons, ?elem_of_nil;
    intros Hin Hrep; destruct_or?; subst; try done;
    simpl in Hrep; injection Hrep as <- <-;
    rewrite lookup_insert_eq; simpl; eauto.
  - by intros ?%elem_of_nil.
  - by intros ?%elem_of_nil.
Qed.

(** The single-professor server reports the right occupancy on every path
    but one: a student join into a room whose professor has left counts one
    professor too many. *)
Lemma simple_reported_occupancy st i eff k n :
  eff ∈ (Simple.handle st i).2 →
  SimpleInv.reported_occupancy eff = Some (k, n) →
  ∃ room,
    Simple.rooms (Simple.handle st i).1 !! k = Some room
    ∧ (n = Simple.professor_count room + Simple.student_count room
       ∨ ((∃ sid data now, i = Simple.JoinStudent sid data now)
          ∧ Simple.professor room = None
          ∧ n = 1 + Simple.student_count room)).
Proof.
  destruct i as [sid data now|sid data now|sid data now|sid now|sid now];
    simpl;
    [ unfold Simple.on_join_professor | unfold Simple.on_join_student
    | unfold Simple.on_draw_command | unfold Simple.on_clear_canvas
    | unfold Simple.on_disconnect ];
    repeat match goal with
    | |- context [match ?x with _ => _ end] => destruct x eqn:?
    end;
    repeat match goal with
    | H : context [match ?x with _ => _ end] |- _ => destruct x eqn:?
    end; simplify_eq; simpl;
    unfold Simple.replay; try (destruct (Simple.history _)); simpl;
    rewrite ?elem_of_app, ?elem_of_cons, ?elem_of_nil;
    intros Hin Hrep; destruct_or?; subst; try done;
    simpl in Hrep; simplify_eq;
    rewrite lookup_insert_eq; eexists; (split; [reflexivity|]);
    unfold Simple.professor_count, Simple.student_count; simpl;
    try (left; reflexivity);
    try (left; by match goal with H : Simple.professor _ = _ |- _ =>
                    rewrite H end);
    try (right; split; [by eexists _, _, _|]; by split);
    (destruct (Simple.professor _) eqn:?;
     [ by left | right; split; [by eexists _, _, _ | by split] ]).
Qed.

End ReportedOccupancy.

Section OccupancyClaims.
Import Js Transport.
#[local] Existing Instance Js.ascii_case.

(** C3 on the single-professor server, at the input where it goes wrong.
    Ann has left, Bob is still in MATH101; Cy joins as a student.  The server
    reports 3 users to Cy and to the room, while the room holds no professor
    and two students. *)
Theorem C3_student_join_counts_absent_professor :
  (Simple.on_join_student (Simple.run Examples.simple_orphaned) "s2"
     Examples.cy 40).2
  = [ToSocket "s2" (Simple.JoinAttemptReceived 40);
     ToSocket "s2" (Simple.RoomJoined "MATH101" 3 Student 40);
     ToRoom "MATH101"
       (Simple.UserListUpdate 3 (Some "Unknown Professor")
          [{| ue_name := "Bob"; ue_id := "s1" |};
           {| ue_name := "Cy"; ue_id := "s2" |}])]
  ∧ ∃ room,
      Simple.rooms
        (Simple.on_join_student (Simple.run Examples.simple_orphaned) "s2"
           Examples.cy 40).1 !! "MATH101" = Some room
      ∧ Simple.professor_count room = 0
      ∧ Simple.student_count room = 2
      ∧ Simple.userCount room = 3.
Proof.
  split; [reflexivity|]. eexists. split; [reflexivity|]. by vm_compute.
Qed.

End OccupancyClaims.

(** ** Leaving and coming back *)

Section SingleProfessorTeardown.
Import Js Ordered Transport.
#[local] Existing Instance Js.ascii_case.

(** C4, as it stands, fails on the single-professor server, which has no
    grace period: Ann, alone in MATH101 with one stroke on the board,
    disconnects; her Session and the room are gone at once, and a professor
    who joins MATH101 right away gets a new room with an empty history. *)
Lemma C4_single_professor_loses_history :
  (∃ room,
     Simple.rooms (Simple.run Examples.simple_lesson) !! "MATH101" = Some room
     ∧ Simple.professor room = Some "p1"
     ∧ Simple.students room = []
     ∧ length (Simple.history room) = 1)
  ∧ Simple.userSessions
      (Simple.run (Examples.simple_lesson ++ [Simple.Disconnect "p1" 30]))
      !! "p1" = None
  ∧ Simple.rooms
      (Simple.run (Examples.simple_lesson ++ [Simple.Disconnect "p1" 30]))
      !! "MATH101" = None
  ∧ ∃ room',
      Simple.rooms
        (Simple.on_join_professor
           (Simple.run (Examples.simple_lesson ++ [Simple.Disconnect "p1" 30]))
           "p2" Examples.ann 31).1 !! "MATH101" = Some room'
      ∧ Simple.history room' = [].
Proof.
  split; [eexists; split; [reflexivity|by vm_compute]|].
  split; [reflexivity|]. split; [reflexivity|].
  eexists. split; reflexivity.
Qed.

End SingleProfessorTeardown.

Section GracePeriod.
Import Js Ordered Transport.
Context {U : UpperCasing}.
Hypothesis Hidem : upper_idempotent.

Lemma sole_keys_delete {V} (sid : string) (m : list (string * V)) :
  m.*1 = [sid] → map_delete sid m = [].
Proof.
  destruct m as [|[k v] [|? ?]]; try done. simpl. intros [= ->].
  unfold map_delete. rewrite filter_cons. simpl. by rewrite decide_False by tauto.
Qed.

(** Leaving a room as its only occupant, on the multi-professor server. *)
Lemma robust_last_one_leaves st sid s room now :
  Robust.userSessions st !! sid = Some s →
  Robust.rooms st !! Robust.roomKey s = Some room →
  RobustInv.sole_occupant room (Robust.role s) sid →
  Robust.on_disconnect st sid now
  = ({| Robust.rooms :=
          <[Robust.roomKey s :=
              {| Robust.professors := []; Robust.students := [];
                 Robust.commands := Robust.commands room;
                 Robust.metadata := Robust.touch now (Robust.metadata room) |}]>
            (Robust.rooms st);
        Robust.userSessions := delete sid (Robust.userSessions st);
        Robust.channels := leave_all sid (Robust.channels st);
        Robust.timers := Robust.timers st ++ [Robust.roomKey s] |}, []).
Proof.
  intros Hs Hroom Hsole. unfold Robust.on_disconnect. rewrite Hs, Hroom.
  unfold RobustInv.sole_occupant in Hsole.
  destruct (Robust.role s); destruct Hsole as [H1 H2].
  - by rewrite (sole_keys_delete _ _ H1), H2.
  - by rewrite (sole_keys_delete _ _ H2), H1.
Qed.

Lemma validateRoomKey_Str_nonempty key :
  Robust.validateRoomKey (Str key) = true → truthy (Str key) = true.
Proof. simpl. by destruct (is_empty key). Qed.

(** A professor is admitted to a room that exists and has a free seat. *)
Lemma robust_join_professor_existing st sid name key flag now gen room0 :
  Robust.name_refused (Str name) = Some false →
  Robust.validateRoomKey (Str key) = true →
  Robust.rooms st !! toUpperCase key = Some room0 →
  length (Robust.professors room0) < 3 →
  let k := toUpperCase key in
  let room :=
    {| Robust.professors :=
         map_set sid {| Robust.m_name := trim name; Robust.m_socketId := sid;
                        Robust.m_joinedAt := now;
                        Robust.m_role := Professor |}
           (Robust.professors room0);
       Robust.students := Robust.students room0;
       Robust.commands := Robust.commands room0;
       Robust.metadata := Robust.touch now (Robust.metadata room0) |} in
  Robust.on_join_professor st sid
    {| Robust.pj_roomKey := Str key; Robust.pj_professorName := Str name;
       Robust.pj_createIfNotExists := flag |} now gen
  = ({| Robust.rooms := <[k := room]> (Robust.rooms st);
        Robust.userSessions :=
          <[sid := {| Robust.role := Professor; Robust.name := trim name;
                      Robust.roomKey := k; Robust.userId := sid |}]>
            (Robust.userSessions st);
        Robust.channels := join_channel sid k (Robust.channels st);
        Robust.timers := Robust.timers st |},
     [ToSocket sid
        (Robust.RoomJoined k Professor (trim name)
           (length (Robust.professors room) + length (Robust.students room))
           (length (Robust.professors room))
           (length (Robust.students room)))]
     ++ Robust.replay sid (Robust.commands room0)
     ++ [ToRoom k (Robust.userListUpdate room)]).
Proof.
  intros Hname Hkey Hroom0 Hseat k room. subst k room.
  unfold Robust.on_join_professor.
  cbn [Robust.pj_professorName Robust.pj_roomKey Robust.pj_createIfNotExists].
  rewrite Hname, (validateRoomKey_Str_nonempty _ Hkey).
  cbn [negb andb]. rewrite Hkey. cbn [negb str_of].
  rewrite Hroom0. cbv beta iota zeta. rewrite Hroom0.
  destruct (3 <=? length (Robust.professors room0)) eqn:Hfull.
  { apply Nat.leb_le in Hfull. lia. }
  unfold Robust.getRoomStats. rewrite lookup_insert_eq. done.
Qed.

(** Nobody's Session names a room without members. *)
Lemma robust_empty_room_unnamed st sid s room :
  RobustInv.consistent st →
  Robust.userSessions st !! sid = Some s →
  Robust.rooms st !! Robust.roomKey s = Some room →
  Robust.professors room = [] → Robust.students room = [] → False.
Proof.
  intros Hst Hs Hroom Hp Hstud.
  destruct (Hst _ _ Hs) as [_ (room' & Hroom' & Hm)].
  rewrite Hroom in Hroom'. injection Hroom' as <-.
  unfold RobustInv.member_of in Hm. rewrite Hp, Hstud in Hm.
  destruct (Robust.role s), Hm as [? [=]].
Qed.

(** An input that spares the empty room [k] leaves its record as it is. *)
Lemma robust_spared_room_handle st k left room i :
  RobustInv.consistent st →
  Robust.rooms st !! k = Some room →
  Robust.professors room = [] → Robust.students room = [] →
  Robust.lastActivity (Robust.metadata room) = left →
  RobustInv.spares k left i →
  Robust.rooms (Robust.handle st i).1 !! k = Some room.
Proof.
  intros Hst Hroom Hp Hs Hleft Hi.
  destruct i as [sid data now gen|sid data now|sid command now|sid now|sid now
                |key|now]; simpl in *.
  - unfold Robust.on_join_professor.
    destruct (Robust.name_refused _) as [[]|]; try done.
    destruct (negb (Robust.validateRoomKey _)); [done|].
    unfold RobustInv.requested_key in Hi.
    set (k' := toUpperCase (str_of _)) in *.
    assert (Hk' : toUpperCase k' = k') by apply Hidem.
    destruct (Robust.rooms st !! k') as [room0|] eqn:Hroom0.
    + rewrite Hroom0. destruct (3 <=? _); [done|].
      simpl. by rewrite lookup_insert_ne.
    + destruct (Robust.create_flag _); [|done].
      unfold Robust.createRoom. rewrite Hk', lookup_insert_eq. simpl.
      by rewrite !lookup_insert_ne.
  - unfold Robust.on_join_student.
    destruct (Robust.name_refused _) as [[]|]; try done.
    destruct (negb (Robust.validateRoomKey _)); [done|].
    set (k' := toUpperCase (str_of _)).
    destruct (Robust.rooms st !! k') as [room0|] eqn:Hroom0; [|done].
    destruct (decide (k' = k)) as [Hk|Hk].
    + rewrite Hk, Hroom in Hroom0. injection Hroom0 as <-.
      by rewrite Hp.
    + destruct (_ =? 0); [done|]. destruct (100 <=? _); [done|].
      simpl. by rewrite lookup_insert_ne.
  - unfold Robust.on_draw_command.
    destruct (Robust.userSessions st !! sid) as [s|] eqn:Hsess; [|done].
    destruct (Robust.role s); [|done].
    destruct (negb (Robust.valid_command command)); [done|].
    destruct (Robust.rooms st !! Robust.roomKey s) as [room0|] eqn:Hroom0;
      [|done].
    simpl. rewrite lookup_insert_ne; [done|]. intros Hk.
    rewrite Hk, Hroom in Hroom0. injection Hroom0 as <-.
    rewrite <-Hk in Hroom.
    by eapply (robust_empty_room_unnamed st sid s room).
  - unfold Robust.on_clear_canvas.
    destruct (Robust.userSessions st !! sid) as [s|] eqn:Hsess; [|done].
    destruct (Robust.role s); [|done].
    destruct (Robust.rooms st !! Robust.roomKey s) as [room0|] eqn:Hroom0;
      [|done].
    simpl. rewrite lookup_insert_ne; [done|]. intros Hk.
    rewrite Hk, Hroom in Hroom0. injection Hroom0 as <-.
    rewrite <-Hk in Hroom.
    by eapply (robust_empty_room_unnamed st sid s room).
  - unfold Robust.on_disconnect.
    destruct (Robust.userSessions st !! sid) as [s|] eqn:Hsess; [|done].
    destruct (Robust.rooms st !! Robust.roomKey s) as [room0|] eqn:Hroom0;
      [|done].
    assert (Robust.roomKey s ≠ k) as Hk.
    { intros Hk. rewrite Hk, Hroom in Hroom0. injection Hroom0 as <-.
      rewrite <-Hk in Hroom.
      by eapply (robust_empty_room_unnamed st sid s room). }
    destruct (_ =? 0); simpl; by rewrite lookup_insert_ne.
  - unfold Robust.on_timer. case_bool_decide; [|done]. simpl.
    unfold Robust.deletion_check.
    destruct (Robust.rooms st !! key); [|done]. destruct (_ && _); [|done].
    by rewrite lookup_delete_ne.
  - apply map_lookup_filter_Some. split; [done|]. simpl.
    rewrite Hleft. intros [Hold _]. lia.
Qed.

Lemma robust_spared_room_run st k left room mid :
  RobustInv.consistent st →
  Robust.rooms st !! k = Some room →
  Robust.professors room = [] → Robust.students room = [] →
  Robust.lastActivity (Robust.metadata room) = left →
  Forall (RobustInv.spares k left) mid →
  Robust.rooms (Robust.run_from st mid) !! k = Some room.
Proof.
  intros Hst Hroom Hp Hs Hleft Hmid. revert st Hst Hroom.
  induction Hmid as [|i mid Hi Hmid IH]; intros st Hst Hroom; [done|].
  apply IH.
  - by apply robust_consistent_handle.
  - by eapply robust_spared_room_handle.
Qed.

(** When nobody comes back, the deletion check removes the room. *)
Lemma robust_grace_period_expires st sid s room now :
  Robust.userSessions st !! sid = Some s →
  Robust.rooms st !! Robust.roomKey s = Some room →
  RobustInv.sole_occupant room (Robust.role s) sid →
  Robust.rooms
    (Robust.on_timer (Robust.on_disconnect st sid now).1 (Robust.roomKey s))
    !! Robust.roomKey s = None.
Proof.
  intros Hs Hroom Hsole.
  rewrite (robust_last_one_leaves st sid s room now Hs Hroom Hsole).
  unfold Robust.on_timer. cbn [fst Robust.timers Robust.rooms].
  rewrite bool_decide_eq_true_2 by (apply elem_of_app; right; by left).
  cbn [Robust.rooms]. unfold Robust.deletion_check.
  rewrite lookup_insert_eq. cbn. apply lookup_delete_eq.
Qed.

End GracePeriod.

Section GracePeriodClaims.
Import Js Ordered Transport.
Context {U : UpperCasing}.

(** C4, amended: the multi-professor server.  In every reachable state, when
    the only occupant of a room disconnects, its Session is removed, the room
    stays in the registry with its history and without members, and a
    deletion check for its key is scheduled.  The room record then stays as
    it is through every input that spares it: any input except a professor
    join that asks for the key, a deletion check for the key, and a sweep
    more than 24 hours after the disconnect.  A professor who joins under a
    key that upper-cases to the room's key after such inputs, that is before
    any deletion check for the key has run, is admitted to the same room: the
    history is intact, it is replayed to the joiner when it is not empty, and
    a deletion check for the key that runs afterwards leaves the room in
    place.  Relies on upper-casing being idempotent. *)
Theorem C4_grace_period_keeps_history :
  upper_idempotent →
  ∀ trace sid s room now mid,
    let st := Robust.run trace in
    Robust.userSessions st !! sid = Some s →
    Robust.rooms st !! Robust.roomKey s = Some room →
    RobustInv.sole_occupant room (Robust.role s) sid →
    let k := Robust.roomKey s in
    let st1 := (Robust.on_disconnect st sid now).1 in
    Forall (RobustInv.spares k now) mid →
    let st2 := Robust.run_from st1 mid in
    Robust.userSessions st1 !! sid = None
    ∧ (∃ room1, Robust.rooms st1 !! k = Some room1
                ∧ Robust.commands room1 = Robust.commands room
                ∧ Robust.professors room1 = []
                ∧ Robust.students room1 = [])
    ∧ k ∈ Robust.timers st1
    ∧ Robust.rooms st2 !! k = Robust.rooms st1 !! k
    ∧ (∀ sid' name key flag now' gen,
         Robust.name_refused (Str name) = Some false →
         Robust.validateRoomKey (Str key) = true →
         toUpperCase key = k →
         let back :=
           Robust.on_join_professor st2 sid'
             {| Robust.pj_roomKey := Str key;
                Robust.pj_professorName := Str name;
                Robust.pj_createIfNotExists := flag |} now' gen in
         (∃ room2, Robust.rooms back.1 !! k = Some room2
                   ∧ Robust.commands room2 = Robust.commands room
                   ∧ map_has sid' (Robust.professors room2)
                   ∧ Robust.rooms (Robust.on_timer back.1 k) !! k
                     = Some room2)
         ∧ (∃ count profs studs,
              ToSocket sid'
                (Robust.RoomJoined k Professor (trim name) count profs studs)
              ∈ back.2)
         ∧ (Robust.commands room ≠ [] →
            ToSocket sid'
              (Robust.RoomHistory (Robust.commands room)
                 (length (Robust.commands room))) ∈ back.2)).
Proof.
  intros Hidem trace sid s room now mid st Hs Hroom Hsole k st1 Hmid st2.
  pose proof (robust_consistent_run Hidem trace) as Hst. fold st in Hst.
  pose proof (robust_consistent_disconnect st sid now Hst) as Hst1.
  fold st1 in Hst1.
  set (room1 := {| Robust.professors := []; Robust.students := [];
                   Robust.commands := Robust.commands room;
                   Robust.metadata :=
                     Robust.touch now (Robust.metadata room) |}).
  assert (Hroom1 : Robust.rooms st1 !! k = Some room1).
  { subst st1.
    rewrite (robust_last_one_leaves st sid s room now Hs Hroom Hsole).
    apply lookup_insert_eq. }
  assert (Hroom2 : Robust.rooms st2 !! k = Some room1).
  { by apply (robust_spared_room_run Hidem st1 k now room1 mid). }
  split.
  { subst st1.
    rewrite (robust_last_one_leaves st sid s room now Hs Hroom Hsole).
    apply lookup_delete_eq. }
  split; [by exists room1|].
  split.
  { subst st1.
    rewrite (robust_last_one_leaves st sid s room now Hs Hroom Hsole).
    cbn [fst Robust.timers]. apply elem_of_app. right.
    by apply list_elem_of_singleton. }
  split; [by rewrite Hroom1, Hroom2|].
  intros sid' name key flag now' gen Hname Hkey Hupper.
  erewrite (robust_join_professor_existing st2 sid' name key flag now' gen);
    [|done|done|rewrite Hupper; exact Hroom2|cbn; lia].
  rewrite Hupper.
  cbn [fst snd Robust.rooms Robust.commands Robust.students Robust.professors
       Robust.timers room1].
  split; [|split].
  - eexists. split; [apply lookup_insert_eq|]. split; [done|].
    split; [apply (map_has_set sid' sid' _ []); by left|].
    unfold Robust.on_timer. cbn [Robust.timers Robust.rooms].
    case_bool_decide; [|apply lookup_insert_eq].
    cbn [Robust.rooms]. unfold Robust.deletion_check.
    rewrite lookup_insert_eq. cbn. apply lookup_insert_eq.
  - eexists _, _, _. apply elem_of_cons. by left.
  - intros Hne. apply elem_of_cons. right. apply elem_of_app. left.
    unfold Robust.replay. destruct (Robust.commands room); [done|].
    apply list_elem_of_singleton. done.
Qed.

End GracePeriodClaims.

Section GracePeriodExamples.
Import Js Ordered Transport.
#[local] Existing Instance Js.ascii_case.

(** Ann leaves her room on the multi-professor server.  While its deletion
    check is pending another professor opens PHYS202 and draws there, the
    sweep runs and a deletion check for PHYS202 comes due; then a professor
    joins MATH101 again and finds Ann's stroke. *)
Lemma C4_grace_period_witness :
  let st1 :=
    (Robust.on_disconnect (Robust.run Examples.robust_lesson) "p1" 30).1 in
  let st2 := Robust.run_from st1 Examples.robust_meanwhile in
  Robust.userSessions st1 !! "p1" = None
  ∧ ∃ room2,
      Robust.rooms
        (Robust.on_join_professor st2 "p2" Examples.r_ann 40 "K3Y9XZ").1
        !! "MATH101" = Some room2
      ∧ length (Robust.commands room2) = 1.
Proof.
  assert (Hs : Robust.userSessions (Robust.run Examples.robust_lesson) !! "p1"
               = Some {| Robust.role := Professor; Robust.name := "Ann";
                         Robust.roomKey := "MATH101"; Robust.userId := "p1" |})
    by reflexivity.
  eassert (Hroom : Robust.rooms (Robust.run Examples.robust_lesson) !! "MATH101"
                   = Some _) by reflexivity.
  assert (Hmid : Forall (RobustInv.spares "MATH101" 30)
                   Examples.robust_meanwhile).
  { apply (bool_decide_unpack _). by vm_compute. }
  destruct (@C4_grace_period_keeps_history ascii_case ascii_case_idempotent
              Examples.robust_lesson "p1" _ _ 30%Z Examples.robust_meanwhile
              Hs Hroom (conj eq_refl eq_refl) Hmid)
    as (Hgone & _ & _ & _ & Hback).
  split; [exact Hgone|].
  destruct (Hback "p2" "Ann" "math101" Undefined 40%Z "K3Y9XZ"
              eq_refl eq_refl eq_refl) as ((room2 & Hroom2 & Hcmds & _) & _).
  exists room2. split; [exact Hroom2|]. by rewrite Hcmds.
Defined.

(** What the theorem above leaves out.  Deletion checks are never cancelled,
    so a room that was left twice has two of them pending, and the older one
    runs less than 30 seconds after the second departure.  Here Ann's check
    runs ten seconds after Dee left: the room is empty, so it is deleted with
    its history, and a professor who joins MATH101 three seconds later, long
    before Dee's check is due, gets a new room without any command. *)
Lemma robust_older_check_deletes_room :
  let st := Robust.run Examples.robust_two_checks in
  Robust.timers st = ["MATH101"; "MATH101"]
  ∧ (∃ room, Robust.rooms st !! "MATH101" = Some room
             ∧ length (Robust.commands room) = 1)
  ∧ Robust.rooms (Robust.on_timer st "MATH101") !! "MATH101" = None
  ∧ Robust.timers (Robust.on_timer st "MATH101") = ["MATH101"]
  ∧ ∃ room',
      Robust.rooms
        (Robust.on_join_professor (Robust.on_timer st "MATH101") "p3"
           Examples.r_ann 35000 "K3Y9XZ").1 !! "MATH101" = Some room'
      ∧ Robust.commands room' = [].
Proof.
  split; [reflexivity|]. split; [eexists; split; reflexivity|].
  split; [reflexivity|]. split; [reflexivity|].
  eexists. split; reflexivity.
Qed.

End GracePeriodExamples.

(** ** Joining: unknown rooms and malformed keys *)

Section JoinValidation.
Import Js Transport.
Context {U : UpperCasing}.

Lemma trim_empty s : is_empty s = true → trim s = EmptyString.
Proof. by destruct s. Qed.

Lemma valid_name_truthy name :
  1 ≤ String.length (trim name) → truthy (Str name) = true.
Proof.
  intros Hlen. simpl. destruct (is_empty name) eqn:Hempty; [|done].
  rewrite (trim_empty _ Hempty) in Hlen. simpl in Hlen. lia.
Qed.

(** The name test of the multi-professor server lets a non-blank name
    through. *)
Lemma valid_name_not_refused name :
  1 ≤ String.length (trim name) → Robust.name_refused (Str name) = Some false.
Proof.
  intros Hlen. unfold Robust.name_refused.
  rewrite (valid_name_truthy _ Hlen). simpl.
  destruct (String.length (trim name)); [lia|done].
Qed.

(** The name test of the single-professor server, lines 256 and 433. *)
Lemma simple_valid_name_passes name :
  1 ≤ String.length (trim name) ≤ 50 →
  (String.length (trim name) <? 1) || (50 <? String.length (trim name))
  = false.
Proof.
  intros [H1 H50]. apply orb_false_iff. split; apply Nat.ltb_ge; lia.
Qed.

(** C7.  A [join-room-as-student] with a valid name (1 to 50 characters once
    trimmed) for a room key that is not in the registry is answered with
    ROOM_NOT_FOUND and leaves the whole state as it was: no room is created,
    no Session is registered.  The key is any non-empty string on the
    single-professor server (looked up trimmed and upper-cased) and any
    well-formed key on the multi-professor server (looked up upper-cased). *)
Theorem C7_student_join_unknown_room :
  (∀ (st : Simple.State) sid name key now,
     1 ≤ String.length (trim name) ≤ 50 →
     key ≠ EmptyString →
     Simple.rooms st !! toUpperCase (trim key) = None →
     Simple.on_join_student st sid
       {| Simple.sj_studentName := Str name; Simple.sj_roomKey := Str key |}
       now
     = (st, [ToSocket sid (Simple.JoinAttemptReceived now);
             ToSocket sid (Simple.RoomError ROOM_NOT_FOUND)]))
  ∧ (∀ (st : Robust.State) sid name key now,
       1 ≤ String.length (trim name) ≤ 50 →
       Robust.validateRoomKey (Str key) = true →
       Robust.rooms st !! toUpperCase key = None →
       Robust.on_join_student st sid
         {| Robust.sj_roomKey := Str key; Robust.sj_studentName := Str name |}
         now
       = (st, [ToSocket sid (Robust.RoomError ROOM_NOT_FOUND)])).
Proof.
  split.
  - intros st sid name key now Hname Hkey Habsent.
    unfold Simple.on_join_student.
    cbn [Simple.sj_studentName Simple.sj_roomKey].
    rewrite (valid_name_truthy name) by lia.
    assert (truthy (Str key) = true) as -> by (by destruct key).
    cbn [negb orb]. rewrite (simple_valid_name_passes _ Hname).
    by rewrite Habsent.
  - intros st sid name key now Hname Hkey Habsent.
    unfold Robust.on_join_student.
    cbn [Robust.sj_studentName Robust.sj_roomKey].
    rewrite (valid_name_not_refused name) by lia.
    rewrite Hkey. cbn [negb str_of]. by rewrite Habsent.
Qed.

End JoinValidation.

Section JoinValidationExamples.
Import Js Transport.
#[local] Existing Instance Js.ascii_case.

(** Bob asks for MATH101 before anybody has opened it. *)
Lemma C7_student_join_unknown_room_witness :
  Simple.on_join_student Simple.init "s1" Examples.bob 5
  = (Simple.init, [ToSocket "s1" (Simple.JoinAttemptReceived 5);
                   ToSocket "s1" (Simple.RoomError ROOM_NOT_FOUND)])
  ∧ Robust.on_join_student Robust.init "s1" Examples.r_bob 5
    = (Robust.init, [ToSocket "s1" (Robust.RoomError ROOM_NOT_FOUND)]).
Proof.
  split.
  - apply (proj1 (@C7_student_join_unknown_room ascii_case)
             Simple.init "s1" "Bob" "MATH101").
    + simpl. lia.
    + done.
    + reflexivity.
  - apply (proj2 (@C7_student_join_unknown_room ascii_case)
             Robust.init "s1" "Bob" "MATH101").
    + simpl. lia.
    + reflexivity.
    + reflexivity.
Defined.

End JoinValidationExamples.

Section RoomKeyFormat.
Import Js Transport.
Context {U : UpperCasing}.

(** What [validateRoomKey] accepts: a non-empty string whose trimmed and
    upper-cased form has 3 to 20 characters, all of them in [A-Z0-9]. *)
Lemma validateRoomKey_spec key :
  Robust.validateRoomKey (Str key) = true
  ↔ key ≠ EmptyString
    ∧ 3 ≤ String.length (toUpperCase (trim key)) ≤ 20
    ∧ all_chars is_upper_alnum (toUpperCase (trim key)) = true.
Proof.
  unfold Robust.validateRoomKey, matches_upper_alnum.
  destruct (is_empty key) eqn:Hempty.
  { destruct key; [|done]. split; [done|]. by intros [? _]. }
  rewrite is_empty_length.
  rewrite !andb_true_iff, !Nat.leb_le, negb_true_iff, Nat.eqb_neq.
  split.
  - intros [[H3 H20] [_ Hall]]. split; [by intros ->|]. by split.
  - intros (_ & [H3 H20] & Hall). split; [done|]. split; [lia|done].
Qed.

(** For a key of ASCII characters upper-casing keeps the length and turns
    the test for [A-Z0-9] into a test for letters and digits. *)
Lemma validateRoomKey_ascii key :
  upper_on_ascii →
  is_ascii key = true →
  String.length (toUpperCase (trim key)) = String.length (trim key)
  ∧ (Robust.validateRoomKey (Str key) = true
     ↔ 3 ≤ String.length (trim key) ≤ 20
       ∧ all_chars is_alnum (trim key) = true).
Proof.
  intros Hascii Hkey.
  pose proof (Hascii (trim key) (is_ascii_trim key Hkey)) as Hupper.
  split; [by rewrite Hupper, asciiUpperCase_length|].
  rewrite validateRoomKey_spec, Hupper, asciiUpperCase_length,
    all_upper_alnum_asciiUpperCase.
  split; [tauto|]. intros [Hlen Hall]. split; [|done].
  intros ->. simpl in Hlen. lia.
Qed.

Lemma simple_student_join_no_key_error st sid data now :
  ToSocket sid (Simple.RoomError INVALID_ROOM_KEY)
  ∉ (Simple.on_join_student st sid data now).2.
Proof.
  unfold Simple.on_join_student.
  repeat match goal with
  | |- context [match ?x with _ => _ end] => destruct x eqn:?
  end; simpl; unfold Simple.replay;
  try (destruct (Simple.history _)); set_solver.
Qed.

Lemma simple_professor_join_length_only st sid name key flag now :
  3 ≤ String.length (toUpperCase (trim key)) ≤ 20 →
  ToSocket sid (Simple.RoomError INVALID_ROOM_KEY)
  ∉ (Simple.on_join_professor st sid
       {| Simple.pj_professorName := name; Simple.pj_roomKey := Str key;
          Simple.pj_createIfNotExists := flag |} now).2.
Proof.
  intros [H3 H20]. unfold Simple.on_join_professor.
  cbn [Simple.pj_professorName Simple.pj_roomKey Simple.pj_createIfNotExists].
  assert ((String.length (toUpperCase (trim key)) <? 3)
          || (20 <? String.length (toUpperCase (trim key)))
          = false) as ->.
  { apply orb_false_iff. split; apply Nat.ltb_ge; lia. }
  repeat match goal with
  | |- context [match ?x with _ => _ end] => destruct x eqn:?
  end;
  repeat match goal with
  | H : context [match ?x with _ => _ end] |- _ => destruct x eqn:?
  end; simplify_eq; simpl; unfold Simple.replay;
  try (destruct (Simple.history _)); set_solver.
Qed.

(** C8, amended.  On the multi-professor server a join with an acceptable
    name is answered with INVALID_ROOM_KEY, the state untouched, whenever
    [validateRoomKey] refuses the key (for the professor: the key that was
    supplied).  The key is accepted exactly when it is a non-empty string
    whose trimmed and upper-cased form has 3 to 20 characters, all of them in
    [A-Z0-9]; nothing but a string is accepted.  For a key of ASCII
    characters, whose upper-casing keeps the length, that is: the trimmed key
    has 3 to 20 characters, all of them letters or digits.  On the
    single-professor server the professor join sends INVALID_ROOM_KEY, the
    state untouched, when the trimmed and upper-cased key has fewer than 3 or
    more than 20 characters, and never for a key of 3 to 20 characters; the
    student join never sends it. *)
Theorem C8_invalid_room_key_rejected :
  (∀ (st : Robust.State) sid data now gen,
     Robust.name_refused (Robust.pj_professorName data) = Some false →
     truthy (Robust.pj_roomKey data) = true →
     Robust.validateRoomKey (Robust.pj_roomKey data) = false →
     Robust.on_join_professor st sid data now gen
     = (st, [ToSocket sid (Robust.RoomError INVALID_ROOM_KEY)]))
  ∧ (∀ (st : Robust.State) sid data now,
       Robust.name_refused (Robust.sj_studentName data) = Some false →
       Robust.validateRoomKey (Robust.sj_roomKey data) = false →
       Robust.on_join_student st sid data now
       = (st, [ToSocket sid (Robust.RoomError INVALID_ROOM_KEY)]))
  ∧ (∀ key,
       Robust.validateRoomKey (Str key) = true
       ↔ key ≠ EmptyString
         ∧ 3 ≤ String.length (toUpperCase (trim key)) ≤ 20
         ∧ all_chars is_upper_alnum (toUpperCase (trim key)) = true)
  ∧ (∀ v, (∀ key, v ≠ Str key) → Robust.validateRoomKey v = false)
  ∧ (upper_on_ascii →
     ∀ key,
       is_ascii key = true →
       String.length (toUpperCase (trim key)) = String.length (trim key)
       ∧ (Robust.validateRoomKey (Str key) = true
          ↔ 3 ≤ String.length (trim key) ≤ 20
            ∧ all_chars is_alnum (trim key) = true))
  ∧ (∀ (st : Simple.State) sid name key flag now,
       1 ≤ String.length (trim name) ≤ 50 →
       key ≠ EmptyString →
       ¬ 3 ≤ String.length (toUpperCase (trim key)) ≤ 20 →
       Simple.on_join_professor st sid
         {| Simple.pj_professorName := Str name; Simple.pj_roomKey := Str key;
            Simple.pj_createIfNotExists := flag |} now
       = (st, [ToSocket sid (Simple.JoinAttemptReceived now);
               ToSocket sid (Simple.RoomError INVALID_ROOM_KEY)]))
  ∧ (∀ (st : Simple.State) sid name key flag now,
       3 ≤ String.length (toUpperCase (trim key)) ≤ 20 →
       ToSocket sid (Simple.RoomError INVALID_ROOM_KEY)
       ∉ (Simple.on_join_professor st sid
            {| Simple.pj_professorName := name; Simple.pj_roomKey := Str key;
               Simple.pj_createIfNotExists := flag |} now).2)
  ∧ (∀ (st : Simple.State) sid data now,
       ToSocket sid (Simple.RoomError INVALID_ROOM_KEY)
       ∉ (Simple.on_join_student st sid data now).2).
Proof.
  split; [|split; [|split; [|split; [|split; [|split; [|split]]]]]].
  - intros st sid data now gen Hname Hgiven Hbad.
    unfold Robust.on_join_professor. rewrite Hname, Hgiven.
    cbn [negb andb]. by rewrite Hbad.
  - intros st sid data now Hname Hbad.
    unfold Robust.on_join_student. by rewrite Hname, Hbad.
  - apply validateRoomKey_spec.
  - intros v Hv. destruct v; try done. by destruct (Hv s).
  - intros Hascii key Hkey. by apply validateRoomKey_ascii.
  - intros st sid name key flag now Hname Hkey Hlen.
    unfold Simple.on_join_professor.
    cbn [Simple.pj_professorName Simple.pj_roomKey].
    rewrite (valid_name_truthy name) by lia.
    assert (truthy (Str key) = true) as -> by (by destruct key).
    cbn [negb orb]. rewrite (simple_valid_name_passes _ Hname).
    assert ((String.length (toUpperCase (trim key)) <? 3)
            || (20 <? String.length (toUpperCase (trim key)))
            = true) as ->; [|done].
    apply orb_true_iff. rewrite !Nat.ltb_lt. lia.
  - apply simple_professor_join_length_only.
  - apply simple_student_join_no_key_error.
Qed.

End RoomKeyFormat.

Section RoomKeyFormatExamples.
Import Js Transport.
#[local] Existing Instance Js.ascii_case.

(** C8, as it stands, fails on the single-professor server: its professor
    join only measures the key.  Ann opens a room under the key ab-cd; the
    room AB-CD is created and no INVALID_ROOM_KEY is sent, although the key
    holds a dash; Bob then joins it as a student. *)
Lemma C8_single_professor_accepts_dash :
  all_chars is_alnum (trim "ab-cd") = false
  ∧ is_Some (Simple.rooms
               (Simple.on_join_professor Simple.init "p1" Examples.dashed 10).1
               !! "AB-CD")
  ∧ (ToSocket "p1" (Simple.RoomError INVALID_ROOM_KEY)
     ∉ (Simple.on_join_professor Simple.init "p1" Examples.dashed 10).2)
  ∧ ToSocket "s1" (Simple.RoomJoined "AB-CD" 2 Student 20)
    ∈ (Simple.on_join_student
         (Simple.on_join_professor Simple.init "p1" Examples.dashed 10).1
         "s1" Examples.dashed_student 20).2.
Proof.
  split; [reflexivity|]. split; [by eexists|]. split.
  - apply simple_professor_join_length_only. vm_compute. lia.
  - apply elem_of_cons. right. apply elem_of_cons. by left.
Qed.

(** The key ab-cd on the multi-professor server, the key ab on the
    single-professor server, and the key Math101, which is ASCII text. *)
Lemma C8_invalid_room_key_witness :
  Robust.on_join_professor Robust.init "p1"
    {| Robust.pj_roomKey := Str "ab-cd"; Robust.pj_professorName := Str "Ann";
       Robust.pj_createIfNotExists := Bool true |} 10 "K3Y9XZ"
  = (Robust.init, [ToSocket "p1" (Robust.RoomError INVALID_ROOM_KEY)])
  ∧ Robust.on_join_student Robust.init "s1"
      {| Robust.sj_roomKey := Str "ab-cd"; Robust.sj_studentName := Str "Bob" |}
      20
    = (Robust.init, [ToSocket "s1" (Robust.RoomError INVALID_ROOM_KEY)])
  ∧ Robust.validateRoomKey (Str " Math101 ") = true
  ∧ Simple.on_join_professor Simple.init "p1"
      {| Simple.pj_professorName := Str "Ann"; Simple.pj_roomKey := Str "ab";
         Simple.pj_createIfNotExists := Bool true |} 10
    = (Simple.init, [ToSocket "p1" (Simple.JoinAttemptReceived 10);
                     ToSocket "p1" (Simple.RoomError INVALID_ROOM_KEY)]).
Proof.
  destruct (@C8_invalid_room_key_rejected ascii_case)
    as (Hprof & Hstud & _ & _ & Hascii & Hsimple & _ & _).
  split; [|split; [|split]].
  - apply Hprof; reflexivity.
  - apply Hstud; reflexivity.
  - apply (Hascii ascii_case_on_ascii " Math101 " eq_refl).
    split; [vm_compute; lia | reflexivity].
  - apply Hsimple; [simpl; lia | done | vm_compute; lia].
Defined.

End RoomKeyFormatExamples.

(** ** Room keys are case-insensitive *)

Ltac split_cases :=
  repeat match goal with
  | |- context [match ?x with _ => _ end] => destruct x eqn:?
  end;
  repeat match goal with
  | H : context [match ?x with _ => _ end] |- _ => destruct x eqn:?
  end; simplify_eq.

Ltac invert_membership H :=
  simpl in H;
  repeat first
    [ apply elem_of_nil in H; destruct H
    | apply elem_of_cons in H as [H|H]; [try discriminate H|]
    | apply elem_of_app in H as [H|H] ].

Section NormalizedKeys.
Import Js Transport.
Context {U : UpperCasing}.
Hypothesis Hidem : upper_idempotent.

Lemma keys_norm_insert {A} (m : gmap string A) k v :
  toUpperCase k = k →
  (∀ k' x, m !! k' = Some x → toUpperCase k' = k') →
  ∀ k' x, <[k := v]> m !! k' = Some x → toUpperCase k' = k'.
Proof.
  intros Hk Hm k' x. destruct (decide (k = k')) as [<-|Hne]; [done|].
  rewrite lookup_insert_ne by done. apply Hm.
Qed.

Lemma keys_norm_delete {A} (m : gmap string A) k :
  (∀ k' x, m !! k' = Some x → toUpperCase k' = k') →
  ∀ k' x, delete k m !! k' = Some x → toUpperCase k' = k'.
Proof. intros Hm k' x [_ H]%lookup_delete_Some. by eapply Hm. Qed.

Lemma simple_sessions_norm_insert (m : gmap string Simple.Session) sid s :
  toUpperCase (Simple.roomKey s) = Simple.roomKey s →
  (∀ sid' s', m !! sid' = Some s' →
     toUpperCase (Simple.roomKey s') = Simple.roomKey s') →
  ∀ sid' s', <[sid := s]> m !! sid' = Some s' →
    toUpperCase (Simple.roomKey s') = Simple.roomKey s'.
Proof.
  intros Hs Hm sid' s'. destruct (decide (sid = sid')) as [<-|Hne].
  - rewrite lookup_insert_eq. by intros [= <-].
  - rewrite lookup_insert_ne by done. apply Hm.
Qed.

Lemma simple_sessions_norm_delete (m : gmap string Simple.Session) sid :
  (∀ sid' s', m !! sid' = Some s' →
     toUpperCase (Simple.roomKey s') = Simple.roomKey s') →
  ∀ sid' s', delete sid m !! sid' = Some s' →
    toUpperCase (Simple.roomKey s') = Simple.roomKey s'.
Proof. intros Hm sid' s' [_ H]%lookup_delete_Some. by eapply Hm. Qed.

Lemma simple_normalized_handle st i :
  SimpleInv.normalized st → SimpleInv.normalized (Simple.handle st i).1.
Proof.
  intros [Hrooms Hsess].
  assert (Hkey : ∀ sid s, Simple.userSessions st !! sid = Some s →
                          toUpperCase (Simple.roomKey s) = Simple.roomKey s)
    by exact Hsess.
  destruct i as [sid data now|sid data now|sid data now|sid now|sid now];
    simpl;
    [ unfold Simple.on_join_professor | unfold Simple.on_join_student
    | unfold Simple.on_draw_command | unfold Simple.on_clear_canvas
    | unfold Simple.on_disconnect ];
    repeat match goal with
    | |- context [match ?x with _ => _ end] => destruct x eqn:?
    end; try (by split); split; simpl;
    repeat first
      [ apply keys_norm_insert | apply keys_norm_delete
      | apply simple_sessions_norm_insert | apply simple_sessions_norm_delete
      | apply Hidem | by eauto ].
Qed.

Lemma simple_normalized_run trace : SimpleInv.normalized (Simple.run trace).
Proof.
  unfold Simple.run.
  assert (Hinit : SimpleInv.normalized Simple.init)
    by (split; intros ? ? H; cbn in H; by rewrite lookup_empty in H).
  revert Hinit. generalize Simple.init.
  induction trace as [|i trace IH]; intros st Hst; [done|].
  apply IH. by apply simple_normalized_handle.
Qed.

Lemma robust_sessions_norm_insert (m : gmap string Robust.Session) sid s :
  toUpperCase (Robust.roomKey s) = Robust.roomKey s →
  (∀ sid' s', m !! sid' = Some s' →
     toUpperCase (Robust.roomKey s') = Robust.roomKey s') →
  ∀ sid' s', <[sid := s]> m !! sid' = Some s' →
    toUpperCase (Robust.roomKey s') = Robust.roomKey s'.
Proof.
  intros Hs Hm sid' s'. destruct (decide (sid = sid')) as [<-|Hne].
  - rewrite lookup_insert_eq. by intros [= <-].
  - rewrite lookup_insert_ne by done. apply Hm.
Qed.

Lemma robust_sessions_norm_delete (m : gmap string Robust.Session) sid :
  (∀ sid' s', m !! sid' = Some s' →
     toUpperCase (Robust.roomKey s') = Robust.roomKey s') →
  ∀ sid' s', delete sid m !! sid' = Some s' →
    toUpperCase (Robust.roomKey s') = Robust.roomKey s'.
Proof. intros Hm sid' s' [_ H]%lookup_delete_Some. by eapply Hm. Qed.

Lemma keys_norm_createRoom rms key info now :
  (∀ k' x, rms !! k' = Some x → toUpperCase k' = k') →
  ∀ k' x, Robust.createRoom rms key info now !! k' = Some x →
    toUpperCase k' = k'.
Proof.
  intros Hm. unfold Robust.createRoom.
  apply keys_norm_insert; [apply Hidem|done].
Qed.

Lemma keys_norm_deletion_check rms key :
  (∀ k' x, rms !! k' = Some x → toUpperCase k' = k') →
  ∀ k' x, Robust.deletion_check rms key !! k' = Some x → toUpperCase k' = k'.
Proof.
  intros Hm. unfold Robust.deletion_check.
  destruct (rms !! key); [|done]. destruct (_ && _); [|done].
  by apply keys_norm_delete.
Qed.

Lemma robust_normalized_handle st i :
  RobustInv.normalized st → RobustInv.normalized (Robust.handle st i).1.
Proof.
  intros [Hrooms Hsess].
  assert (Hkey : ∀ sid s, Robust.userSessions st !! sid = Some s →
                          toUpperCase (Robust.roomKey s) = Robust.roomKey s)
    by exact Hsess.
  destruct i as [sid data now gen|sid data now|sid command now|sid now|sid now
                |key|now];
    simpl;
    [ unfold Robust.on_join_professor | unfold Robust.on_join_student
    | unfold Robust.on_draw_command | unfold Robust.on_clear_canvas
    | unfold Robust.on_disconnect | unfold Robust.on_timer
    | unfold Robust.on_sweep ];
    repeat match goal with
    | |- context [match ?x with _ => _ end] => destruct x eqn:?
    end;
    repeat match goal with
    | H : context [match ?x with _ => _ end] |- _ => destruct x eqn:?
    end; simplify_eq; try (by split); split; simpl;
    repeat first
      [ apply keys_norm_insert | apply keys_norm_delete
      | apply keys_norm_createRoom | apply keys_norm_deletion_check
      | apply robust_sessions_norm_insert | apply robust_sessions_norm_delete
      | apply Hidem | by eauto
      | by (intros k' x [H _]%map_lookup_filter_Some; eauto) ].
Qed.

Lemma robust_normalized_run trace : RobustInv.normalized (Robust.run trace).
Proof.
  unfold Robust.run.
  assert (Hinit : RobustInv.normalized Robust.init)
    by (split; intros ? ? H; cbn in H; by rewrite lookup_empty in H).
  revert Hinit. generalize Robust.init.
  induction trace as [|i trace IH]; intros st Hst; [done|].
  apply IH. by apply robust_normalized_handle.
Qed.

End NormalizedKeys.

Section CaseInsensitiveKeys.
Import Js Ordered Transport.
Context {U : UpperCasing}.

Lemma validateRoomKey_upper k1 k2 :
  upper_trim → upper_empty →
  toUpperCase k1 = toUpperCase k2 →
  Robust.validateRoomKey (Str k1) = Robust.validateRoomKey (Str k2).
Proof.
  intros Ht He H. unfold Robust.validateRoomKey.
  by rewrite (toUpperCase_eq_is_empty _ _ He H), (toUpperCase_eq_trim _ _ Ht H).
Qed.

Lemma truthy_upper k1 k2 :
  upper_empty →
  toUpperCase k1 = toUpperCase k2 → truthy (Str k1) = truthy (Str k2).
Proof. intros He H. simpl. by rewrite (toUpperCase_eq_is_empty _ _ He H). Qed.

(** The room a join answers for is the one stored under the upper-cased
    key. *)
Lemma simple_join_professor_key st sid data now B r :
  SimpleInv.joined (Simple.on_join_professor st sid data now).2 sid B r →
  ∃ key, Simple.pj_roomKey data = Str key ∧ B = toUpperCase (trim key).
Proof.
  intros (count & time & Hin). revert Hin. unfold Simple.on_join_professor.
  split_cases; intros Hin; unfold Simple.replay in Hin;
    try (destruct (Simple.history _)); invert_membership Hin;
    simplify_eq; by eexists.
Qed.

Lemma simple_join_student_key st sid data now B r :
  SimpleInv.joined (Simple.on_join_student st sid data now).2 sid B r →
  ∃ key, Simple.sj_roomKey data = Str key ∧ B = toUpperCase (trim key).
Proof.
  intros (count & time & Hin). revert Hin. unfold Simple.on_join_student.
  split_cases; intros Hin; unfold Simple.replay in Hin;
    try (destruct (Simple.history _)); invert_membership Hin;
    simplify_eq; by eexists.
Qed.

Lemma robust_join_professor_key st sid data now gen B r :
  RobustInv.joined (Robust.on_join_professor st sid data now gen).2 sid B r →
  B = RobustInv.requested_key data gen.
Proof.
  intros (userName & count & profs & studs & Hin). revert Hin.
  unfold Robust.on_join_professor, RobustInv.requested_key.
  set (k := toUpperCase (str_of _)).
  split_cases; intros Hin; unfold Robust.replay in Hin;
    try (destruct (Robust.commands _)); invert_membership Hin;
    by simplify_eq.
Qed.

Lemma robust_join_student_key st sid data now B r :
  RobustInv.joined (Robust.on_join_student st sid data now).2 sid B r →
  ∃ key, Robust.sj_roomKey data = Str key ∧ B = toUpperCase key.
Proof.
  intros (userName & count & profs & studs & Hin). revert Hin.
  unfold Robust.on_join_student, Robust.validateRoomKey.
  destruct (Robust.sj_roomKey data) as [| | | |key| |];
    try (destruct (Robust.name_refused _) as [[]|]; simpl;
         intros Hin; invert_membership Hin; done).
  set (k := toUpperCase (str_of _)).
  split_cases; intros Hin; unfold Robust.replay in Hin;
    try (destruct (Robust.commands _)); invert_membership Hin;
    simplify_eq; by eexists.
Qed.

(** A student who asks for a room that is there and has a seat left enters
    the room stored under the upper-cased key. *)
Lemma simple_join_student_existing st sid name key now room0 :
  1 ≤ String.length (trim name) ≤ 50 →
  key ≠ EmptyString →
  Simple.rooms st !! toUpperCase (trim key) = Some room0 →
  Simple.userCount room0 < 100 →
  let K := toUpperCase (trim key) in
  let st' :=
    (Simple.on_join_student st sid
       {| Simple.sj_studentName := Str name; Simple.sj_roomKey := Str key |}
       now).1 in
  ∃ room' s',
    Simple.rooms st' !! K = Some room'
    ∧ sid ∈ Simple.students room'
    ∧ Simple.history room' = Simple.history room0
    ∧ Simple.userSessions st' !! sid = Some s'
    ∧ Simple.roomKey s' = K ∧ Simple.role s' = Student.
Proof.
  intros Hname Hkey Hroom0 Hseat K st'. subst K st'.
  unfold Simple.on_join_student.
  cbn [Simple.sj_studentName Simple.sj_roomKey].
  rewrite (valid_name_truthy name) by lia.
  assert (truthy (Str key) = true) as -> by (by destruct key).
  cbn [negb orb]. rewrite (simple_valid_name_passes _ Hname).
  rewrite Hroom0.
  destruct (100 <=? Simple.userCount room0) eqn:Hfull.
  { apply Nat.leb_le in Hfull. lia. }
  cbn [fst Simple.rooms Simple.userSessions].
  eexists _, _. split; [apply lookup_insert_eq|].
  split; [apply elem_of_set_add; by left|]. split; [done|].
  split; [apply lookup_insert_eq|]. by split.
Qed.

Lemma simple_join_professor_existing st sid name key flag now room0 :
  1 ≤ String.length (trim name) ≤ 50 →
  key ≠ EmptyString →
  3 ≤ String.length (toUpperCase (trim key)) ≤ 20 →
  Simple.rooms st !! toUpperCase (trim key) = Some room0 →
  Simple.professor room0 = None →
  let K := toUpperCase (trim key) in
  let st' :=
    (Simple.on_join_professor st sid
       {| Simple.pj_professorName := Str name; Simple.pj_roomKey := Str key;
          Simple.pj_createIfNotExists := flag |} now).1 in
  ∃ room' s',
    Simple.rooms st' !! K = Some room'
    ∧ Simple.professor room' = Some sid
    ∧ Simple.history room' = Simple.history room0
    ∧ Simple.userSessions st' !! sid = Some s'
    ∧ Simple.roomKey s' = K ∧ Simple.role s' = Professor.
Proof.
  intros Hname Hkey [H3 H20] Hroom0 Hprof K st'. subst K st'.
  unfold Simple.on_join_professor.
  cbn [Simple.pj_professorName Simple.pj_roomKey Simple.pj_createIfNotExists].
  rewrite (valid_name_truthy name) by lia.
  assert (truthy (Str key) = true) as -> by (by destruct key).
  cbn [negb orb]. rewrite (simple_valid_name_passes _ Hname).
  assert ((String.length (toUpperCase (trim key)) <? 3)
          || (20 <? String.length (toUpperCase (trim key))) = false) as ->.
  { apply orb_false_iff. split; apply Nat.ltb_ge; lia. }
  rewrite Hroom0, Hprof.
  cbn [fst Simple.rooms Simple.userSessions].
  eexists _, _. split; [apply lookup_insert_eq|].
  split; [done|]. split; [done|].
  split; [apply lookup_insert_eq|]. by split.
Qed.

Lemma robust_join_student_existing st sid name key now room0 :
  Robust.name_refused (Str name) = Some false →
  Robust.validateRoomKey (Str key) = true →
  Robust.rooms st !! toUpperCase key = Some room0 →
  Robust.professors room0 ≠ [] →
  length (Robust.students room0) < 100 →
  let K := toUpperCase key in
  let st' :=
    (Robust.on_join_student st sid
       {| Robust.sj_roomKey := Str key; Robust.sj_studentName := Str name |}
       now).1 in
  ∃ room' s',
    Robust.rooms st' !! K = Some room'
    ∧ map_has sid (Robust.students room')
    ∧ Robust.commands room' = Robust.commands room0
    ∧ Robust.userSessions st' !! sid = Some s'
    ∧ Robust.roomKey s' = K ∧ Robust.role s' = Student.
Proof.
  intros Hname Hkey Hroom0 Hprofs Hseat K st'. subst K st'.
  unfold Robust.on_join_student.
  cbn [Robust.sj_studentName Robust.sj_roomKey].
  rewrite Hname, Hkey. cbn [negb str_of]. rewrite Hroom0.
  destruct (length (Robust.professors room0) =? 0) eqn:Hnone.
  { apply Nat.eqb_eq in Hnone. by destruct (Robust.professors room0). }
  destruct (100 <=? length (Robust.students room0)) eqn:Hfull.
  { apply Nat.leb_le in Hfull. lia. }
  cbn [fst Robust.rooms Robust.userSessions].
  eexists _, _. split; [apply lookup_insert_eq|].
  split; [apply map_has_set; by left|]. split; [done|].
  split; [apply lookup_insert_eq|]. by split.
Qed.

Lemma robust_join_professor_enters st sid name key flag now gen room0 :
  Robust.name_refused (Str name) = Some false →
  Robust.validateRoomKey (Str key) = true →
  Robust.rooms st !! toUpperCase key = Some room0 →
  length (Robust.professors room0) < 3 →
  let K := toUpperCase key in
  let st' :=
    (Robust.on_join_professor st sid
       {| Robust.pj_roomKey := Str key; Robust.pj_professorName := Str name;
          Robust.pj_createIfNotExists := flag |} now gen).1 in
  ∃ room' s',
    Robust.rooms st' !! K = Some room'
    ∧ map_has sid (Robust.professors room')
    ∧ Robust.commands room' = Robust.commands room0
    ∧ Robust.userSessions st' !! sid = Some s'
    ∧ Robust.roomKey s' = K ∧ Robust.role s' = Professor.
Proof.
  intros Hname Hkey Hroom0 Hseat K st'. subst K st'.
  rewrite (robust_join_professor_existing st sid name key flag now gen room0)
    by done.
  cbn [fst Robust.rooms Robust.userSessions].
  eexists _, _. split; [apply lookup_insert_eq|].
  split; [apply map_has_set; by left|]. split; [done|].
  split; [apply lookup_insert_eq|]. by split.
Qed.

(** [GET /api/rooms/:roomKey] looks up the upper-cased parameter. *)
Lemma api_room_lookup st param :
  (Robust.api_room st param).1 = toUpperCase param
  ∧ ((Robust.api_room st param).2 = None
     ↔ Robust.rooms st !! toUpperCase param = None)
  ∧ (∀ room, Robust.rooms st !! toUpperCase param = Some room →
       (Robust.api_room st param).2
       = Some ({| Robust.rs_professors := length (Robust.professors room);
                  Robust.rs_students := length (Robust.students room);
                  Robust.rs_total :=
                    length (Robust.professors room)
                    + length (Robust.students room);
                  Robust.rs_exists := true |},
               length (Robust.commands room))).
Proof.
  unfold Robust.api_room, Robust.getRoomStats.
  destruct (Robust.rooms st !! toUpperCase param) as [room|] eqn:Hroom; simpl.
  - split; [done|]. split; [done|]. by intros ? [= <-].
  - split; [done|]. split; [done|]. by intros ?.
Qed.

(** The key a stored draw command is attributed to is the upper-case key of
    the sender's Session. *)
Lemma robust_draw_attribution trace sid s command now :
  upper_idempotent →
  let st := Robust.run trace in
  Robust.userSessions st !! sid = Some s →
  Robust.role s = Professor →
  Robust.valid_command command = true →
  ∃ cmd k,
    (Robust.on_draw_command st sid command now).2
    = [ToRoomExcept k sid (Robust.DrawCommandEvent cmd)]
    ∧ get_field cmd "roomKey" = Str k
    ∧ k = Robust.roomKey s
    ∧ toUpperCase k = k.
Proof.
  intros Hidem st Hs Hrole Hvalid.
  destruct (robust_professor_draw Hidem trace sid s command now Hs Hrole Hvalid)
    as (room & room' & _ & _ & _ & _ & _ & _ & _ & _ & _ & _ & _ & _ & Hsent
        & _).
  eexists _, _. split; [exact Hsent|].
  split; [apply enrich_fields|]. split; [done|].
  by apply (proj2 (robust_normalized_run Hidem trace) sid s).
Qed.

(** C9.  Two spellings of a room key that have the same upper-casing are the
    same key to the server: each of the four join handlers returns the same
    state and the same messages for both, and so does the REST lookup
    [GET /api/rooms/:roomKey].  Two ASCII spellings that differ only in the
    case of their letters, such as math101 and MATH101, have the same
    upper-casing.

    The room a join addresses is the one stored under the upper-cased key:
    whenever a join answers [room-joined], the room named in the answer is
    the upper-cased key of the payload (trimmed first on the single-professor
    server); and a join with an acceptable name for a room that is stored
    under the upper-cased key and has a seat left puts the joiner into that
    very room, history kept, and sets the joiner's Session to that key.

    The REST lookup answers for the upper-cased parameter: it finds nothing
    exactly when the registry has no room under that key, and otherwise
    reports the member counts and the number of commands of that room.

    In every reachable state the keys of the registry and the keys held by
    the Sessions are upper-case, and a draw command is attributed, in its
    [roomKey] field, to the upper-case key of the sender's Session.

    The first part relies on upper-casing commuting with [trim] and sending
    only the empty string to the empty string; the second on the built-in
    being [asciiUpperCase] on ASCII text; the last on upper-casing being
    idempotent. *)
Theorem C9_room_keys_case_insensitive :
  (upper_trim → upper_empty →
   ∀ k1 k2,
     toUpperCase k1 = toUpperCase k2 →
     (∀ st sid name flag now,
        Simple.on_join_professor st sid
          {| Simple.pj_professorName := name; Simple.pj_roomKey := Str k1;
             Simple.pj_createIfNotExists := flag |} now
        = Simple.on_join_professor st sid
            {| Simple.pj_professorName := name; Simple.pj_roomKey := Str k2;
               Simple.pj_createIfNotExists := flag |} now)
     ∧ (∀ st sid name now,
          Simple.on_join_student st sid
            {| Simple.sj_studentName := name; Simple.sj_roomKey := Str k1 |}
            now
          = Simple.on_join_student st sid
              {| Simple.sj_studentName := name; Simple.sj_roomKey := Str k2 |}
              now)
     ∧ (∀ st sid name flag now gen,
          Robust.on_join_professor st sid
            {| Robust.pj_roomKey := Str k1; Robust.pj_professorName := name;
               Robust.pj_createIfNotExists := flag |} now gen
          = Robust.on_join_professor st sid
              {| Robust.pj_roomKey := Str k2; Robust.pj_professorName := name;
                 Robust.pj_createIfNotExists := flag |} now gen)
     ∧ (∀ st sid name now,
          Robust.on_join_student st sid
            {| Robust.sj_roomKey := Str k1; Robust.sj_studentName := name |}
            now
          = Robust.on_join_student st sid
              {| Robust.sj_roomKey := Str k2; Robust.sj_studentName := name |}
              now)
     ∧ (∀ st, Robust.api_room st k1 = Robust.api_room st k2))
  ∧ (upper_on_ascii →
     ∀ k1 k2,
       is_ascii k1 = true → is_ascii k2 = true →
       asciiUpperCase k1 = asciiUpperCase k2 →
       toUpperCase k1 = toUpperCase k2)
  ∧ (∀ st sid data now B r,
       SimpleInv.joined (Simple.on_join_professor st sid data now).2 sid B r →
       ∃ key, Simple.pj_roomKey data = Str key ∧ B = toUpperCase (trim key))
  ∧ (∀ st sid data now B r,
       SimpleInv.joined (Simple.on_join_student st sid data now).2 sid B r →
       ∃ key, Simple.sj_roomKey data = Str key ∧ B = toUpperCase (trim key))
  ∧ (∀ st sid data now gen B r,
       RobustInv.joined (Robust.on_join_professor st sid data now gen).2
         sid B r →
       B = toUpperCase
             (str_of
                (if negb (truthy (Robust.pj_roomKey data))
                    && Robust.create_flag (Robust.pj_createIfNotExists data)
                 then Str gen else Robust.pj_roomKey data)))
  ∧ (∀ st sid data now B r,
       RobustInv.joined (Robust.on_join_student st sid data now).2 sid B r →
       ∃ key, Robust.sj_roomKey data = Str key ∧ B = toUpperCase key)
  ∧ (∀ (st : Simple.State) sid name key flag now room0,
       1 ≤ String.length (trim name) ≤ 50 →
       key ≠ EmptyString →
       3 ≤ String.length (toUpperCase (trim key)) ≤ 20 →
       Simple.rooms st !! toUpperCase (trim key) = Some room0 →
       Simple.professor room0 = None →
       let K := toUpperCase (trim key) in
       let st' :=
         (Simple.on_join_professor st sid
            {| Simple.pj_professorName := Str name;
               Simple.pj_roomKey := Str key;
               Simple.pj_createIfNotExists := flag |} now).1 in
       ∃ room' s',
         Simple.rooms st' !! K = Some room'
         ∧ Simple.professor room' = Some sid
         ∧ Simple.history room' = Simple.history room0
         ∧ Simple.userSessions st' !! sid = Some s'
         ∧ Simple.roomKey s' = K ∧ Simple.role s' = Professor)
  ∧ (∀ (st : Simple.State) sid name key now room0,
       1 ≤ String.length (trim name) ≤ 50 →
       key ≠ EmptyString →
       Simple.rooms st !! toUpperCase (trim key) = Some room0 →
       Simple.userCount room0 < 100 →
       let K := toUpperCase (trim key) in
       let st' :=
         (Simple.on_join_student st sid
            {| Simple.sj_studentName := Str name;
               Simple.sj_roomKey := Str key |} now).1 in
       ∃ room' s',
         Simple.rooms st' !! K = Some room'
         ∧ sid ∈ Simple.students room'
         ∧ Simple.history room' = Simple.history room0
         ∧ Simple.userSessions st' !! sid = Some s'
         ∧ Simple.roomKey s' = K ∧ Simple.role s' = Student)
  ∧ (∀ (st : Robust.State) sid name key flag now gen room0,
       Robust.name_refused (Str name) = Some false →
       Robust.validateRoomKey (Str key) = true →
       Robust.rooms st !! toUpperCase key = Some room0 →
       length (Robust.professors room0) < 3 →
       let K := toUpperCase key in
       let st' :=
         (Robust.on_join_professor st sid
            {| Robust.pj_roomKey := Str key;
               Robust.pj_professorName := Str name;
               Robust.pj_createIfNotExists := flag |} now gen).1 in
       ∃ room' s',
         Robust.rooms st' !! K = Some room'
         ∧ map_has sid (Robust.professors room')
         ∧ Robust.commands room' = Robust.commands room0
         ∧ Robust.userSessions st' !! sid = Some s'
         ∧ Robust.roomKey s' = K ∧ Robust.role s' = Professor)
  ∧ (∀ (st : Robust.State) sid name key now room0,
       Robust.name_refused (Str name) = Some false →
       Robust.validateRoomKey (Str key) = true →
       Robust.rooms st !! toUpperCase key = Some room0 →
       Robust.professors room0 ≠ [] →
       length (Robust.students room0) < 100 →
       let K := toUpperCase key in
       let st' :=
         (Robust.on_join_student st sid
            {| Robust.sj_roomKey := Str key;
               Robust.sj_studentName := Str name |} now).1 in
       ∃ room' s',
         Robust.rooms st' !! K = Some room'
         ∧ map_has sid (Robust.students room')
         ∧ Robust.commands room' = Robust.commands room0
         ∧ Robust.userSessions st' !! sid = Some s'
         ∧ Robust.roomKey s' = K ∧ Robust.role s' = Student)
  ∧ (∀ (st : Robust.State) param,
       (Robust.api_room st param).1 = toUpperCase param
       ∧ ((Robust.api_room st param).2 = None
          ↔ Robust.rooms st !! toUpperCase param = None)
       ∧ (∀ room, Robust.rooms st !! toUpperCase param = Some room →
            (Robust.api_room st param).2
            = Some ({| Robust.rs_professors :=
                         length (Robust.professors room);
                       Robust.rs_students := length (Robust.students room);
                       Robust.rs_total :=
                         length (Robust.professors room)
                         + length (Robust.students room);
                       Robust.rs_exists := true |},
                    length (Robust.commands room))))
  ∧ (upper_idempotent → ∀ trace, SimpleInv.normalized (Simple.run trace))
  ∧ (upper_idempotent → ∀ trace, RobustInv.normalized (Robust.run trace))
  ∧ (upper_idempotent →
     ∀ trace sid s command now,
       let st := Robust.run trace in
       Robust.userSessions st !! sid = Some s →
       Robust.role s = Professor →
       Robust.valid_command command = true →
       ∃ cmd k,
         (Robust.on_draw_command st sid command now).2
         = [ToRoomExcept k sid (Robust.DrawCommandEvent cmd)]
         ∧ get_field cmd "roomKey" = Str k
         ∧ k = Robust.roomKey s
         ∧ toUpperCase k = k).
Proof.
  split; [|split; [|split; [|split; [|split; [|split; [|split; [|split;
    [|split; [|split; [|split; [|split; [|split]]]]]]]]]]]].
  - intros Ht He k1 k2 H.
    pose proof (toUpperCase_eq_trim _ _ Ht H) as Htrim.
    pose proof (truthy_upper _ _ He H) as Htruthy.
    pose proof (validateRoomKey_upper _ _ Ht He H) as Hvalid.
    split; [|split; [|split; [|split]]].
    + intros. unfold Simple.on_join_professor.
      cbn [Simple.pj_professorName Simple.pj_roomKey
           Simple.pj_createIfNotExists].
      rewrite Htruthy. destruct name; try done. by rewrite Htrim.
    + intros. unfold Simple.on_join_student.
      cbn [Simple.sj_studentName Simple.sj_roomKey].
      rewrite Htruthy. destruct name; try done. by rewrite Htrim.
    + intros. unfold Robust.on_join_professor.
      cbn [Robust.pj_professorName Robust.pj_roomKey
           Robust.pj_createIfNotExists].
      rewrite Htruthy.
      destruct (negb (truthy (Str k2)) && Robust.create_flag flag); [done|].
      rewrite Hvalid. cbn [str_of]. by rewrite H.
    + intros. unfold Robust.on_join_student.
      cbn [Robust.sj_studentName Robust.sj_roomKey].
      rewrite Hvalid. cbn [str_of]. by rewrite H.
    + intros. unfold Robust.api_room. by rewrite H.
  - intros Ha k1 k2. by apply toUpperCase_ascii_fold.
  - apply simple_join_professor_key.
  - apply simple_join_student_key.
  - apply robust_join_professor_key.
  - apply robust_join_student_key.
  - apply simple_join_professor_existing.
  - apply simple_join_student_existing.
  - apply robust_join_professor_enters.
  - apply robust_join_student_existing.
  - apply api_room_lookup.
  - apply @simple_normalized_run.
  - apply @robust_normalized_run.
  - intros Hidem trace sid s command now.
    apply (robust_draw_attribution trace sid s command now Hidem).
Qed.

End CaseInsensitiveKeys.

Section CaseInsensitiveKeysExamples.
Import Js Ordered Transport.
#[local] Existing Instance Js.ascii_case.

(** math101 and MATH101: the same answers from the join handlers and from
    the REST lookup, which finds Ann's class, two users, under MATH101; and
    Cy, asking for math101, enters the room stored under MATH101. *)
Lemma C9_room_keys_witness :
  Simple.on_join_student (Simple.run Examples.simple_class) "s2"
    {| Simple.sj_studentName := Str "Cy"; Simple.sj_roomKey := Str "math101" |}
    30
  = Simple.on_join_student (Simple.run Examples.simple_class) "s2"
      {| Simple.sj_studentName := Str "Cy"; Simple.sj_roomKey := Str "MATH101" |}
      30
  ∧ Robust.on_join_professor (Robust.run Examples.robust_class) "p2"
      {| Robust.pj_roomKey := Str "math101";
         Robust.pj_professorName := Str "Dee";
         Robust.pj_createIfNotExists := Undefined |} 30 "K3Y9XZ"
    = Robust.on_join_professor (Robust.run Examples.robust_class) "p2"
        {| Robust.pj_roomKey := Str "MATH101";
           Robust.pj_professorName := Str "Dee";
           Robust.pj_createIfNotExists := Undefined |} 30 "K3Y9XZ"
  ∧ Robust.api_room (Robust.run Examples.robust_class) "math101"
    = Robust.api_room (Robust.run Examples.robust_class) "MATH101"
  ∧ (Robust.api_room (Robust.run Examples.robust_class) "math101").1
    = "MATH101"
  ∧ (∃ room' s',
       Robust.rooms
         (Robust.on_join_student (Robust.run Examples.robust_class) "s2"
            {| Robust.sj_roomKey := Str "math101";
               Robust.sj_studentName := Str "Cy" |} 30).1 !! "MATH101"
       = Some room'
       ∧ map_has "s2" (Robust.students room')
       ∧ Robust.userSessions
           (Robust.on_join_student (Robust.run Examples.robust_class) "s2"
              {| Robust.sj_roomKey := Str "math101";
                 Robust.sj_studentName := Str "Cy" |} 30).1 !! "s2"
         = Some s'
       ∧ Robust.roomKey s' = "MATH101").
Proof.
  destruct (@C9_room_keys_case_insensitive ascii_case)
    as (Hsame & Hfold & _ & _ & _ & _ & _ & _ & _ & Henter & Hrest & _).
  assert (Hupper : toUpperCase "math101" = toUpperCase "MATH101").
  { by apply (Hfold ascii_case_on_ascii). }
  destruct (Hsame ascii_case_trim ascii_case_empty "math101" "MATH101" Hupper)
    as (_ & Hstudent & Hprofessor & _ & Hlookup).
  split; [apply Hstudent|]. split; [apply Hprofessor|].
  split; [apply Hlookup|].
  split; [apply (Hrest (Robust.run Examples.robust_class) "math101")|].
  eassert (Hroom : Robust.rooms (Robust.run Examples.robust_class)
                     !! toUpperCase "math101" = Some _) by reflexivity.
  destruct (Henter (Robust.run Examples.robust_class) "s2" "Cy" "math101" 30%Z
              _ eq_refl eq_refl Hroom)
    as (room' & s' & H1 & H2 & _ & H3 & H4 & _); [done|simpl; lia|].
  exists room', s'. by repeat split.
Defined.

End CaseInsensitiveKeysExamples.

(** ** Joining a second room *)

Section SecondJoin.
Import Js Ordered Transport.
Context {U : UpperCasing}.

Lemma simple_join_professor_success st sid data now B r :
  SimpleInv.joined (Simple.on_join_professor st sid data now).2 sid B r →
  r = Professor
  ∧ ∃ room' s',
      (Simple.on_join_professor st sid data now).1
      = {| Simple.rooms := <[B := room']> (Simple.rooms st);
           Simple.userSessions := <[sid := s']> (Simple.userSessions st);
           Simple.channels := join_channel sid B (Simple.channels st) |}
      ∧ Simple.roomKey s' = B ∧ Simple.role s' = Professor
      ∧ Simple.professor room' = Some sid
      ∧ (∀ roomB, Simple.rooms st !! B = Some roomB →
           Simple.students room' = Simple.students roomB).
Proof.
  intros (count & time & Hin). revert Hin. unfold Simple.on_join_professor.
  split_cases; intros Hin; unfold Simple.replay in Hin;
    try (destruct (Simple.history _)); invert_membership Hin;
    simplify_eq; (split; [done|]); eexists _, _; simpl;
    repeat split; try done; intros roomB HB; by simplify_eq.
Qed.

Lemma simple_join_student_success st sid data now B r :
  SimpleInv.joined (Simple.on_join_student st sid data now).2 sid B r →
  r = Student
  ∧ ∃ room' s' roomB,
      (Simple.on_join_student st sid data now).1
      = {| Simple.rooms := <[B := room']> (Simple.rooms st);
           Simple.userSessions := <[sid := s']> (Simple.userSessions st);
           Simple.channels := join_channel sid B (Simple.channels st) |}
      ∧ Simple.roomKey s' = B ∧ Simple.role s' = Student
      ∧ Simple.rooms st !! B = Some roomB
      ∧ Simple.professor room' = Simple.professor roomB
      ∧ Simple.students room' = set_add sid (Simple.students roomB).
Proof.
  intros (count & time & Hin). revert Hin. unfold Simple.on_join_student.
  split_cases; intros Hin; unfold Simple.replay in Hin;
    try (destruct (Simple.history _)); invert_membership Hin;
    simplify_eq; (split; [done|]); eexists _, _, _; simpl;
    (split; [reflexivity|]); (split; [reflexivity|]);
    (split; [reflexivity|]); (split; [eassumption|]); split; reflexivity.
Qed.

Lemma robust_join_professor_success st sid data now gen B r :
  RobustInv.joined (Robust.on_join_professor st sid data now gen).2 sid B r →
  let member :=
    {| Robust.m_name := trim (str_of (Robust.pj_professorName data));
       Robust.m_socketId := sid; Robust.m_joinedAt := now;
       Robust.m_role := Professor |} in
  r = Professor
  ∧ ∃ room' s',
      (Robust.on_join_professor st sid data now gen).1
      = {| Robust.rooms := <[B := room']> (Robust.rooms st);
           Robust.userSessions := <[sid := s']> (Robust.userSessions st);
           Robust.channels := join_channel sid B (Robust.channels st);
           Robust.timers := Robust.timers st |}
      ∧ Robust.roomKey s' = B ∧ Robust.role s' = Professor
      ∧ (∀ roomB, Robust.rooms st !! B = Some roomB →
           Robust.professors room'
           = map_set sid member (Robust.professors roomB)
           ∧ Robust.students room' = Robust.students roomB).
Proof.
  intros (userName & count & profs & studs & Hin) member. revert Hin.
  subst member. unfold Robust.on_join_professor.
  set (k := toUpperCase (str_of _)).
  destruct (Robust.rooms st !! k) as [room0|] eqn:Hroom0.
  - split_cases; intros Hin; unfold Robust.replay in Hin;
      try (destruct (Robust.commands _)); invert_membership Hin;
      simplify_eq; (split; [done|]); eexists _, _; simpl;
      (split; [done|]); repeat split; try done;
      intros; simpl in *; simplify_eq; reflexivity.
  - unfold Robust.createRoom.
    destruct (decide (toUpperCase k = k)) as [Hk|Hk].
    + rewrite Hk.
      split_cases; try rewrite lookup_insert_eq in *; simplify_eq;
        intros Hin; unfold Robust.replay in Hin; simpl in Hin;
        invert_membership Hin; simplify_eq; (split; [done|]);
        eexists _, _; simpl; rewrite insert_insert_eq;
        (split; [done|]); repeat split; try done;
        intros; simpl in *; simplify_eq; reflexivity.
    + cbv zeta. destruct (Robust.create_flag _).
      * rewrite lookup_insert_ne, Hroom0 by done.
        split_cases; intros Hin; invert_membership Hin.
      * split_cases; intros Hin; invert_membership Hin.
Qed.

Lemma robust_join_student_success st sid data now B r :
  RobustInv.joined (Robust.on_join_student st sid data now).2 sid B r →
  let member :=
    {| Robust.m_name := trim (str_of (Robust.sj_studentName data));
       Robust.m_socketId := sid; Robust.m_joinedAt := now;
       Robust.m_role := Student |} in
  r = Student
  ∧ ∃ room' s' roomB,
      (Robust.on_join_student st sid data now).1
      = {| Robust.rooms := <[B := room']> (Robust.rooms st);
           Robust.userSessions := <[sid := s']> (Robust.userSessions st);
           Robust.channels := join_channel sid B (Robust.channels st);
           Robust.timers := Robust.timers st |}
      ∧ Robust.roomKey s' = B ∧ Robust.role s' = Student
      ∧ Robust.rooms st !! B = Some roomB
      ∧ Robust.professors room' = Robust.professors roomB
      ∧ Robust.students room' = map_set sid member (Robust.students roomB).
Proof.
  intros (userName & count & profs & studs & Hin) member. revert Hin.
  subst member. unfold Robust.on_join_student.
  split_cases; intros Hin; unfold Robust.replay in Hin;
    try (destruct (Robust.commands _)); invert_membership Hin;
    simplify_eq; (split; [done|]); eexists _, _, _; simpl;
    (split; [reflexivity|]); (split; [reflexivity|]);
    (split; [reflexivity|]); (split; [eassumption|]); split; reflexivity.
Qed.

End SecondJoin.

Section SecondJoinClaims.
Import Js Ordered Transport.
Context {U : UpperCasing}.

Lemma map_has_set_mono {V} (x sid : string) (v : V) m :
  map_has x m → map_has x (map_set sid v m).
Proof. intros H. apply map_has_set. by right. Qed.

(** C10.  When a join succeeds (the handler answers [room-joined] for room
    [B]), the joiner's Session is the new one, whatever Session the
    connection held before; every other room [A] of the registry is left
    exactly as it was, member lists and counters included, and no room loses
    the joiner from its professor slot or its student list.  So a connection
    that was in room [A] stays listed there.  Both join handlers of both
    servers. *)
Theorem C10_second_join_keeps_old_membership :
  (∀ (st : Simple.State) sid data now B r,
     SimpleInv.joined (Simple.on_join_professor st sid data now).2 sid B r →
     let st' := (Simple.on_join_professor st sid data now).1 in
     (∃ s', Simple.userSessions st' !! sid = Some s'
            ∧ Simple.roomKey s' = B ∧ Simple.role s' = r ∧ r = Professor)
     ∧ (∀ A, A ≠ B → Simple.rooms st' !! A = Simple.rooms st !! A)
     ∧ (∀ A roomA, Simple.rooms st !! A = Some roomA →
          ∃ roomA', Simple.rooms st' !! A = Some roomA'
            ∧ (Simple.professor roomA = Some sid →
               Simple.professor roomA' = Some sid)
            ∧ (sid ∈ Simple.students roomA → sid ∈ Simple.students roomA')))
  ∧ (∀ (st : Simple.State) sid data now B r,
       SimpleInv.joined (Simple.on_join_student st sid data now).2 sid B r →
       let st' := (Simple.on_join_student st sid data now).1 in
       (∃ s', Simple.userSessions st' !! sid = Some s'
              ∧ Simple.roomKey s' = B ∧ Simple.role s' = r ∧ r = Student)
       ∧ (∀ A, A ≠ B → Simple.rooms st' !! A = Simple.rooms st !! A)
       ∧ (∀ A roomA, Simple.rooms st !! A = Some roomA →
            ∃ roomA', Simple.rooms st' !! A = Some roomA'
              ∧ (Simple.professor roomA = Some sid →
                 Simple.professor roomA' = Some sid)
              ∧ (sid ∈ Simple.students roomA →
                 sid ∈ Simple.students roomA')))
  ∧ (∀ (st : Robust.State) sid data now gen B r,
       RobustInv.joined (Robust.on_join_professor st sid data now gen).2
         sid B r →
       let st' := (Robust.on_join_professor st sid data now gen).1 in
       (∃ s', Robust.userSessions st' !! sid = Some s'
              ∧ Robust.roomKey s' = B ∧ Robust.role s' = r ∧ r = Professor)
       ∧ (∀ A, A ≠ B → Robust.rooms st' !! A = Robust.rooms st !! A)
       ∧ (∀ A roomA, Robust.rooms st !! A = Some roomA →
            ∃ roomA', Robust.rooms st' !! A = Some roomA'
              ∧ (map_has sid (Robust.professors roomA) →
                 map_has sid (Robust.professors roomA'))
              ∧ (map_has sid (Robust.students roomA) →
                 map_has sid (Robust.students roomA'))))
  ∧ (∀ (st : Robust.State) sid data now B r,
       RobustInv.joined (Robust.on_join_student st sid data now).2 sid B r →
       let st' := (Robust.on_join_student st sid data now).1 in
       (∃ s', Robust.userSessions st' !! sid = Some s'
              ∧ Robust.roomKey s' = B ∧ Robust.role s' = r ∧ r = Student)
       ∧ (∀ A, A ≠ B → Robust.rooms st' !! A = Robust.rooms st !! A)
       ∧ (∀ A roomA, Robust.rooms st !! A = Some roomA →
            ∃ roomA', Robust.rooms st' !! A = Some roomA'
              ∧ (map_has sid (Robust.professors roomA) →
                 map_has sid (Robust.professors roomA'))
              ∧ (map_has sid (Robust.students roomA) →
                 map_has sid (Robust.students roomA')))).
Proof.
  split; [|split; [|split]].
  - intros st sid data now B r Hjoined st'. subst st'.
    destruct (simple_join_professor_success _ _ _ _ _ _ Hjoined)
      as (-> & room' & s' & -> & Hkey & Hrole & Hprof & Hstud).
    simpl. split; [|split].
    + exists s'. by rewrite lookup_insert_eq.
    + intros A HA. by rewrite lookup_insert_ne.
    + intros A roomA HA. destruct (decide (B = A)) as [->|Hne].
      * exists room'. rewrite lookup_insert_eq. split; [done|].
        split; [done|]. by rewrite (Hstud _ HA).
      * exists roomA. by rewrite lookup_insert_ne.
  - intros st sid data now B r Hjoined st'. subst st'.
    destruct (simple_join_student_success _ _ _ _ _ _ Hjoined)
      as (-> & room' & s' & roomB & -> & Hkey & Hrole & HB & Hprof & Hstud).
    simpl. split; [|split].
    + exists s'. by rewrite lookup_insert_eq.
    + intros A HA. by rewrite lookup_insert_ne.
    + intros A roomA HA. destruct (decide (B = A)) as [->|Hne].
      * exists room'. rewrite lookup_insert_eq. split; [done|].
        rewrite HA in HB. injection HB as <-. rewrite Hprof, Hstud.
        split; [done|]. intros Hin. apply elem_of_set_add. by right.
      * exists roomA. by rewrite lookup_insert_ne.
  - intros st sid data now gen B r Hjoined st'. subst st'.
    destruct (robust_join_professor_success _ _ _ _ _ _ _ Hjoined)
      as (-> & room' & s' & -> & Hkey & Hrole & Hmembers).
    simpl. split; [|split].
    + exists s'. by rewrite lookup_insert_eq.
    + intros A HA. by rewrite lookup_insert_ne.
    + intros A roomA HA. destruct (decide (B = A)) as [->|Hne].
      * exists room'. rewrite lookup_insert_eq. split; [done|].
        destruct (Hmembers _ HA) as [-> ->].
        split; [apply map_has_set_mono|done].
      * exists roomA. by rewrite lookup_insert_ne.
  - intros st sid data now B r Hjoined st'. subst st'.
    destruct (robust_join_student_success _ _ _ _ _ _ Hjoined)
      as (-> & room' & s' & roomB & -> & Hkey & Hrole & HB & Hprof & Hstud).
    simpl. split; [|split].
    + exists s'. by rewrite lookup_insert_eq.
    + intros A HA. by rewrite lookup_insert_ne.
    + intros A roomA HA. destruct (decide (B = A)) as [->|Hne].
      * exists room'. rewrite lookup_insert_eq. split; [done|].
        rewrite HA in HB. injection HB as <-. rewrite Hprof, Hstud.
        split; [done|apply map_has_set_mono].
      * exists roomA. by rewrite lookup_insert_ne.
Qed.

End SecondJoinClaims.

Section SecondJoinExamples.
Import Js Ordered Transport.
#[local] Existing Instance Js.ascii_case.

(** Ann, professor of MATH101 with Bob in it, opens PHYS202 from the same
    connection: her Session now names PHYS202, and MATH101 is untouched, Ann
    still in its professor slot (single-professor server) or professor map
    (multi-professor server). *)
Lemma C10_second_join_witness :
  (let st := Simple.run Examples.simple_class in
   let st' := (Simple.on_join_professor st "p1" Examples.phys 30).1 in
   (∃ s', Simple.userSessions st' !! "p1" = Some s'
          ∧ Simple.roomKey s' = "PHYS202")
   ∧ Simple.rooms st' !! "MATH101" = Simple.rooms st !! "MATH101"
   ∧ ∃ room, Simple.rooms st' !! "MATH101" = Some room
             ∧ Simple.professor room = Some "p1"
             ∧ Simple.userCount room = 2)
  ∧ (let st := Robust.run Examples.robust_class in
     let st' := (Robust.on_join_professor st "p1" Examples.r_phys 30
                   "K3Y9XZ").1 in
     (∃ s', Robust.userSessions st' !! "p1" = Some s'
            ∧ Robust.roomKey s' = "PHYS202")
     ∧ Robust.rooms st' !! "MATH101" = Robust.rooms st !! "MATH101"
     ∧ ∃ room, Robust.rooms st' !! "MATH101" = Some room
               ∧ map_has "p1" (Robust.professors room)).
Proof.
  destruct (@C10_second_join_keeps_old_membership ascii_case)
    as (Hsp & _ & Hrp & _).
  split.
  - destruct (Hsp (Simple.run Examples.simple_class) "p1" Examples.phys 30%Z
                "PHYS202" Professor) as ((s' & Hs' & Hkey & _) & Hframe & _).
    { exists 1, 30%Z. apply elem_of_cons. right. apply elem_of_cons. by left. }
    split; [by exists s'|]. split; [by apply Hframe|].
    rewrite Hframe by done. eexists. split; [reflexivity|]. by split.
  - destruct (Hrp (Robust.run Examples.robust_class) "p1" Examples.r_phys 30%Z
                "K3Y9XZ" "PHYS202" Professor)
      as ((s' & Hs' & Hkey & _) & Hframe & _).
    { exists "Ann", 1, 1, 0. apply elem_of_cons. by left. }
    split; [by exists s'|]. split; [by apply Hframe|].
    rewrite Hframe by done. eexists. split; [reflexivity|]. by eexists.
Defined.

End SecondJoinExamples.

(** * Further properties of the two servers *)

(** ** Reachable states *)

Section ReachableStates.
Import Js Ordered Transport.
Context {U : UpperCasing}.

(** X1.  In every state a server can reach, every Session is backed by the
    registry: the room it names exists and lists the connection, in the
    professor slot or map for a professor, among the students for a student,
    and the connection is subscribed to the room's socket.io channel.  The
    multi-professor half relies on upper-casing being idempotent. *)
Theorem sessions_backed_by_registry :
  (∀ trace sid s,
     let st := Simple.run trace in
     Simple.userSessions st !! sid = Some s →
     sid ∈ Simple.channels st !!! Simple.roomKey s
     ∧ ∃ room,
         Simple.rooms st !! Simple.roomKey s = Some room
         ∧ match Simple.role s with
           | Professor => Simple.professor room = Some sid
           | Student => sid ∈ Simple.students room
           end)
  ∧ (upper_idempotent →
     ∀ trace sid s,
       let st := Robust.run trace in
       Robust.userSessions st !! sid = Some s →
       sid ∈ Robust.channels st !!! Robust.roomKey s
       ∧ ∃ room,
           Robust.rooms st !! Robust.roomKey s = Some room
           ∧ match Robust.role s with
             | Professor => map_has sid (Robust.professors room)
             | Student => map_has sid (Robust.students room)
             end).
Proof.
  split.
  - intros trace sid s st Hs. exact (simple_consistent_run trace sid s Hs).
  - intros Hidem trace sid s st Hs.
    exact (robust_consistent_run Hidem trace sid s Hs).
Qed.

(** X2.  No room of a reachable state holds more than 1000 draw commands,
    on either server. *)
Theorem history_never_exceeds_capacity :
  (∀ trace k room,
     Simple.rooms (Simple.run trace) !! k = Some room →
     length (Simple.history room) ≤ 1000)
  ∧ (∀ trace k room,
       Robust.rooms (Robust.run trace) !! k = Some room →
       length (Robust.commands room) ≤ 1000).
Proof.
  split.
  - intros trace k room. apply simple_bounded_run.
  - intros trace k room. apply robust_bounded_run.
Qed.

(** X3.  The occupancy a handler reports ([userCount] of [room-joined],
    [total] of [user-list-update]), in any state.  On the multi-professor
    server it is always the number of professors plus the number of students
    the room holds once the handler is done.  On the single-professor server
    it is the number of professors (0 or 1) plus the number of students on
    every path but one: a student join into a room without professor reports
    one more. *)
Theorem reported_occupancy_counts_members :
  (∀ (st : Robust.State) i eff k n,
     eff ∈ (Robust.handle st i).2 →
     RobustInv.reported_occupancy eff = Some (k, n) →
     ∃ room, Robust.rooms (Robust.handle st i).1 !! k = Some room
             ∧ n = length (Robust.professors room)
                   + length (Robust.students room))
  ∧ (∀ (st : Simple.State) i eff k n,
       eff ∈ (Simple.handle st i).2 →
       SimpleInv.reported_occupancy eff = Some (k, n) →
       ∃ room,
         Simple.rooms (Simple.handle st i).1 !! k = Some room
         ∧ (n = Simple.professor_count room + Simple.student_count room
            ∨ ((∃ sid data now, i = Simple.JoinStudent sid data now)
               ∧ Simple.professor room = None
               ∧ n = 1 + Simple.student_count room))).
Proof.
  split.
  - apply @robust_reported_occupancy.
  - apply @simple_reported_occupancy.
Qed.

End ReachableStates.

Section ReachableStatesExamples.
Import Js Ordered Transport.
#[local] Existing Instance Js.ascii_case.

(** Bob in Ann's class. *)
Lemma sessions_backed_by_registry_witness :
  (∃ room, Simple.rooms (Simple.run Examples.simple_class) !! "MATH101"
           = Some room
           ∧ "s1" ∈ Simple.students room)
  ∧ (∃ room, Robust.rooms (Robust.run Examples.robust_class) !! "MATH101"
             = Some room
             ∧ map_has "s1" (Robust.students room)).
Proof.
  destruct (@sessions_backed_by_registry ascii_case) as [Hsimple Hrobust].
  split.
  - destruct (Hsimple Examples.simple_class "s1"
                {| Simple.role := Student; Simple.name := "Bob";
                   Simple.roomKey := "MATH101"; Simple.sessionUserId := "s1";
                   Simple.joinedAt := 20 |} eq_refl)
      as [_ (room & Hroom & Hm)].
    by exists room.
  - destruct (Hrobust ascii_case_idempotent Examples.robust_class "s1"
                {| Robust.role := Student; Robust.name := "Bob";
                   Robust.roomKey := "MATH101"; Robust.userId := "s1" |}
                eq_refl)
      as [_ (room & Hroom & Hm)].
    by exists room.
Defined.

(** Ann's class after a thousand strokes. *)
Lemma history_never_exceeds_capacity_witness :
  (∃ room, Simple.rooms (Simple.run Examples.simple_thousand) !! "MATH101"
           = Some room
           ∧ length (Simple.history room) ≤ 1000)
  ∧ (∃ room, Robust.rooms (Robust.run Examples.robust_thousand) !! "MATH101"
             = Some room
             ∧ length (Robust.commands room) ≤ 1000).
Proof.
  destruct (@history_never_exceeds_capacity ascii_case) as [Hsimple Hrobust].
  split.
  - destruct simple_thousand_state as [_ (room & Hroom & _)].
    exists room. split; [done|]. by apply (Hsimple _ _ _ Hroom).
  - destruct robust_thousand_state as [_ (room & Hroom & _)].
    exists room. split; [done|]. by apply (Hrobust _ _ _ Hroom).
Defined.

(** Cy joins the room Ann has left: the one path that miscounts; and Bob's
    join on the multi-professor server. *)
Lemma reported_occupancy_counts_members_witness :
  (∃ room,
     Robust.rooms
       (Robust.handle (Robust.run [Robust.JoinProfessor "p1" Examples.r_ann 10
                                     "K3Y9XZ"])
          (Robust.JoinStudent "s1" Examples.r_bob 20)).1 !! "MATH101"
     = Some room
     ∧ 2 = length (Robust.professors room) + length (Robust.students room))
  ∧ (∃ room,
       Simple.rooms
         (Simple.handle (Simple.run Examples.simple_orphaned)
            (Simple.JoinStudent "s2" Examples.cy 40)).1 !! "MATH101"
       = Some room
       ∧ Simple.professor room = None
       ∧ 3 = 1 + Simple.student_count room).
Proof.
  destruct (@reported_occupancy_counts_members ascii_case)
    as [Hrobust Hsimple].
  split.
  - apply (Hrobust _ _ (ToSocket "s1"
                          (Robust.RoomJoined "MATH101" Student "Bob" 2 1 1))).
    + apply elem_of_cons. by left.
    + reflexivity.
  - destruct (Hsimple (Simple.run Examples.simple_orphaned)
                (Simple.JoinStudent "s2" Examples.cy 40)
                (ToSocket "s2" (Simple.RoomJoined "MATH101" 3 Student 40))
                "MATH101" 3) as (room & Hroom & Hcount).
    + apply elem_of_cons. right. apply elem_of_cons. by left.
    + reflexivity.
    + exists room. split; [exact Hroom|].
      assert (Simple.professor room = None ∧ Simple.student_count room = 2)
        as [Hp Hn].
      { eassert (Simple.rooms
                   (Simple.handle (Simple.run Examples.simple_orphaned)
                      (Simple.JoinStudent "s2" Examples.cy 40)).1 !! "MATH101"
                 = Some _) as Hfound by reflexivity.
        rewrite Hfound in Hroom. injection Hroom as <-. by split. }
      split; [done|]. by rewrite Hn.
Defined.

End ReachableStatesExamples.

(** ** Joins are all or nothing *)

Section JoinAnswers.
Import Js Ordered Transport Answers.
Context {U : UpperCasing}.

Lemma simple_state_eta (st : Simple.State) :
  {| Simple.rooms := Simple.rooms st;
     Simple.userSessions := Simple.userSessions st;
     Simple.channels := Simple.channels st |} = st.
Proof. by destruct st. Qed.







End JoinAnswers.

Section JoinAnswersExamples.
Import Js Ordered Transport Answers.
#[local] Existing Instance Js.ascii_case.


End JoinAnswersExamples.

(** ** Limits on the members of a room *)

Section MemberCollections.
Import Ordered.

Lemma set_add_NoDup x l : NoDup l → NoDup (set_add x l).
Proof.
  intros Hl. unfold set_add. case_bool_decide as Hx; [done|].
  apply NoDup_app. split; [done|]. split; [|apply NoDup_singleton].
  intros y Hy ->%list_elem_of_singleton. done.
Qed.

Lemma set_add_length x l :
  length l ≤ length (set_add x l) ≤ S (length l).
Proof.
  unfold set_add. case_bool_decide; [lia|]. rewrite length_app. simpl. lia.
Qed.

Lemma set_delete_NoDup x l : NoDup l → NoDup (set_delete x l).
Proof. apply NoDup_filter. Qed.

Lemma set_delete_length x l : length (set_delete x l) ≤ length l.
Proof. apply length_filter. Qed.

Context {V : Type}.
Implicit Types m : list (string * V).

Lemma map_get_None_keys k m : map_get k m = None ↔ k ∉ m.*1.
Proof.
  induction m as [|[k' v'] m IH]; simpl.
  - split; [intros _; apply not_elem_of_nil|done].
  - rewrite not_elem_of_cons. case_bool_decide as Hk.
    + split; [done|]. intros [Hne _]. by destruct Hne.
    + rewrite IH. split; [by split|by intros [_ ?]].
Qed.

Lemma map_set_keys k v m :
  (map_set k v m).*1
  = match map_get k m with Some _ => m.*1 | None => m.*1 ++ [k] end.
Proof.
  induction m as [|[k' v'] m IH]; [done|]. cbn [map_set map_get].
  case_bool_decide as Hk; [done|].
  rewrite !fmap_cons, IH. by destruct (map_get k m).
Qed.

Lemma map_set_NoDup k v m : NoDup m.*1 → NoDup (map_set k v m).*1.
Proof.
  intros Hm. rewrite map_set_keys.
  destruct (map_get k m) eqn:Hget; [done|].
  apply map_get_None_keys in Hget.
  apply NoDup_app. split; [done|]. split; [|apply NoDup_singleton].
  intros y Hy ->%list_elem_of_singleton. done.
Qed.

Lemma map_set_length_le k v m :
  length m ≤ length (map_set k v m) ≤ S (length m).
Proof. rewrite map_set_length. destruct (map_get k m); lia. Qed.

Lemma map_set_elem k v k' v' m :
  (k', v') ∈ map_set k v m → (k' = k ∧ v' = v) ∨ (k', v') ∈ m.
Proof.
  induction m as [|[k0 v0] m IH]; simpl.
  - intros [= -> ->]%list_elem_of_singleton. by left.
  - case_bool_decide as Hk.
    + intros [[= -> ->]|Hin]%elem_of_cons; [by left|].
      right. by apply elem_of_cons; right.
    + intros [[= -> ->]|Hin]%elem_of_cons.
      * right. by apply elem_of_cons; left.
      * destruct (IH Hin) as [?|?]; [by left|].
        right. by apply elem_of_cons; right.
Qed.

Lemma map_delete_NoDup k m : NoDup m.*1 → NoDup (map_delete k m).*1.
Proof.
  unfold map_delete. induction m as [|[k' v'] m IH]; simpl; [done|].
  intros [Hnotin Hm]%NoDup_cons. rewrite filter_cons. simpl.
  case_decide; [|by apply IH]. simpl. apply NoDup_cons. split; [|by apply IH].
  intros Hin. apply Hnotin. apply list_elem_of_fmap in Hin as ([k0 v0] & -> & Hin).
  apply list_elem_of_filter in Hin as [_ Hin].
  apply list_elem_of_fmap. by exists (k0, v0).
Qed.

Lemma map_delete_length k m : length (map_delete k m) ≤ length m.
Proof. apply length_filter. Qed.

Lemma map_delete_elem k k' v' m : (k', v') ∈ map_delete k m → (k', v') ∈ m.
Proof. unfold map_delete. by intros [_ ?]%list_elem_of_filter. Qed.

End MemberCollections.

Section RoomLimits.
Import Js Ordered Transport Limits.
Context {U : UpperCasing}.

Lemma simple_rooms_ok_insert (rms : gmap string Simple.Room) k room :
  (∀ k' r, rms !! k' = Some r → simple_room_ok r) →
  simple_room_ok room →
  ∀ k' r, <[k := room]> rms !! k' = Some r → simple_room_ok r.
Proof.
  intros Hrms Hroom k' r. destruct (decide (k = k')) as [<-|Hne].
  - rewrite lookup_insert_eq. by intros [= <-].
  - rewrite lookup_insert_ne by done. apply Hrms.
Qed.

Lemma simple_rooms_ok_delete (rms : gmap string Simple.Room) k :
  (∀ k' r, rms !! k' = Some r → simple_room_ok r) →
  ∀ k' r, delete k rms !! k' = Some r → simple_room_ok r.
Proof. intros Hrms k' r [_ H]%lookup_delete_Some. by eapply Hrms. Qed.

Lemma simple_rooms_ok_handle st i :
  (∀ k r, Simple.rooms st !! k = Some r → simple_room_ok r) →
  ∀ k r, Simple.rooms (Simple.handle st i).1 !! k = Some r → simple_room_ok r.
Proof.
  intros Hst.
  destruct i as [sid data now|sid data now|sid data now|sid now|sid now];
    simpl;
    [ unfold Simple.on_join_professor | unfold Simple.on_join_student
    | unfold Simple.on_draw_command | unfold Simple.on_clear_canvas
    | unfold Simple.on_disconnect ];
    split_cases; try done; simpl;
    first [ apply simple_rooms_ok_insert | apply simple_rooms_ok_delete ];
    try done;
    repeat match goal with
    | H : Simple.rooms st !! _ = Some ?r |- _ =>
        lazymatch goal with
        | _ : simple_room_ok r |- _ => fail
        | _ => pose proof (Hst _ _ H)
        end
    end;
    unfold simple_room_ok in *; simpl;
    repeat match goal with
    | H : _ ∧ _ |- _ => destruct H
    | H : (_ <=? _) = false |- _ => apply Nat.leb_gt in H
    end.
  all: try (split; [by apply NoDup_nil_2|simpl; lia]).
  all: try (split; [done|lia]).
  all: try (match goal with |- context [set_add ?x ?l] =>
              pose proof (set_add_length x l)
            end; split; [by apply set_add_NoDup|]; lia).
  all: match goal with |- context [set_delete ?x ?l] =>
         pose proof (set_delete_length x l)
       end; split; [by apply set_delete_NoDup|]; lia.
Qed.

Lemma simple_rooms_ok_run trace :
  ∀ k r, Simple.rooms (Simple.run trace) !! k = Some r → simple_room_ok r.
Proof.
  unfold Simple.run.
  assert (Hinit : ∀ k r, Simple.rooms Simple.init !! k = Some r →
                         simple_room_ok r)
    by (intros ? ? H; cbn in H; by rewrite lookup_empty in H).
  revert Hinit. generalize Simple.init.
  induction trace as [|i trace IH]; intros st Hst; [done|].
  apply IH. by apply simple_rooms_ok_handle.
Qed.

Lemma robust_rooms_ok_insert (rms : gmap string Robust.Room) k room :
  (∀ k' r, rms !! k' = Some r → robust_room_ok r) →
  robust_room_ok room →
  ∀ k' r, <[k := room]> rms !! k' = Some r → robust_room_ok r.
Proof.
  intros Hrms Hroom k' r. destruct (decide (k = k')) as [<-|Hne].
  - rewrite lookup_insert_eq. by intros [= <-].
  - rewrite lookup_insert_ne by done. apply Hrms.
Qed.

Lemma robust_rooms_ok_delete (rms : gmap string Robust.Room) k :
  (∀ k' r, rms !! k' = Some r → robust_room_ok r) →
  ∀ k' r, delete k rms !! k' = Some r → robust_room_ok r.
Proof. intros Hrms k' r [_ H]%lookup_delete_Some. by eapply Hrms. Qed.

Lemma robust_rooms_ok_createRoom rms key info now :
  (∀ k' r, rms !! k' = Some r → robust_room_ok r) →
  ∀ k' r, Robust.createRoom rms key info now !! k' = Some r →
    robust_room_ok r.
Proof.
  intros Hrms. unfold Robust.createRoom. apply robust_rooms_ok_insert; [done|].
  unfold robust_room_ok. simpl. repeat split; try apply NoDup_nil_2; lia.
Qed.

Lemma robust_rooms_ok_deletion_check rms key :
  (∀ k' r, rms !! k' = Some r → robust_room_ok r) →
  ∀ k' r, Robust.deletion_check rms key !! k' = Some r → robust_room_ok r.
Proof.
  intros Hrms. unfold Robust.deletion_check.
  destruct (rms !! key); [|done]. destruct (_ && _); [|done].
  by apply robust_rooms_ok_delete.
Qed.

Lemma robust_rooms_ok_handle st i :
  (∀ k r, Robust.rooms st !! k = Some r → robust_room_ok r) →
  ∀ k r, Robust.rooms (Robust.handle st i).1 !! k = Some r → robust_room_ok r.
Proof.
  intros Hst.
  destruct i as [sid data now gen|sid data now|sid command now|sid now|sid now
                |key|now];
    simpl;
    [ unfold Robust.on_join_professor | unfold Robust.on_join_student
    | unfold Robust.on_draw_command | unfold Robust.on_clear_canvas
    | unfold Robust.on_disconnect | unfold Robust.on_timer
    | unfold Robust.on_sweep ];
    split_cases; try done; simpl;
    try (by apply robust_rooms_ok_createRoom);
    try (by apply robust_rooms_ok_deletion_check);
    try (by (intros k' x [H _]%map_lookup_filter_Some; eapply Hst; eassumption));
    apply robust_rooms_ok_insert;
    try done; try (by apply robust_rooms_ok_createRoom);
    match goal with
    | H : Robust.rooms st !! _ = Some ?r |- _ => pose proof (Hst _ _ H) as Hok
    | H : Robust.createRoom _ _ _ _ !! _ = Some ?r |- _ =>
        pose proof (robust_rooms_ok_createRoom _ _ _ _ Hst _ _ H) as Hok
    end;
    unfold robust_room_ok in *; simpl;
    destruct Hok as (Hp & Hs & Hnp & Hns);
    repeat match goal with
    | H : (_ <=? _) = false |- _ => apply Nat.leb_gt in H
    end.
  all: try match goal with |- context [map_set ?k ?v ?m] =>
             pose proof (map_set_length_le k v m)
           end.
  all: try match goal with |- context [map_delete ?k ?m] =>
             pose proof (map_delete_length k m)
           end.
  all: repeat split; try done; try lia;
    try (by apply map_set_NoDup); by apply map_delete_NoDup.
Qed.

Lemma robust_rooms_ok_run trace :
  ∀ k r, Robust.rooms (Robust.run trace) !! k = Some r → robust_room_ok r.
Proof.
  unfold Robust.run.
  assert (Hinit : ∀ k r, Robust.rooms Robust.init !! k = Some r →
                         robust_room_ok r)
    by (intros ? ? H; cbn in H; by rewrite lookup_empty in H).
  revert Hinit. generalize Robust.init.
  induction trace as [|i trace IH]; intros st Hst; [done|].
  apply IH. by apply robust_rooms_ok_handle.
Qed.

(** X5.  The limits hold in every reachable state.  A room of the
    single-professor server never has more than 100 students, lists no
    student twice, and its [userCount] is the number of its students or one
    more.  A room of the multi-professor server never has more than 3
    professors or more than 100 students, and lists no connection twice in
    either map. *)
Theorem rooms_stay_within_limits :
  (∀ trace k room,
     Simple.rooms (Simple.run trace) !! k = Some room →
     NoDup (Simple.students room)
     ∧ length (Simple.students room) ≤ 100
     ∧ length (Simple.students room) ≤ Simple.userCount room
       ≤ S (length (Simple.students room)))
  ∧ (∀ trace k room,
       Robust.rooms (Robust.run trace) !! k = Some room →
       NoDup (Robust.professors room).*1
       ∧ NoDup (Robust.students room).*1
       ∧ length (Robust.professors room) ≤ 3
       ∧ length (Robust.students room) ≤ 100).
Proof.
  split.
  - intros trace k room. apply simple_rooms_ok_run.
  - intros trace k room. apply robust_rooms_ok_run.
Qed.

End RoomLimits.

Section RoomLimitsExamples.
Import Js Ordered Transport.
#[local] Existing Instance Js.ascii_case.

(** Ann's class. *)
Lemma rooms_stay_within_limits_witness :
  (∃ room, Simple.rooms (Simple.run Examples.simple_class) !! "MATH101"
           = Some room
           ∧ length (Simple.students room) ≤ 100)
  ∧ (∃ room, Robust.rooms (Robust.run Examples.robust_class) !! "MATH101"
             = Some room
             ∧ length (Robust.professors room) ≤ 3).
Proof.
  destruct (@rooms_stay_within_limits ascii_case) as [Hsimple Hrobust].
  split.
  - eexists. split; [reflexivity|].
    by eapply (Hsimple Examples.simple_class "MATH101").
  - eexists. split; [reflexivity|].
    by eapply (Hrobust Examples.robust_class "MATH101").
Defined.

End RoomLimitsExamples.

(** ** Draw and clear requests that are not carried out *)

Section DrawClearAnswers.
Import Js Ordered Transport Answers.
Context {U : UpperCasing}.

(** X6.  A draw or clear request that is not carried out changes nothing.
    When every message a draw or clear handler sends goes to the sender
    alone (a [permission-denied], a [room-error]) or when it sends none, the
    state is what it was.  Otherwise the handler sends exactly one message,
    a broadcast to the room of the sender's Session, the sender is a
    professor, and Sessions and subscriptions are untouched.  Any state,
    both servers. *)
Theorem unaccepted_requests_change_nothing :
  (∀ (st : Simple.State) i sid,
     simple_request i sid →
     let out := Simple.handle st i in
     (Forall (to_sender sid) out.2 → out.1 = st)
     ∧ (∀ eff,
          eff ∈ out.2 → ¬ to_sender sid eff →
          out.2 = [eff]
          ∧ Simple.userSessions out.1 = Simple.userSessions st
          ∧ Simple.channels out.1 = Simple.channels st
          ∧ ∃ s ev,
              Simple.userSessions st !! sid = Some s
              ∧ Simple.role s = Professor
              ∧ (eff = ToRoom (Simple.roomKey s) ev
                 ∨ eff = ToRoomExcept (Simple.roomKey s) sid ev)))
  ∧ (∀ (st : Robust.State) i sid,
       robust_request i sid →
       let out := Robust.handle st i in
       (Forall (to_sender sid) out.2 → out.1 = st)
       ∧ (∀ eff,
            eff ∈ out.2 → ¬ to_sender sid eff →
            out.2 = [eff]
            ∧ Robust.userSessions out.1 = Robust.userSessions st
            ∧ Robust.channels out.1 = Robust.channels st
            ∧ Robust.timers out.1 = Robust.timers st
            ∧ ∃ s ev,
                Robust.userSessions st !! sid = Some s
                ∧ Robust.role s = Professor
                ∧ (eff = ToRoom (Robust.roomKey s) ev
                   ∨ eff = ToRoomExcept (Robust.roomKey s) sid ev))).
Proof.
  split.
  - intros st i sid Hreq out. subst out.
    destruct i as [?|?|sid' data now|sid' now|?]; simpl in Hreq; try done;
      subst sid'; simpl;
      unfold Simple.on_draw_command, Simple.on_clear_canvas;
      split_cases; simpl;
      (split;
       [ intros Hall;
         first [ done
               | apply Forall_cons in Hall as [Hmine _]; by destruct Hmine ]
       | intros eff Hin Hnot; invert_membership Hin; simplify_eq;
         first
           [ by destruct Hnot
           | repeat (split; [done|]);
             eexists _, _; repeat (split; [done|]); eauto ] ]).
  - intros st i sid Hreq out. subst out.
    destruct i as [?|?|sid' command now|sid' now|?|?|?]; simpl in Hreq;
      try done; subst sid'; simpl;
      unfold Robust.on_draw_command, Robust.on_clear_canvas;
      split_cases; simpl;
      (split;
       [ intros Hall;
         first [ done
               | apply Forall_cons in Hall as [Hmine _]; by destruct Hmine ]
       | intros eff Hin Hnot; invert_membership Hin; simplify_eq;
         first
           [ by destruct Hnot
           | repeat (split; [done|]);
             eexists _, _; repeat (split; [done|]); eauto ] ]).
Qed.

(** X7.  The room of a Session is always there: in no reachable state does a
    draw or clear request run into a missing room.  The single-professor
    server never sends [permission-denied] with code ROOM_NOT_FOUND, and a
    professor's clear request always produces [canvas-cleared]; the
    multi-professor server never sends ROOM_GONE.  The multi-professor half
    relies on upper-casing being idempotent. *)
Theorem session_room_never_missing :
  (∀ trace sid data now,
     let st := Simple.run trace in
     (ToSocket sid (Simple.PermissionDenied Simple.DENIED_ROOM_NOT_FOUND)
      ∉ (Simple.on_draw_command st sid data now).2)
     ∧ (∀ s, Simple.userSessions st !! sid = Some s →
             Simple.role s = Professor →
             (Simple.on_clear_canvas st sid now).2
             = [ToRoom (Simple.roomKey s)
                  (Simple.CanvasCleared now (Simple.name s))]))
  ∧ (upper_idempotent →
     ∀ trace sid command now,
       let st := Robust.run trace in
       (ToSocket sid (Robust.RoomError ROOM_GONE)
        ∉ (Robust.on_draw_command st sid command now).2)
       ∧ (ToSocket sid (Robust.RoomError ROOM_GONE)
          ∉ (Robust.on_clear_canvas st sid now).2)).
Proof.
  split.
  - intros trace sid data now st. split.
    + unfold Simple.on_draw_command.
      destruct (Simple.userSessions st !! sid) as [s|] eqn:Hs; [|set_solver].
      destruct (simple_consistent_run trace sid s Hs) as [_ (room & Hroom & _)].
      fold st in Hroom. rewrite Hroom.
      destruct (Simple.role s); [|set_solver].
      destruct (negb _); set_solver.
    + intros s Hs Hrole.
      destruct (simple_professor_clear trace sid s now Hs Hrole)
        as (room & _ & Heq & _).
      fold st in Heq. by rewrite Heq.
  - intros Hidem trace sid command now st. split.
    + unfold Robust.on_draw_command.
      destruct (Robust.userSessions st !! sid) as [s|] eqn:Hs; [|set_solver].
      destruct (robust_consistent_run Hidem trace sid s Hs)
        as [_ (room & Hroom & _)].
      fold st in Hroom. rewrite Hroom.
      destruct (Robust.role s); [|set_solver].
      destruct (negb _); set_solver.
    + unfold Robust.on_clear_canvas.
      destruct (Robust.userSessions st !! sid) as [s|] eqn:Hs; [|set_solver].
      destruct (robust_consistent_run Hidem trace sid s Hs)
        as [_ (room & Hroom & _)].
      fold st in Hroom. rewrite Hroom.
      destruct (Robust.role s); set_solver.
Qed.

End DrawClearAnswers.

Section DrawClearAnswersExamples.
Import Js Ordered Transport Answers.
#[local] Existing Instance Js.ascii_case.

(** A stroke without points from Ann, and a clear request from Bob. *)
Lemma unaccepted_requests_change_nothing_witness :
  (Simple.handle (Simple.run Examples.simple_class)
     (Simple.Draw "p1"
        {| Simple.dd_path := Arr []; Simple.dd_color := Undefined;
           Simple.dd_width := Undefined |} 30)).1
  = Simple.run Examples.simple_class
  ∧ (Robust.handle (Robust.run Examples.robust_class)
       (Robust.Clear "s1" 30)).1
    = Robust.run Examples.robust_class.
Proof.
  destruct (@unaccepted_requests_change_nothing ascii_case)
    as [Hsimple Hrobust].
  split.
  - apply (Hsimple _ _ "p1"); [reflexivity|]. by apply Forall_nil.
  - apply (Hrobust _ _ "s1"); [reflexivity|].
    apply Forall_cons. split; [reflexivity | by apply Forall_nil].
Defined.

(** Ann clears the board of her class. *)
Lemma session_room_never_missing_witness :
  (Simple.on_clear_canvas (Simple.run Examples.simple_class) "p1" 40).2
  = [ToRoom "MATH101" (Simple.CanvasCleared 40 "Ann")]
  ∧ (ToSocket "p1" (Robust.RoomError ROOM_GONE)
     ∉ (Robust.on_clear_canvas (Robust.run Examples.robust_class) "p1" 40).2).
Proof.
  destruct (@session_room_never_missing ascii_case) as [Hsimple Hrobust].
  split.
  - apply (proj2 (Hsimple Examples.simple_class "p1" Examples.stroke 40%Z)
             {| Simple.role := Professor; Simple.name := "Ann";
                Simple.roomKey := "MATH101"; Simple.sessionUserId := "p1";
                Simple.joinedAt := 10 |}); reflexivity.
  - apply (Hrobust ascii_case_idempotent Examples.robust_class "p1"
             Examples.r_stroke 40%Z).
Defined.

End DrawClearAnswersExamples.

(** ** Who can change a history *)

Section HistoryFrame.
Import Js Ordered Transport Rewrites.
Context {U : UpperCasing}.

Ltac frame_step k :=
  match goal with
  | |- <[?k0 := ?r0]> _ !! k = Some _ → _ =>
      destruct (decide (k0 = k)) as [?|?];
      [ subst; rewrite lookup_insert_eq; intros [= <-]; simpl
      | rewrite lookup_insert_ne by done; intros ?; left; congruence ]
  | |- delete ?k0 _ !! k = Some _ → _ =>
      intros [_ ?]%lookup_delete_Some; left; congruence
  | |- _ !! k = Some _ → _ => intros ?; left; congruence
  end.

Lemma simple_history_frame st i k room room' :
  Simple.rooms st !! k = Some room →
  Simple.rooms (Simple.handle st i).1 !! k = Some room' →
  Simple.history room' = Simple.history room ∨ simple_rewrites st i k.
Proof.
  intros Hroom.
  destruct i as [sid data now|sid data now|sid data now|sid now|sid now];
    simpl;
    [ unfold Simple.on_join_professor | unfold Simple.on_join_student
    | unfold Simple.on_draw_command | unfold Simple.on_clear_canvas
    | unfold Simple.on_disconnect ];
    split_cases; simpl; frame_step k;
    first [ left; congruence | right; by eexists ].
Qed.

Lemma robust_history_frame st i k room room' :
  upper_idempotent →
  Robust.rooms st !! k = Some room →
  Robust.rooms (Robust.handle st i).1 !! k = Some room' →
  Robust.commands room' = Robust.commands room ∨ robust_rewrites st i k.
Proof.
  intros Hidem Hroom.
  destruct i as [sid data now gen|sid data now|sid command now|sid now|sid now
                |key|now]; simpl.
  - unfold Robust.on_join_professor.
    set (k0 := toUpperCase (str_of _)).
    destruct (Robust.rooms st !! k0) as [room0|] eqn:Hroom0.
    + split_cases; simpl; frame_step k; left; congruence.
    + unfold Robust.createRoom. rewrite (Hidem _ : toUpperCase k0 = k0).
      split_cases; try rewrite lookup_insert_eq in *; simplify_eq; simpl;
        try frame_step k.
      all: rewrite insert_insert_eq;
        destruct (decide (k0 = k)) as [Heq|Hne];
        [ rewrite Heq in Hroom0; congruence
        | rewrite lookup_insert_ne by done; intros ?; left; congruence ].
  - unfold Robust.on_join_student.
    split_cases; simpl; frame_step k; left; congruence.
  - unfold Robust.on_draw_command.
    split_cases; simpl; frame_step k; right; by eexists.
  - unfold Robust.on_clear_canvas.
    split_cases; simpl; frame_step k; right; by eexists.
  - unfold Robust.on_disconnect.
    split_cases; simpl; frame_step k; left; congruence.
  - unfold Robust.on_timer, Robust.deletion_check.
    split_cases; simpl; frame_step k.
  - unfold Robust.on_sweep. simpl.
    intros [? _]%map_lookup_filter_Some. left. congruence.
Qed.

(** X8.  Only a professor's draw or clear request changes the history of a
    room that stays in the registry: when a room is there before and after
    an input and its history differs, the input is a draw or clear request
    from a connection whose Session has role professor and names that room.
    Joins, disconnects, deletion checks and sweeps leave every history as it
    is.  Any state; the multi-professor half relies on upper-casing being
    idempotent. *)
Theorem history_changed_by_professor_only :
  (∀ (st : Simple.State) i k room room',
     Simple.rooms st !! k = Some room →
     Simple.rooms (Simple.handle st i).1 !! k = Some room' →
     Simple.history room' ≠ Simple.history room →
     simple_rewrites st i k)
  ∧ (upper_idempotent →
     ∀ (st : Robust.State) i k room room',
       Robust.rooms st !! k = Some room →
       Robust.rooms (Robust.handle st i).1 !! k = Some room' →
       Robust.commands room' ≠ Robust.commands room →
       robust_rewrites st i k).
Proof.
  split.
  - intros st i k room room' Hroom Hroom' Hdiff.
    by destruct (simple_history_frame st i k room room' Hroom Hroom').
  - intros Hidem st i k room room' Hroom Hroom' Hdiff.
    by destruct (robust_history_frame st i k room room' Hidem Hroom Hroom').
Qed.

End HistoryFrame.

Section HistoryFrameExamples.
Import Js Ordered Transport Rewrites.
#[local] Existing Instance Js.ascii_case.

(** Ann's first stroke. *)
Lemma history_changed_by_professor_only_witness :
  simple_rewrites (Simple.run [Simple.JoinProfessor "p1" Examples.ann 10])
    (Simple.Draw "p1" Examples.stroke 20) "MATH101"
  ∧ robust_rewrites
      (Robust.run [Robust.JoinProfessor "p1" Examples.r_ann 10 "K3Y9XZ"])
      (Robust.Draw "p1" Examples.r_stroke 20) "MATH101".
Proof.
  destruct (@history_changed_by_professor_only ascii_case)
    as [Hsimple Hrobust].
  split.
  - eapply (Hsimple _ _ "MATH101"); [reflexivity | reflexivity | done].
  - eapply (Hrobust ascii_case_idempotent _ _ "MATH101");
      [reflexivity | reflexivity | done].
Defined.

End HistoryFrameExamples.

(** ** Catching up on joining *)

Section Replay.
Import Js Ordered Transport.
Context {U : UpperCasing}.

Ltac replay_cases Hin :=
  split_cases; simpl; intros Hin; invert_membership Hin; simplify_eq;
  eexists; (split; [apply lookup_insert_eq|]); simpl; intros h;
  rewrite ?insert_insert_eq;
  rewrite ?elem_of_cons, ?elem_of_app, ?elem_of_cons, ?elem_of_nil;
  (split;
   [ intros Hh; destruct_or?; simplify_eq; try done
   | intros [-> Hne]; try done; simpl in *;
     repeat match goal with
     | |- _ ∨ _ => first [left; congruence | right]
     end ]).

Lemma simple_join_professor_replay st sid data now B r :
  SimpleInv.joined (Simple.on_join_professor st sid data now).2 sid B r →
  ∃ room',
    Simple.rooms (Simple.on_join_professor st sid data now).1 !! B
    = Some room'
    ∧ ∀ h, ToSocket sid (Simple.RoomHistory h)
           ∈ (Simple.on_join_professor st sid data now).2
           ↔ h = Simple.history room' ∧ h ≠ [].
Proof.
  intros (count & time & Hin). revert Hin.
  unfold Simple.on_join_professor, Simple.replay.
  replay_cases Hin.
Qed.

Lemma simple_join_student_replay st sid data now B r :
  SimpleInv.joined (Simple.on_join_student st sid data now).2 sid B r →
  ∃ room',
    Simple.rooms (Simple.on_join_student st sid data now).1 !! B
    = Some room'
    ∧ ∀ h, ToSocket sid (Simple.RoomHistory h)
           ∈ (Simple.on_join_student st sid data now).2
           ↔ h = Simple.history room' ∧ h ≠ [].
Proof.
  intros (count & time & Hin). revert Hin.
  unfold Simple.on_join_student, Simple.replay.
  replay_cases Hin.
Qed.

Lemma robust_join_student_replay st sid data now B r :
  RobustInv.joined (Robust.on_join_student st sid data now).2 sid B r →
  ∃ room',
    Robust.rooms (Robust.on_join_student st sid data now).1 !! B
    = Some room'
    ∧ ∀ h n, ToSocket sid (Robust.RoomHistory h n)
             ∈ (Robust.on_join_student st sid data now).2
             ↔ h = Robust.commands room' ∧ n = length h ∧ h ≠ [].
Proof.
  intros (userName & count & profs & studs & Hin). revert Hin.
  unfold Robust.on_join_student, Robust.replay.
  split_cases; simpl; intros Hin; invert_membership Hin; simplify_eq;
  eexists; (split; [apply lookup_insert_eq|]); simpl; intros h n;
  rewrite ?elem_of_cons, ?elem_of_app, ?elem_of_cons, ?elem_of_nil;
  (split;
   [ intros Hh; destruct_or?; simplify_eq; try done
   | intros (-> & -> & Hne); try done; simpl in *;
     repeat match goal with
     | |- _ ∨ _ =>
         first
           [ left; congruence
           | left;
             match goal with
             | H : Robust.commands _ = _ :: _ |- _ => by rewrite H
             end
           | right ]
     end ]).
Qed.

Lemma robust_join_professor_replay st sid data now gen B r :
  RobustInv.joined (Robust.on_join_professor st sid data now gen).2 sid B r →
  ∃ room',
    Robust.rooms (Robust.on_join_professor st sid data now gen).1 !! B
    = Some room'
    ∧ ∀ h n, ToSocket sid (Robust.RoomHistory h n)
             ∈ (Robust.on_join_professor st sid data now gen).2
             ↔ h = Robust.commands room' ∧ n = length h ∧ h ≠ [].
Proof.
  intros (userName & count & profs & studs & Hin). revert Hin.
  unfold Robust.on_join_professor, Robust.replay.
  set (k := toUpperCase (str_of _)).
  split_cases; simpl; intros Hin; invert_membership Hin; simplify_eq;
  eexists; (split; [apply lookup_insert_eq|]); simpl; intros h n;
  rewrite ?elem_of_cons, ?elem_of_app, ?elem_of_cons, ?elem_of_nil;
  (split;
   [ intros Hh; destruct_or?; simplify_eq; try done
   | intros (-> & -> & Hne); try done; simpl in *;
     repeat match goal with
     | |- _ ∨ _ =>
         first
           [ left; congruence
           | left;
             match goal with
             | H : Robust.commands _ = _ :: _ |- _ => by rewrite H
             end
           | right ]
     end ]).
Qed.

(** X9.  A connection that joins a room is brought up to date: the handler
    that answers [room-joined] sends the joiner one [room-history] message
    with the complete history of the room it has just entered (on the
    multi-professor server together with its length) when that history is
    not empty, and no [room-history] message at all when it is empty.  All
    four join handlers, any state. *)
Theorem joiner_receives_history :
  (∀ st sid data now B r,
     SimpleInv.joined (Simple.on_join_professor st sid data now).2 sid B r →
     ∃ room',
       Simple.rooms (Simple.on_join_professor st sid data now).1 !! B
       = Some room'
       ∧ ∀ h, ToSocket sid (Simple.RoomHistory h)
              ∈ (Simple.on_join_professor st sid data now).2
              ↔ h = Simple.history room' ∧ h ≠ [])
  ∧ (∀ st sid data now B r,
       SimpleInv.joined (Simple.on_join_student st sid data now).2 sid B r →
       ∃ room',
         Simple.rooms (Simple.on_join_student st sid data now).1 !! B
         = Some room'
         ∧ ∀ h, ToSocket sid (Simple.RoomHistory h)
                ∈ (Simple.on_join_student st sid data now).2
                ↔ h = Simple.history room' ∧ h ≠ [])
  ∧ (∀ st sid data now gen B r,
       RobustInv.joined (Robust.on_join_professor st sid data now gen).2
         sid B r →
       ∃ room',
         Robust.rooms (Robust.on_join_professor st sid data now gen).1 !! B
         = Some room'
         ∧ ∀ h n, ToSocket sid (Robust.RoomHistory h n)
                  ∈ (Robust.on_join_professor st sid data now gen).2
                  ↔ h = Robust.commands room' ∧ n = length h ∧ h ≠ [])
  ∧ (∀ st sid data now B r,
       RobustInv.joined (Robust.on_join_student st sid data now).2 sid B r →
       ∃ room',
         Robust.rooms (Robust.on_join_student st sid data now).1 !! B
         = Some room'
         ∧ ∀ h n, ToSocket sid (Robust.RoomHistory h n)
                  ∈ (Robust.on_join_student st sid data now).2
                  ↔ h = Robust.commands room' ∧ n = length h ∧ h ≠ []).
Proof.
  split; [|split; [|split]].
  - apply simple_join_professor_replay.
  - apply simple_join_student_replay.
  - apply robust_join_professor_replay.
  - apply robust_join_student_replay.
Qed.

End Replay.

Section ReplayExamples.
Import Js Ordered Transport.
#[local] Existing Instance Js.ascii_case.

(** Bob joins after Ann's first stroke and is sent it. *)
Lemma joiner_receives_history_witness :
  ∃ room',
    Simple.rooms
      (Simple.on_join_student (Simple.run Examples.simple_lesson) "s1"
         Examples.bob 30).1 !! "MATH101" = Some room'
    ∧ ToSocket "s1" (Simple.RoomHistory (Simple.history room'))
      ∈ (Simple.on_join_student (Simple.run Examples.simple_lesson) "s1"
           Examples.bob 30).2.
Proof.
  destruct (@joiner_receives_history ascii_case) as (_ & Hstudent & _).
  destruct (Hstudent (Simple.run Examples.simple_lesson) "s1" Examples.bob
              30%Z "MATH101" Student) as (room' & Hroom & Hsent).
  - exists 2, 30%Z. apply elem_of_cons. right. apply elem_of_cons. by left.
  - exists room'. split; [exact Hroom|].
    apply Hsent. split; [done|].
    vm_compute in Hroom. by injection Hroom as <-.
Defined.

End ReplayExamples.

(** ** Removing rooms *)

Section RoomRemoval.
Import Js Ordered Transport Removal.
Context {U : UpperCasing}.

Lemma simple_removal st i k room :
  Simple.rooms st !! k = Some room →
  Simple.rooms (Simple.handle st i).1 !! k = None →
  simple_removes st i k room.
Proof.
  intros Hroom.
  destruct i as [sid data now|sid data now|sid data now|sid now|sid now];
    simpl;
    [ unfold Simple.on_join_professor | unfold Simple.on_join_student
    | unfold Simple.on_draw_command | unfold Simple.on_clear_canvas
    | unfold Simple.on_disconnect ];
    split_cases; simpl; rewrite ?lookup_insert_None, ?lookup_delete_None;
    intros Hgone; try (destruct Hgone; congruence); try congruence.
  all: destruct Hgone as [<-|Hgone]; [|congruence]; simplify_eq.
  all: match goal with
       | H : Simple.userSessions _ !! ?x = Some ?s
         |- simple_removes _ (Simple.Disconnect _ ?t) _ _ =>
           exists x, t, s; split; [done|]; split; [done|]; split; [done|]
       end.
  all: match goal with H : Simple.role _ = _ |- _ => rewrite H end.
  all: simpl in *.
  - apply bool_decide_eq_true in Heqb. by apply length_zero_iff_nil.
  - rewrite Heqo1 in Heqb.
    rewrite bool_decide_eq_true_2 in Heqb by (by eexists). done.
  - apply andb_true_iff in Heqb as [_ Hlen].
    apply bool_decide_eq_true in Hlen.
    split; [done|]. by apply length_zero_iff_nil.
Qed.

Lemma robust_removal st i k room :
  Robust.rooms st !! k = Some room →
  Robust.rooms (Robust.handle st i).1 !! k = None →
  robust_vacant room ∧ robust_removes st i k room.
Proof.
  intros Hroom.
  destruct i as [sid data now gen|sid data now|sid command now|sid now|sid now
                |key|now]; simpl.
  - unfold Robust.on_join_professor, Robust.createRoom.
    split_cases; simpl; rewrite ?lookup_insert_None; intros Hgone;
      destruct_and?; congruence.
  - unfold Robust.on_join_student.
    split_cases; simpl; rewrite ?lookup_insert_None; intros Hgone;
      destruct_and?; congruence.
  - unfold Robust.on_draw_command.
    split_cases; simpl; rewrite ?lookup_insert_None; intros Hgone;
      destruct_and?; congruence.
  - unfold Robust.on_clear_canvas.
    split_cases; simpl; rewrite ?lookup_insert_None; intros Hgone;
      destruct_and?; congruence.
  - unfold Robust.on_disconnect.
    split_cases; simpl; rewrite ?lookup_insert_None; intros Hgone;
      destruct_and?; congruence.
  - unfold Robust.on_timer, Robust.deletion_check.
    split_cases; simpl; rewrite ?lookup_delete_None; intros Hgone;
      try congruence.
    destruct Hgone as [<-|Hgone]; [|congruence]. simplify_eq.
    match goal with
    | H : _ && _ = true |- _ =>
        apply andb_true_iff in H as [Hp Hs];
        apply Nat.eqb_eq, length_zero_iff_nil in Hp;
        apply Nat.eqb_eq, length_zero_iff_nil in Hs
    end.
    split; [done|]. left. split; [done|].
    match goal with
    | H : bool_decide _ = true |- _ => by apply bool_decide_eq_true in H
    end.
  - unfold Robust.on_sweep. simpl. intros Hgone.
    apply map_lookup_filter_None in Hgone as [Hgone|Hgone]; [congruence|].
    specialize (Hgone room Hroom). simpl in Hgone.
    apply dec_stable in Hgone as [Hstale Hnone].
    apply Nat.eq_add_0 in Hnone as [Hp Hs].
    apply length_zero_iff_nil in Hp, Hs.
    split; [done|]. right. by exists now.
Qed.

Lemma set_add_nonempty x l : set_add x l ≠ [].
Proof.
  unfold set_add. case_bool_decide as Hin.
  - intros ->. by apply elem_of_nil in Hin.
  - by destruct l.
Qed.

Lemma map_set_nonempty {V} k (v : V) m : map_set k v m ≠ [].
Proof. destruct m as [|[k' v'] m]; simpl; [done|]. by case_bool_decide. Qed.

(** The single-professor server removes a room in the very handler that
    empties it, so it never stores a vacant one. *)
Lemma simple_occupied_handle st i :
  (∀ k room, Simple.rooms st !! k = Some room → ¬ simple_vacant room) →
  ∀ k room,
    Simple.rooms (Simple.handle st i).1 !! k = Some room →
    ¬ simple_vacant room.
Proof.
  intros Hst k room.
  destruct i as [sid data now|sid data now|sid data now|sid now|sid now];
    simpl;
    [ unfold Simple.on_join_professor | unfold Simple.on_join_student
    | unfold Simple.on_draw_command | unfold Simple.on_clear_canvas
    | unfold Simple.on_disconnect ];
    split_cases; simpl;
    rewrite ?lookup_insert_Some, ?lookup_delete_Some;
    intros Hk; destruct_or?; destruct_and?; simplify_eq;
    try (by eapply Hst); intros [Hp Hs]; simpl in *; try done.
  all: try (by destruct (set_add_nonempty _ _ Hs)).
  all: try (by eapply Hst; [eassumption | split]).
  all: try (rewrite ?Hs in *; simpl in *; done).
  all: try (rewrite ?Hp, ?Hs in *; vm_compute in Heqb; done).
Qed.

Lemma simple_occupied_run trace k room :
  Simple.rooms (Simple.run trace) !! k = Some room → ¬ simple_vacant room.
Proof.
  unfold Simple.run. revert k room.
  assert (Hinit : ∀ k room,
            Simple.rooms Simple.init !! k = Some room → ¬ simple_vacant room)
    by (intros ? ? H; cbn in H; by rewrite lookup_empty in H).
  revert Hinit. generalize Simple.init.
  induction trace as [|i trace IH]; intros st Hst; [done|].
  apply IH. by apply simple_occupied_handle.
Qed.

Lemma remove_first_other k k' l :
  k ≠ k' → k ∈ l → k ∈ Robust.remove_first k' l.
Proof.
  intros Hne. induction l as [|x l IH]; simpl; [done|].
  intros [->|Hin]%elem_of_cons.
  - rewrite bool_decide_eq_false_2 by done. by left.
  - case_bool_decide; [done|]. right. by apply IH.
Qed.

Lemma robust_watched_handle st i :
  upper_idempotent → watched st → watched (Robust.handle st i).1.
Proof.
  intros Hidem Hst k room.
  destruct i as [sid data now gen|sid data now|sid command now|sid now|sid now
                |key|now]; simpl.
  - unfold Robust.on_join_professor, Robust.createRoom.
    set (k0 := toUpperCase (str_of _)).
    rewrite (Hidem _ : toUpperCase k0 = k0).
    split_cases; simpl;
      rewrite ?lookup_insert_eq in *; simplify_eq; simpl in *;
      rewrite ?insert_insert_eq; rewrite ?lookup_insert_Some;
      intros Hk [Hp Hs]; destruct_or?; destruct_and?; simplify_eq;
      simpl in *;
      try (by destruct (map_set_nonempty _ _ _ Hp));
      try (by eapply Hst; [eassumption | split]).
  - unfold Robust.on_join_student.
    split_cases; simpl; rewrite ?lookup_insert_Some;
      intros Hk [Hp Hs]; destruct_or?; destruct_and?; simplify_eq;
      simpl in *;
      try (by destruct (map_set_nonempty _ _ _ Hs));
      try (by eapply Hst; [eassumption | split]).
  - unfold Robust.on_draw_command.
    split_cases; simpl; rewrite ?lookup_insert_Some;
      intros Hk [Hp Hs]; destruct_or?; destruct_and?; simplify_eq;
      simpl in *;
      try (by eapply Hst; [eassumption | split]).
  - unfold Robust.on_clear_canvas.
    split_cases; simpl; rewrite ?lookup_insert_Some;
      intros Hk [Hp Hs]; destruct_or?; destruct_and?; simplify_eq;
      simpl in *;
      try (by eapply Hst; [eassumption | split]).
  - unfold Robust.on_disconnect.
    split_cases; simpl; rewrite ?lookup_insert_Some;
      intros Hk [Hp Hs]; destruct_or?; destruct_and?; simplify_eq;
      simpl in *; rewrite ?elem_of_app;
      try (by right; apply elem_of_cons; left);
      try (by left; eapply Hst; [eassumption | split]);
      try (by eapply Hst; [eassumption | split]).
    all: rewrite ?Hp, ?Hs in *; simpl in *; done.
  - unfold Robust.on_timer, Robust.deletion_check.
    split_cases; simpl; rewrite ?lookup_delete_Some;
      intros Hk [Hp Hs]; destruct_and?;
      try (by eapply Hst; [eassumption | split]).
    all: destruct (decide (k = key)) as [->|Hne];
      [ simplify_eq; rewrite ?Hp, ?Hs in *; simpl in *; try done
      | apply remove_first_other; [done|];
        by eapply Hst; [eassumption | split] ].
  - unfold Robust.on_sweep. simpl.
    intros [Hk _]%map_lookup_filter_Some Hv. by eapply Hst.
Qed.

Lemma robust_watched_run trace :
  upper_idempotent → watched (Robust.run trace).
Proof.
  intros Hidem. unfold Robust.run.
  assert (Hinit : watched Robust.init)
    by (intros ? ? H; cbn in H; by rewrite lookup_empty in H).
  revert Hinit. generalize Robust.init.
  induction trace as [|i trace IH]; intros st Hst; [done|].
  apply IH. by apply robust_watched_handle.
Qed.


(** X10.  A room leaves the registry only when its record lists nobody.  On
    the single-professor server the one input that removes a room is the
    disconnect of the last connection its record lists, and no reachable
    state stores a room without professor and without students.  On the
    multi-professor server a room is removed only by a pending deletion
    check for its key or by a sweep more than 24 h after its last activity,
    and only when it has no professors and no students; joins, draws, clears
    and disconnects never remove one.  Any state. *)
Theorem rooms_removed_only_when_vacant :
  (∀ (st : Simple.State) i k room,
     Simple.rooms st !! k = Some room →
     Simple.rooms (Simple.handle st i).1 !! k = None →
     simple_removes st i k room)
  ∧ (∀ trace k room,
       Simple.rooms (Simple.run trace) !! k = Some room →
       ¬ simple_vacant room)
  ∧ (∀ (st : Robust.State) i k room,
       Robust.rooms st !! k = Some room →
       Robust.rooms (Robust.handle st i).1 !! k = None →
       robust_vacant room ∧ robust_removes st i k room).
Proof.
  split; [|split].
  - apply simple_removal.
  - apply simple_occupied_run.
  - apply robust_removal.
Qed.

(** X11.  On the multi-professor server no vacant room is left unattended:
    in every reachable state a room without professors and students has a
    deletion check pending for its key, and that check, when it runs while
    the room is still vacant, removes the room.  Relies on upper-casing
    being idempotent. *)
Theorem vacant_rooms_await_deletion :
  upper_idempotent →
  ∀ trace k room,
    let st := Robust.run trace in
    Robust.rooms st !! k = Some room →
    robust_vacant room →
    k ∈ Robust.timers st
    ∧ Robust.rooms (Robust.handle st (Robust.TimerFired k)).1 !! k = None.
Proof.
  intros Hidem trace k room st Hroom [Hp Hs].
  assert (Hin : k ∈ Robust.timers st)
    by (eapply (robust_watched_run trace Hidem); [exact Hroom | by split]).
  split; [done|].
  simpl. unfold Robust.on_timer.
  rewrite bool_decide_eq_true_2 by done. simpl.
  unfold Robust.deletion_check. rewrite Hroom, Hp, Hs. simpl.
  apply lookup_delete_eq.
Qed.

End RoomRemoval.

Section RoomRemovalExamples.
Import Js Ordered Transport Removal.
#[local] Existing Instance Js.ascii_case.

(** Ann leaves her class: at once on the one server, after the deletion
    check on the other. *)
Lemma rooms_removed_only_when_vacant_witness :
  (∃ room,
     simple_removes (Simple.run [Simple.JoinProfessor "p1" Examples.ann 10])
       (Simple.Disconnect "p1" 20) "MATH101" room)
  ∧ (∃ room,
       robust_vacant room
       ∧ robust_removes
           (Robust.run [Robust.JoinProfessor "p1" Examples.r_ann 10 "K3Y9XZ";
                        Robust.Disconnect "p1" 20])
           (Robust.TimerFired "MATH101") "MATH101" room).
Proof.
  destruct (@rooms_removed_only_when_vacant ascii_case)
    as (Hsimple & _ & Hrobust).
  split.
  - eexists. eapply (Hsimple _ _ "MATH101"); reflexivity.
  - eexists. eapply (Hrobust _ _ "MATH101"); reflexivity.
Defined.

Lemma vacant_rooms_await_deletion_witness :
  "MATH101"
  ∈ Robust.timers
      (Robust.run [Robust.JoinProfessor "p1" Examples.r_ann 10 "K3Y9XZ";
                   Robust.Disconnect "p1" 20])
  ∧ Robust.rooms
      (Robust.handle
         (Robust.run [Robust.JoinProfessor "p1" Examples.r_ann 10 "K3Y9XZ";
                      Robust.Disconnect "p1" 20])
         (Robust.TimerFired "MATH101")).1
    !! "MATH101" = None.
Proof.
  eapply (@vacant_rooms_await_deletion ascii_case ascii_case_idempotent
            [Robust.JoinProfessor "p1" Examples.r_ann 10 "K3Y9XZ";
             Robust.Disconnect "p1" 20] "MATH101");
    [reflexivity | split; reflexivity].
Defined.

End RoomRemovalExamples.

(** ** What the join form lets through *)

Section JoinForm.
Import Js Ordered Transport.
Context {U : UpperCasing}.

Lemma trimEnd_idemp s : trimEnd (trimEnd s) = trimEnd s.
Proof.
  induction s as [|c s IH]; simpl; [done|].
  destruct (is_space c && is_empty (trimEnd s)) eqn:Hc; [done|].
  simpl. by rewrite IH, Hc.
Qed.

Lemma trimStart_head s :
  match trimStart s with
  | EmptyString => True
  | String c _ => is_space c = false
  end.
Proof.
  induction s as [|c s IH]; simpl; [done|].
  destruct (is_space c) eqn:Hc; [done|]. simpl. exact Hc.
Qed.

Lemma trim_idemp s : trim (trim s) = trim s.
Proof.
  unfold trim. pose proof (trimStart_head s) as Hhead.
  destruct (trimStart s) as [|c u]; [done|].
  cbn [trimEnd]. rewrite Hhead. cbn [andb trimStart]. rewrite Hhead.
  cbn [trimEnd]. rewrite Hhead. cbn [andb]. by rewrite trimEnd_idemp.
Qed.

Lemma upper_alnum_not_space c : is_upper_alnum c = true → is_space c = false.
Proof.
  unfold is_upper_alnum, is_space. cbv zeta.
  generalize (N_of_ascii c). intros n.
  rewrite !orb_true_iff, !andb_true_iff, !N.leb_le.
  intros Hn.
  rewrite !orb_false_iff, andb_false_iff, !N.leb_gt, !N.eqb_neq. lia.
Qed.

Lemma upper_alnum_ascii c :
  is_upper_alnum c = true → (N_of_ascii c <? 128)%N = true.
Proof.
  unfold is_upper_alnum. cbv zeta. generalize (N_of_ascii c). intros n.
  rewrite !orb_true_iff, !andb_true_iff, !N.leb_le, N.ltb_lt. lia.
Qed.

Lemma upper_alnum_upper_char c : is_upper_alnum c = true → upper_char c = c.
Proof.
  unfold upper_char, is_upper_alnum. cbv zeta.
  destruct ((97 <=? N_of_ascii c)%N && (N_of_ascii c <=? 122)%N) eqn:Hlow;
    [|done].
  revert Hlow. generalize (N_of_ascii c). intros n.
  rewrite !orb_true_iff, !andb_true_iff, !N.leb_le. lia.
Qed.

Lemma alnum_ascii c : is_alnum c = true → (N_of_ascii c <? 128)%N = true.
Proof.
  unfold is_alnum. cbv zeta. generalize (N_of_ascii c). intros n.
  rewrite !orb_true_iff, !andb_true_iff, !N.leb_le, N.ltb_lt. lia.
Qed.

Lemma alnum_not_space c : is_alnum c = true → is_space c = false.
Proof.
  unfold is_alnum, is_space. cbv zeta.
  generalize (N_of_ascii c). intros n.
  rewrite !orb_true_iff, !andb_true_iff, !N.leb_le.
  intros Hn.
  rewrite !orb_false_iff, andb_false_iff, !N.leb_gt, !N.eqb_neq. lia.
Qed.

Lemma all_alnum_ascii s : all_chars is_alnum s = true → is_ascii s = true.
Proof.
  unfold is_ascii. induction s as [|c s IH]; simpl; [done|].
  intros [Hc Hs]%andb_true_iff. by rewrite (alnum_ascii c Hc), IH.
Qed.

Lemma all_upper_alnum_ascii s :
  all_chars is_upper_alnum s = true → is_ascii s = true.
Proof.
  unfold is_ascii. induction s as [|c s IH]; simpl; [done|].
  intros [Hc Hs]%andb_true_iff. by rewrite (upper_alnum_ascii c Hc), IH.
Qed.

Lemma all_upper_alnum_fixed s :
  all_chars is_upper_alnum s = true → asciiUpperCase s = s.
Proof.
  induction s as [|c s IH]; simpl; [done|].
  intros [Hc Hs]%andb_true_iff. by rewrite (upper_alnum_upper_char c Hc), IH.
Qed.

Lemma all_upper_alnum_trimEnd s :
  all_chars is_upper_alnum s = true → trimEnd s = s.
Proof.
  induction s as [|c s IH]; simpl; [done|].
  intros [Hc Hs]%andb_true_iff.
  by rewrite (upper_alnum_not_space c Hc), IH.
Qed.

Lemma all_upper_alnum_trim s :
  all_chars is_upper_alnum s = true → trim s = s.
Proof.
  intros Hs. unfold trim.
  assert (trimStart s = s) as ->.
  { destruct s as [|c s]; [done|]. simpl in *.
    apply andb_true_iff in Hs as [Hc _].
    by rewrite (upper_alnum_not_space c Hc). }
  by apply all_upper_alnum_trimEnd.
Qed.

(** What the servers make of a key in [A-Z0-9]: nothing is trimmed off it
    and upper-casing keeps it. *)
Lemma upper_alnum_key_kept key :
  upper_on_ascii →
  all_chars is_upper_alnum key = true →
  trim key = key ∧ toUpperCase key = key.
Proof.
  intros Hascii Hkey. split; [by apply all_upper_alnum_trim|].
  rewrite (Hascii key (all_upper_alnum_ascii key Hkey)).
  by apply all_upper_alnum_fixed.
Qed.

Lemma charAt_chars i :
  i < 36 →
  ∃ c, Client.charAt Client.chars i = String c EmptyString
       ∧ is_upper_alnum c = true.
Proof.
  intros Hi.
  do 36 (destruct i as [|i]; [by eexists|]). lia.
Qed.

Lemma generateRoomKey_format picks :
  (∀ i, picks i < 36) →
  String.length (Client.generateRoomKey picks) = 6
  ∧ all_chars is_upper_alnum (Client.generateRoomKey picks) = true.
Proof.
  intros Hpicks. unfold Client.generateRoomKey. cbn [seq fold_left].
  destruct (charAt_chars _ (Hpicks 0)) as (c0 & -> & H0).
  destruct (charAt_chars _ (Hpicks 1)) as (c1 & -> & H1).
  destruct (charAt_chars _ (Hpicks 2)) as (c2 & -> & H2).
  destruct (charAt_chars _ (Hpicks 3)) as (c3 & -> & H3).
  destruct (charAt_chars _ (Hpicks 4)) as (c4 & -> & H4).
  destruct (charAt_chars _ (Hpicks 5)) as (c5 & -> & H5).
  cbv [String.append]. cbn [String.length all_chars].
  by rewrite H0, H1, H2, H3, H4, H5.
Qed.

Lemma client_validateRoomKey_spec key :
  Client.validateRoomKey key = true
  ↔ 3 ≤ String.length key ≤ 20 ∧ all_chars is_alnum key = true.
Proof.
  unfold Client.validateRoomKey, Client.keyPattern.
  rewrite !andb_true_iff, !Nat.leb_le, negb_true_iff.
  split; [tauto|]. intros [Hlen Hall]. split; [lia|]. split; [|done].
  destruct key; [simpl in Hlen; lia|done].
Qed.

(** The credentials the form stores. *)
Lemma joinRoom_credentials userRole roomKeyInput userNameInput picks cred :
  upper_on_ascii →
  (∀ i, picks i < 36) →
  Client.joinRoom userRole roomKeyInput userNameInput picks = inr cred →
  3 ≤ String.length (Client.currentRoom cred) ≤ 20
  ∧ all_chars is_upper_alnum (Client.currentRoom cred) = true
  ∧ is_empty (Client.userName cred) = false
  ∧ trim (Client.userName cred) = Client.userName cred.
Proof.
  intros Hascii Hpicks. unfold Client.joinRoom.
  set (roomKey := match roomKeyInput with Some _ => _ | None => _ end).
  set (userName := match userNameInput with Some _ => _ | None => _ end).
  destruct (is_empty userName) eqn:Hname; [done|].
  destruct (bool_decide _ && is_empty roomKey); [done|].
  destruct (is_empty roomKey) eqn:Hkey; simpl.
  - intros [= <-]. simpl.
    destruct (generateRoomKey_format picks Hpicks) as [Hlen Hall].
    destruct (upper_alnum_key_kept _ Hascii Hall) as [_ ->].
    rewrite Hlen. split; [lia|]. split; [done|]. split; [done|].
    subst userName. destruct userNameInput; [apply trim_idemp | done].
  - destruct (Client.validateRoomKey roomKey) eqn:Hvalid; [|done]. simpl.
    intros [= <-]. simpl.
    apply client_validateRoomKey_spec in Hvalid as [Hlen Hall].
    rewrite (Hascii roomKey (all_alnum_ascii roomKey Hall)).
    rewrite asciiUpperCase_length, all_upper_alnum_asciiUpperCase.
    split; [done|]. split; [done|]. split; [done|].
    subst userName. destruct userNameInput; [apply trim_idemp | done].
Qed.

Lemma robust_accepts_form_key key :
  upper_on_ascii →
  3 ≤ String.length key ≤ 20 →
  all_chars is_upper_alnum key = true →
  Robust.validateRoomKey (Str key) = true.
Proof.
  intros Hascii Hlen Hall.
  destruct (upper_alnum_key_kept key Hascii Hall) as [Htrim Hupper].
  apply validateRoomKey_spec. rewrite Htrim, Hupper.
  split; [|done]. intros ->. simpl in Hlen. lia.
Qed.

Lemma robust_accepts_form_name name :
  is_empty name = false → trim name = name →
  Robust.name_refused (Str name) = Some false.
Proof.
  intros Hname Htrim. unfold Robust.name_refused. simpl.
  rewrite Hname, Htrim. simpl. by destruct name.
Qed.

Lemma robust_form_request st sid now gen userRole cred eff :
  upper_on_ascii →
  3 ≤ String.length (Client.currentRoom cred) ≤ 20 →
  all_chars is_upper_alnum (Client.currentRoom cred) = true →
  is_empty (Client.userName cred) = false →
  trim (Client.userName cred) = Client.userName cred →
  eff ∈ (Robust.handle st
           (Client.to_robust sid (Client.attemptRoomJoin userRole cred)
              now gen)).2 →
  (∀ code,
     eff = ToSocket sid (Robust.RoomError code) →
     code = PROFESSOR_LIMIT_REACHED ∨ code = ROOM_NOT_FOUND
     ∨ code = NO_PROFESSOR ∨ code = STUDENT_LIMIT_REACHED)
  ∧ (∀ B r userName count profs studs,
       eff = ToSocket sid (Robust.RoomJoined B r userName count profs studs) →
       B = Client.currentRoom cred ∧ userName = Client.userName cred).
Proof.
  intros Hascii Hlen Hall Hname Htrim.
  pose proof (robust_accepts_form_key _ Hascii Hlen Hall) as Hvalid.
  pose proof (robust_accepts_form_name _ Hname Htrim) as Hrefused.
  destruct (upper_alnum_key_kept _ Hascii Hall) as [_ Hupper].
  assert (Htruthy : is_empty (Client.currentRoom cred) = false).
  { destruct (Client.currentRoom cred); [simpl in Hlen; lia|done]. }
  unfold Client.attemptRoomJoin. case_bool_decide; simpl.
  - unfold Robust.on_join_professor, Robust.createRoom, Robust.replay.
    cbn [Robust.pj_roomKey Robust.pj_professorName
         Robust.pj_createIfNotExists Robust.create_flag truthy str_of].
    rewrite Hrefused, Htruthy. cbn [negb andb]. rewrite Hvalid.
    cbn [negb str_of]. rewrite ?Hupper, ?Htrim.
    split_cases; intros Hin; invert_membership Hin; simplify_eq;
      try rewrite lookup_insert_eq in *; simplify_eq;
      (split; intros; simplify_eq; auto).
  - unfold Robust.on_join_student, Robust.replay.
    cbn [Robust.sj_roomKey Robust.sj_studentName str_of].
    rewrite Hrefused, Hvalid. cbn [negb str_of]. rewrite ?Hupper, ?Htrim.
    split_cases; intros Hin; invert_membership Hin; simplify_eq;
      (split; intros; simplify_eq; auto).
Qed.

Lemma simple_form_request st sid now userRole cred eff :
  upper_on_ascii →
  3 ≤ String.length (Client.currentRoom cred) ≤ 20 →
  all_chars is_upper_alnum (Client.currentRoom cred) = true →
  is_empty (Client.userName cred) = false →
  trim (Client.userName cred) = Client.userName cred →
  eff ∈ (Simple.handle st
           (Client.to_simple sid (Client.attemptRoomJoin userRole cred)
              now)).2 →
  (∀ code,
     eff = ToSocket sid (Simple.RoomError code) →
     code = PROFESSOR_EXISTS ∨ code = ROOM_NOT_FOUND ∨ code = ROOM_FULL
     ∨ (code = INVALID_NAME ∧ 50 < String.length (Client.userName cred)))
  ∧ (∀ B count r time,
       eff = ToSocket sid (Simple.RoomJoined B count r time) →
       B = Client.currentRoom cred).
Proof.
  intros Hascii Hlen Hall Hname Htrim.
  destruct (upper_alnum_key_kept _ Hascii Hall) as [Hkeytrim Hupper].
  assert (Htruthy : is_empty (Client.currentRoom cred) = false).
  { destruct (Client.currentRoom cred); [simpl in Hlen; lia|done]. }
  assert (Hlen1 : (String.length (Client.userName cred) <? 1) = false).
  { apply Nat.ltb_ge. destruct (Client.userName cred); [done|simpl; lia]. }
  assert (Hlen3 : (String.length (Client.currentRoom cred) <? 3) = false)
    by (apply Nat.ltb_ge; lia).
  assert (Hlen20 : (20 <? String.length (Client.currentRoom cred)) = false)
    by (apply Nat.ltb_ge; lia).
  unfold Client.attemptRoomJoin. case_bool_decide; simpl.
  - unfold Simple.on_join_professor, Simple.replay.
    cbn [Simple.pj_roomKey Simple.pj_professorName
         Simple.pj_createIfNotExists truthy].
    rewrite Hname, Htruthy. cbn [negb orb].
    rewrite Htrim, Hkeytrim, Hupper, Hlen1, Hlen3, Hlen20. cbn [orb].
    destruct (50 <? String.length (Client.userName cred)) eqn:H50.
    + apply Nat.ltb_lt in H50.
      intros Hin; invert_membership Hin; simplify_eq;
        (split; intros; simplify_eq; auto).
    + split_cases; intros Hin; invert_membership Hin; simplify_eq;
        (split; intros; simplify_eq; auto).
  - unfold Simple.on_join_student, Simple.replay.
    cbn [Simple.sj_roomKey Simple.sj_studentName truthy].
    rewrite Hname, Htruthy. cbn [negb orb].
    rewrite Htrim, Hkeytrim, Hupper, Hlen1. cbn [orb].
    destruct (50 <? String.length (Client.userName cred)) eqn:H50.
    + apply Nat.ltb_lt in H50.
      intros Hin; invert_membership Hin; simplify_eq;
        (split; intros; simplify_eq; auto).
    + split_cases; intros Hin; invert_membership Hin; simplify_eq;
        (split; intros; simplify_eq; auto).
Qed.

(** X12.  What the join form of the client lets through, the servers do
    not refuse for its format.  When [joinRoom] stores credentials (with the
    random picks of [generateRoomKey] in range), the stored room key has 3 to
    20 characters, all in [A-Z0-9], and the stored name is not empty.  The
    request [attemptRoomJoin] then emits is never answered with MISSING_DATA,
    INVALID_ROOM_KEY or INTERNAL_ERROR: the multi-professor server refuses it
    only for a limit, an unknown room or a room without professor, the
    single-professor server only for an occupied professor seat, an unknown
    room, a full room, or a name of more than 50 characters, which the form
    does not check.  A [room-joined] answer names exactly the stored key.
    Relies on upper-casing acting on ASCII text as it should. *)
Theorem form_requests_pass_validation :
  upper_on_ascii →
  ∀ userRole roomKeyInput userNameInput picks cred,
    (∀ i, picks i < 36) →
    Client.joinRoom userRole roomKeyInput userNameInput picks = inr cred →
    let key := Client.currentRoom cred in
    let name := Client.userName cred in
    let req := Client.attemptRoomJoin userRole cred in
    (3 ≤ String.length key ≤ 20
     ∧ all_chars is_upper_alnum key = true
     ∧ name ≠ EmptyString)
    ∧ (∀ st sid now gen eff,
         eff ∈ (Robust.handle st (Client.to_robust sid req now gen)).2 →
         (∀ code,
            eff = ToSocket sid (Robust.RoomError code) →
            code = PROFESSOR_LIMIT_REACHED ∨ code = ROOM_NOT_FOUND
            ∨ code = NO_PROFESSOR ∨ code = STUDENT_LIMIT_REACHED)
         ∧ (∀ B r userName count profs studs,
              eff = ToSocket sid
                      (Robust.RoomJoined B r userName count profs studs) →
              B = key ∧ userName = name))
    ∧ (∀ st sid now eff,
         eff ∈ (Simple.handle st (Client.to_simple sid req now)).2 →
         (∀ code,
            eff = ToSocket sid (Simple.RoomError code) →
            code = PROFESSOR_EXISTS ∨ code = ROOM_NOT_FOUND
            ∨ code = ROOM_FULL
            ∨ (code = INVALID_NAME ∧ 50 < String.length name))
         ∧ (∀ B count r time,
              eff = ToSocket sid (Simple.RoomJoined B count r time) →
              B = key)).
Proof.
  intros Hascii userRole roomKeyInput userNameInput picks cred Hpicks Hform
    key name req.
  destruct (joinRoom_credentials _ _ _ _ _ Hascii Hpicks Hform)
    as (Hlen & Hall & Hname & Htrim).
  split; [|split].
  - split; [done|]. split; [done|].
    subst name. intros Heq. by rewrite Heq in Hname.
  - intros st sid now gen eff. by apply robust_form_request.
  - intros st sid now eff. by apply simple_form_request.
Qed.

End JoinForm.

Section JoinFormExamples.
Import Js Ordered Transport.
#[local] Existing Instance Js.ascii_case.

(** Ann types a padded lower-case key; a professor who leaves the key field
    empty gets a generated one. *)
Lemma form_requests_pass_validation_witness :
  (Client.joinRoom (Some "professor") (Some " math101 ") (Some " Ann ")
     (λ _, 0)
   = inr {| Client.currentRoom := "MATH101"; Client.userName := "Ann" |}
   ∧ 3 ≤ String.length "MATH101" ≤ 20
   ∧ all_chars is_upper_alnum "MATH101" = true
   ∧ "Ann" ≠ EmptyString)
  ∧ (Client.joinRoom (Some "professor") None (Some "Ann")
       (λ i, 5 * i mod 36)
     = inr {| Client.currentRoom := "AFKPUZ"; Client.userName := "Ann" |}
     ∧ 3 ≤ String.length "AFKPUZ" ≤ 20
     ∧ all_chars is_upper_alnum "AFKPUZ" = true
     ∧ "Ann" ≠ EmptyString).
Proof.
  split.
  - split; [reflexivity|].
    refine (proj1 (@form_requests_pass_validation ascii_case
                     ascii_case_on_ascii (Some "professor")
                     (Some " math101 ") (Some " Ann ") (λ _, 0)
                     {| Client.currentRoom := "MATH101";
                        Client.userName := "Ann" |}
                     _ eq_refl)).
    intros _. lia.
  - split; [reflexivity|].
    refine (proj1 (@form_requests_pass_validation ascii_case
                     ascii_case_on_ascii (Some "professor")
                     None (Some "Ann") (λ i, 5 * i mod 36)
                     {| Client.currentRoom := "AFKPUZ";
                        Client.userName := "Ann" |}
                     _ eq_refl)).
    intros i. apply Nat.mod_upper_bound. lia.
Defined.

End JoinFormExamples.
